(** * JiraIssueLogger: the actual-date inference engine and the business-day
    duration calculator

    A shallow embedding of

    - [jira_logger/core/jira/parser.py]  ([log], [calculate_duration],
      [detect_actual_dates], [extract_jira_data]),
    - [jira_logger/core/jira/client.py]  ([log], [detect_actual_dates]),
    - [jira_logger/utils/date_utils.py]  ([parse_iso_date],
      [format_iso_date], [calculate_duration], [get_date_range],
      [is_weekday]),

    followed by the properties of the design specification that concern them.

    Python values are the values [response.json()] can produce; an exception
    is an explicit outcome [Raise]; the module-level dictionary
    [DEVELOPMENT_STATUSES], which the functions read each time they are
    called, is passed explicitly. A [datetime] is a reading between
    [datetime.min] and [datetime.max]: adding days past either end raises
    [OverflowError], as in Python. *)

From Stdlib Require Import ZArith List String Ascii Bool Lia.
Import ListNotations.

Local Open Scope string_scope.
Local Open Scope list_scope.
Local Open Scope Z_scope.

(* ===================================================================== *)
(** * Python values *)
(* ===================================================================== *)

Module Py.

(** The values of a decoded JSON document. Numbers are kept as integers:
    none of the code below computes with a number, it only tells strings,
    dictionaries, lists and [None] apart. A dictionary is the list of its
    items in insertion order; its keys are distinct. *)
#[warnings="-register-all"]
Inductive value : Type :=
| PNone
| PBool (b : bool)
| PInt (n : Z)
| PStr (s : string)
| PList (l : list value)
| PDict (items : list (string * value)).

(** The exceptions the modelled code can raise. *)
Inductive exn : Type :=
| AttributeError   (* [x.get] on a value that is not a dictionary *)
| TypeError        (* iterating a non-iterable, naive vs aware comparison *)
| OverflowError.   (* a date past [datetime.max] or before [datetime.min] *)

(** Outcome of a computation that may raise. *)
Inductive result (A : Type) : Type :=
| Ok (a : A)
| Raise (e : exn).

Arguments Ok {A} a.
Arguments Raise {A} e.

Definition bind {A B} (m : result A) (k : A -> result B) : result B :=
  match m with
  | Ok a => k a
  | Raise e => Raise e
  end.

(** [bool(v)]: the truth value of [v]. *)
Definition truthy (v : value) : bool :=
  match v with
  | PNone => false
  | PBool b => b
  | PInt n => negb (n =? 0)
  | PStr s => negb (String.eqb s "")
  | PList l => match l with [] => false | _ => true end
  | PDict items => match items with [] => false | _ => true end
  end.

(** [d[k]] on the items of a dictionary, when the key is there. *)
Fixpoint lookup (k : string) (items : list (string * value)) : option value :=
  match items with
  | [] => None
  | (k', v) :: rest => if String.eqb k k' then Some v else lookup k rest
  end.

(** [v.get(k, default)]: only a dictionary has the method. *)
Definition get (v : value) (k : string) (default : value) : result value :=
  match v with
  | PDict items =>
      Ok (match lookup k items with Some x => x | None => default end)
  | _ => Raise AttributeError
  end.

(** [for x in v]: the elements a loop over [v] visits. A list yields its
    elements, a dictionary its keys, a string its characters; nothing else
    is iterable. *)
Definition iter (v : value) : result (list value) :=
  match v with
  | PList l => Ok l
  | PDict items => Ok (map (fun kv => PStr (fst kv)) items)
  | PStr s => Ok (map (fun c => PStr (String c EmptyString)) (list_ascii_of_string s))
  | _ => Raise TypeError
  end.

(** [x == y]. [True == 1] and [False == 0] as in Python; lists compare
    element by element; two dictionaries are equal when they have as many
    items and every item of the first is found, equal, in the second. *)
Fixpoint eq (x y : value) {struct x} : bool :=
  match x, y with
  | PNone, PNone => true
  | PBool a, PBool b => Bool.eqb a b
  | PBool a, PInt n => Z.b2z a =? n
  | PInt n, PBool b => n =? Z.b2z b
  | PInt a, PInt b => a =? b
  | PStr a, PStr b => String.eqb a b
  | PList a, PList b =>
      (fix go (l r : list value) {struct l} : bool :=
         match l, r with
         | [], [] => true
         | u :: l', v :: r' => eq u v && go l' r'
         | _, _ => false
         end) a b
  | PDict a, PDict b =>
      Nat.eqb (List.length a) (List.length b) &&
      (fix go (l : list (string * value)) {struct l} : bool :=
         match l with
         | [] => true
         | (k, u) :: l' =>
             match lookup k b with
             | Some v => eq u v
             | None => false
             end && go l'
         end) a
  | _, _ => false
  end.

(** [v is None]. *)
Definition is_none (v : value) : bool :=
  match v with PNone => true | _ => false end.

(** [v in labels] for a list of string labels. *)
Definition contains (labels : list string) (v : value) : bool :=
  existsb (fun s => eq (PStr s) v) labels.

(** [s.replace(old, new)] for a one-character [old]. *)
Fixpoint replace_char (old : ascii) (new : string) (s : string) : string :=
  match s with
  | EmptyString => EmptyString
  | String c rest =>
      if Ascii.eqb c old then (new ++ replace_char old new rest)%string
      else String c (replace_char old new rest)
  end.

End Py.

Notation "x <- m ;; k" := (Py.bind m (fun x => k))
  (at level 61, m at next level, right associativity).

(* ===================================================================== *)
(** * Data shared by the two Jira modules *)
(* ===================================================================== *)

(** One collected status change: the dictionary
    [{"created": ..., "from": ..., "to": ...}]. Each entry is whatever
    [.get] returned, [PNone] when the key was missing. *)
Record change : Type := {
  created : Py.value;
  from : Py.value;
  to : Py.value
}.

(** The dictionary [detect_actual_dates] returns. An absent entry is
    [PNone]. *)
Record actual_dates : Type := {
  start : Py.value;
  finish : Py.value;
  start_method : Py.value;
  finish_method : Py.value
}.

(** The dictionary [extract_jira_data] returns, with its two groups
    "Planned" and "Actual" laid flat: [Planned_start] is
    [result["Planned"]["Planned start"]], [Start_method] is
    [result["Actual"]["Start method"]], and so on. *)
Record jira_details : Type := {
  Planned_start : Py.value;
  Planned_finish : Py.value;
  Planned_duration : Py.value;
  Actual_start : Py.value;
  Actual_finish : Py.value;
  Actual_duration : Py.value;
  Start_method : Py.value;
  Finish_method : Py.value
}.

(** The module-level dictionary [DEVELOPMENT_STATUSES], with its two keys
    ["start"] and ["finish"]. *)
Record development_statuses : Type := {
  start_statuses : list string;
  finish_statuses : list string
}.

(** [enumerate(l)]. *)
Definition enumerate {A : Type} (l : list A) : list (nat * A) :=
  combine (seq 0 (List.length l)) l.

(** [next((change["created"] for change in changes if cond(change)), None)]. *)
Definition next_created (cond : change -> bool) (changes : list change) : Py.value :=
  match find cond changes with
  | Some change => created change
  | None => Py.PNone
  end.

(** [next((date for date in strategies if date is not None), None)]. *)
Definition first_not_none (strategies : list Py.value) : Py.value :=
  match find (fun date => negb (Py.is_none date)) strategies with
  | Some date => date
  | None => Py.PNone
  end.

(* ===================================================================== *)
(** * [datetime] of the Python standard library *)
(* ===================================================================== *)

Module DateTime.

(** Microseconds in [timedelta(days=1)]. *)
Definition DAY : Z := 86400000000.

(** A [datetime.datetime]: its wall-clock reading, in microseconds since
    0001-01-01T00:00:00, and its [tzinfo]: [None] for a naive value,
    otherwise the UTC offset in microseconds. The values Python can build
    are those [in_range]: from [datetime.min], 0001-01-01T00:00:00, to
    [datetime.max], 9999-12-31T23:59:59.999999. *)
Record datetime : Type := {
  wall : Z;
  utcoffset : option Z
}.

(** [d.toordinal()]: the day number of the calendar date, 0001-01-01 is 1. *)
Definition toordinal (d : datetime) : Z := wall d / DAY + 1.

(** Microseconds since midnight of the calendar date. *)
Definition time_of_day (d : datetime) : Z := wall d mod DAY.

(** [d.weekday()]: Monday is 0 and Sunday is 6. *)
Definition weekday (d : datetime) : Z := (toordinal d + 6) mod 7.

(** [date.max.toordinal()]: the ordinal of 9999-12-31. *)
Definition MAXORDINAL : Z := 3652059.

(** The reading lies between [datetime.min] and [datetime.max]. *)
Definition in_range (d : datetime) : bool :=
  (0 <=? wall d) && (wall d <? MAXORDINAL * DAY).

(** The reading of [d] moved [n] days, same time of day, same [tzinfo]. *)
Definition plus_days (d : datetime) (n : Z) : datetime :=
  {| wall := wall d + n * DAY; utcoffset := utcoffset d |}.

(** [d + datetime.timedelta(days=n)]: [OverflowError] when the date leaves
    the years 1 to 9999. *)
Definition add_days (d : datetime) (n : Z) : Py.result datetime :=
  if in_range (plus_days d n) then Py.Ok (plus_days d n)
  else Py.Raise Py.OverflowError.

(** The absolute instant of an aware value, the reading of a naive one. *)
Definition instant (d : datetime) : Z :=
  match utcoffset d with
  | Some off => wall d - off
  | None => wall d
  end.

(** [a <= b]. Two naive values compare by their readings, two aware values
    by their instants; a naive and an aware value do not compare. *)
Definition le (a b : datetime) : Py.result bool :=
  match utcoffset a, utcoffset b with
  | None, None => Py.Ok (wall a <=? wall b)
  | Some oa, Some ob => Py.Ok (wall a - oa <=? wall b - ob)
  | _, _ => Py.Raise Py.TypeError
  end.

(** [a < b], with the same rule. *)
Definition lt (a b : datetime) : Py.result bool :=
  match utcoffset a, utcoffset b with
  | None, None => Py.Ok (wall a <? wall b)
  | Some oa, Some ob => Py.Ok (wall a - oa <? wall b - ob)
  | _, _ => Py.Raise Py.TypeError
  end.

(** ** Calendar arithmetic of [datetime.py], to write dates down *)

Definition is_leap (year : Z) : bool :=
  (year mod 4 =? 0) && (negb (year mod 100 =? 0) || (year mod 400 =? 0)).

Definition days_before_year (year : Z) : Z :=
  let y := year - 1 in y * 365 + y / 4 - y / 100 + y / 400.

Definition days_in_month (year month : Z) : Z :=
  if (month =? 2) && is_leap year then 29
  else nth (Z.to_nat month) [0; 31; 28; 31; 30; 31; 30; 31; 31; 30; 31; 30; 31] 0.

Definition days_before_month (year month : Z) : Z :=
  nth (Z.to_nat month) [0; 0; 31; 59; 90; 120; 151; 181; 212; 243; 273; 304; 334] 0
  + (if (2 <? month) && is_leap year then 1 else 0).

Definition ymd2ord (year month day : Z) : Z :=
  days_before_year year + days_before_month year month + day.

(** [datetime(year, month, day, hour, minute, second, tzinfo=tz)]. *)
Definition make (year month day hour minute second : Z) (tz : option Z) : datetime :=
  {| wall := (ymd2ord year month day - 1) * DAY
             + ((hour * 60 + minute) * 60 + second) * 1000000;
     utcoffset := tz |}.

(** ** A reader for the fixed-width ISO forms

    [datetime.fromisoformat] belongs to the Python library and is a
    parameter of the functions below. [fromisoformat_fixed] reads the forms
    [YYYY-MM-DD], [YYYY-MM-DDTHH:MM:SS] and [YYYY-MM-DDTHH:MM:SS+HH:MM]
    (or [-HH:MM]) the way the library does, and is the instance at which the
    development runs on concrete strings. *)

Definition digit (c : ascii) : option Z :=
  let n := Z.of_nat (nat_of_ascii c) in
  if (48 <=? n) && (n <=? 57) then Some (n - 48) else None.

Fixpoint number (acc : Z) (cs : list ascii) : option Z :=
  match cs with
  | [] => Some acc
  | c :: rest =>
      match digit c with
      | Some d => number (acc * 10 + d) rest
      | None => None
      end
  end.

Definition is_char (c : ascii) (cs : list ascii) : bool :=
  match cs with
  | [c'] => Ascii.eqb c c'
  | _ => false
  end.

(** [YYYY-MM-DD] to the ordinal of the date. *)
Definition read_date (cs : list ascii) : option Z :=
  if negb (Nat.eqb (List.length cs) 10) then None else
  if negb (is_char "-" (firstn 1 (skipn 4 cs)) && is_char "-" (firstn 1 (skipn 7 cs)))
  then None else
  match number 0 (firstn 4 cs), number 0 (firstn 2 (skipn 5 cs)),
        number 0 (skipn 8 cs) with
  | Some y, Some m, Some d =>
      if (1 <=? y) && (1 <=? m) && (m <=? 12) && (1 <=? d) && (d <=? days_in_month y m)
      then Some (ymd2ord y m d) else None
  | _, _, _ => None
  end.

(** [HH:MM:SS] to microseconds since midnight. *)
Definition read_time (cs : list ascii) : option Z :=
  if negb (Nat.eqb (List.length cs) 8) then None else
  if negb (is_char ":" (firstn 1 (skipn 2 cs)) && is_char ":" (firstn 1 (skipn 5 cs)))
  then None else
  match number 0 (firstn 2 cs), number 0 (firstn 2 (skipn 3 cs)),
        number 0 (skipn 6 cs) with
  | Some h, Some m, Some s =>
      if (h <? 24) && (m <? 60) && (s <? 60)
      then Some (((h * 60 + m) * 60 + s) * 1000000) else None
  | _, _, _ => None
  end.

(** [+HH:MM] or [-HH:MM] to an offset in microseconds. *)
Definition read_offset (cs : list ascii) : option Z :=
  if negb (Nat.eqb (List.length cs) 6) then None else
  if negb (is_char ":" (firstn 1 (skipn 3 cs))) then None else
  match number 0 (firstn 2 (skipn 1 cs)), number 0 (skipn 4 cs) with
  | Some h, Some m =>
      if (h <? 24) && (m <? 60) then
        let off := (h * 60 + m) * 60 * 1000000 in
        if is_char "+" (firstn 1 cs) then Some off
        else if is_char "-" (firstn 1 cs) then Some (- off)
        else None
      else None
  | _, _ => None
  end.

Definition fromisoformat_fixed (s : string) : option datetime :=
  let cs := list_ascii_of_string s in
  match read_date (firstn 10 cs) with
  | None => None
  | Some ord =>
      let day := (ord - 1) * DAY in
      match skipn 10 cs with
      | [] => Some {| wall := day; utcoffset := None |}
      | _ :: hms =>
          match read_time (firstn 8 hms) with
          | None => None
          | Some t =>
              match skipn 8 hms with
              | [] => Some {| wall := day + t; utcoffset := None |}
              | tz =>
                  match read_offset tz with
                  | Some off => Some {| wall := day + t; utcoffset := Some off |}
                  | None => None
                  end
              end
          end
      end
  end.

(** ** A writer for the same forms

    [datetime.isoformat] is a parameter as well; [isoformat_fixed] writes a
    value the way the library does, and is the instance used to run
    [get_date_range]. [ord2ymd] is the inverse of [ymd2ord]. *)

Definition ord2ymd (ordinal : Z) : Z * Z * Z :=
  let n := ordinal - 1 in
  let n400 := n / 146097 in
  let n := n mod 146097 in
  let n100 := n / 36524 in
  let n := n mod 36524 in
  let n4 := n / 1461 in
  let n := n mod 1461 in
  let n1 := n / 365 in
  let n := n mod 365 in
  let year := n400 * 400 + 1 + n100 * 100 + n4 * 4 + n1 in
  if (n1 =? 4) || (n100 =? 4) then (year - 1, 12, 31) else
  let leapyear := (n1 =? 3) && (negb (n4 =? 24) || (n100 =? 3)) in
  let month := (n + 50) / 32 in
  let before m :=
    nth (Z.to_nat m) [0; 0; 31; 59; 90; 120; 151; 181; 212; 243; 273; 304; 334] 0
    + (if (2 <? m) && leapyear then 1 else 0) in
  let month := if n <? before month then month - 1 else month in
  (year, month, n - before month + 1).

Definition digit_char (d : Z) : ascii := ascii_of_nat (Z.to_nat (48 + d mod 10)).

(** [n] in decimal, padded with zeros to [width] digits. *)
Fixpoint zero_padded (width : nat) (n : Z) : string :=
  match width with
  | O => EmptyString
  | S w => (zero_padded w (n / 10) ++ String (digit_char n) EmptyString)%string
  end.

Definition isoformat_fixed (d : datetime) : string :=
  let '(year, month, day) := ord2ymd (toordinal d) in
  let t := time_of_day d in
  let seconds := t / 1000000 in
  let micro := t mod 1000000 in
  let clock (s : Z) :=
    (zero_padded 2 (s / 3600) ++ ":" ++ zero_padded 2 (s / 60 mod 60) ++ ":"
     ++ zero_padded 2 (s mod 60))%string in
  (zero_padded 4 year ++ "-" ++ zero_padded 2 month ++ "-" ++ zero_padded 2 day
   ++ "T" ++ clock seconds
   ++ (if (micro =? 0)%Z then "" else "." ++ zero_padded 6 micro)
   ++ match utcoffset d with
      | None => ""
      | Some off =>
          let a := Z.abs off / 1000000 in
          (if (off <? 0)%Z then "-" else "+")
          ++ zero_padded 2 (a / 3600) ++ ":" ++ zero_padded 2 (a / 60 mod 60)
          ++ (if (a mod 60 =? 0)%Z then "" else ":" ++ zero_padded 2 (a mod 60))
      end)%string.

End DateTime.

(* ===================================================================== *)
(** * [jira_logger/utils/date_utils.py] *)
(* ===================================================================== *)

(** [round(n, ndigits)] for an integer [n]: unchanged for [ndigits >= 0],
    otherwise rounded half to even to a multiple of [10 ** -ndigits]. *)
Definition round (n ndigits : Z) : Z :=
  if 0 <=? ndigits then n else
  let p := 10 ^ (- ndigits) in
  let q := n / p in
  let r := n mod p in
  if 2 * r <? p then q * p
  else if p <? 2 * r then (q + 1) * p
  else if Z.even q then q * p else (q + 1) * p.

(** The loop of both [calculate_duration]s:
<<
    while current <= end:
        if current.weekday() < 5:
            total_days += 1
        current += datetime.timedelta(days=1)
>>
    [fuel] bounds the number of tests of the condition; [None] when it runs
    out before the condition fails. *)
Fixpoint while_loop (fuel : nat) (current end_ : DateTime.datetime) (total_days : Z)
  : option (Py.result Z) :=
  match fuel with
  | O => None
  | S fuel' =>
      match DateTime.le current end_ with
      | Py.Raise e => Some (Py.Raise e)
      | Py.Ok false => Some (Py.Ok total_days)
      | Py.Ok true =>
          let total_days' :=
            if DateTime.weekday current <? 5 then total_days + 1 else total_days in
          match DateTime.add_days current 1 with
          | Py.Raise e => Some (Py.Raise e)
          | Py.Ok current' => while_loop fuel' current' end_ total_days'
          end
      end
  end.

(** Tests of the condition the loop makes from [start]: one per day that
    fits between the two instants, and the failing one. *)
Definition tests (start end_ : DateTime.datetime) : nat :=
  S (Z.to_nat ((DateTime.instant end_ - DateTime.instant start) / DateTime.DAY + 1)).

(** The loop of [get_date_range]:
<<
    while days_added < days:
        end += datetime.timedelta(days=1)
        if end.weekday() < 5:
            days_added += 1
>>
    [None] when [fuel] tests of the condition were not enough. *)
Fixpoint range_loop (fuel : nat) (end_ : DateTime.datetime) (days_added days : Z)
  : option (Py.result DateTime.datetime) :=
  match fuel with
  | O => None
  | S fuel' =>
      if days_added <? days then
        match DateTime.add_days end_ 1 with
        | Py.Raise e => Some (Py.Raise e)
        | Py.Ok end_ =>
            let days_added :=
              if DateTime.weekday end_ <? 5 then days_added + 1 else days_added in
            range_loop fuel' end_ days_added days
        end
      else Some (Py.Ok end_)
  end.

(** What [get_date_range] does: it returns the pair
    [(start_date, format_iso_date(end))], raises [ValueError] with a
    message, or lets an exception of the loop through. *)
Inductive date_range : Type :=
| Range (start_date : string) (end_date : option string)
| RaiseValueError (message : string)
| Raised (e : Py.exn).

(** [except (ValueError, TypeError)]: of the exceptions the loop can raise,
    the clause catches [TypeError]. A [ValueError] of the library is the
    [None] of [fromisoformat]. *)
Definition caught (e : Py.exn) : bool :=
  match e with
  | Py.TypeError => true
  | _ => false
  end.

(** The dictionary [log_levels] of both [log] functions, as a lookup. *)
Definition log_levels (name : string) : option Z :=
  if String.eqb name "WARN" then Some 3
  else if String.eqb name "INFO" then Some 2
  else if String.eqb name "DEBUG" then Some 1
  else None.

(** [not date_str] for an [Optional[str]]: [None] and the empty string. *)
Definition not_str (date_str : option string) : bool :=
  match date_str with
  | None => true
  | Some s => String.eqb s ""
  end.

Module DateUtils.

Section WithLibrary.

(** [datetime.datetime.fromisoformat]; [None] stands for its [ValueError]. *)
Variable fromisoformat : string -> option DateTime.datetime.

(** [datetime.datetime.isoformat]. *)
Variable isoformat : DateTime.datetime -> string.

(** [date_str] is [Optional[str]]. *)
Definition parse_iso_date (date_str : option string) : option DateTime.datetime :=
  if not_str date_str then None else
  match date_str with
  | Some s => fromisoformat (Py.replace_char "Z" "+00:00" s)
  | None => None
  end.

(** The outer [option] is [None] only if the loop ran out of fuel, which
    [calculate_duration_returns] excludes; [Ok None] is the Python [None]. *)
Definition calculate_duration (start_date end_date : option string)
  : option (Py.result (option Z)) :=
  if not_str start_date || not_str end_date then Some (Py.Ok None) else
  match parse_iso_date start_date, parse_iso_date end_date with
  | Some start, Some end_ =>
      match while_loop (tests start end_) start end_ 0 with
      | Some (Py.Ok total_days) => Some (Py.Ok (Some (round total_days 2)))
      | Some (Py.Raise e) => Some (Py.Raise e)
      | None => None
      end
  | _, _ => Some (Py.Ok None)
  end.

(** A datetime is never falsy, so [not dt] is [dt is None]. *)
Definition format_iso_date (dt : option DateTime.datetime) : option string :=
  match dt with
  | None => None
  | Some dt => Some (isoformat dt)
  end.

(** The outer [option] is [None] only if the loop ran out of fuel, which
    [get_date_range_returns] excludes. *)
Definition get_date_range (start_date : string) (days : Z) : option date_range :=
  match parse_iso_date (Some start_date) with
  | None => Some (RaiseValueError ("Invalid start date: " ++ start_date))
  | Some start =>
      (* Calculate end date (add days, not counting weekends) *)
      match range_loop (S (3 * Z.to_nat days)) start 0 days with
      | Some (Py.Ok end_) => Some (Range start_date (format_iso_date (Some end_)))
      | Some (Py.Raise e) => Some (Raised e)
      | None => None
      end
  end.

Definition is_weekday (date_str : string) : bool :=
  match parse_iso_date (Some date_str) with
  | None => false
  | Some dt => DateTime.weekday dt <? 5
  end.

End WithLibrary.

End DateUtils.

(* ===================================================================== *)
(** * [jira_logger/core/jira/parser.py] *)
(* ===================================================================== *)

Module Parser.

Definition DEVELOPMENT_STATUSES : development_statuses :=
  {| start_statuses := ["In Progress"; "Code review"];
     finish_statuses := ["Deployed AC"; "Ready for deployment"] |}.

Definition LOG_LEVEL : string := "INFO".

(** [log(message, level)], reading [LOG_LEVEL] where the source reads the
    global: the lines it prints. *)
Definition log_with (LOG_LEVEL message level : string) : list string :=
  let current_level :=
    match log_levels LOG_LEVEL with Some n => n | None => 2 end in
  let message_level :=
    match log_levels level with Some n => n | None => 2 end in
  if current_level <=? message_level
  then [("[" ++ level ++ "] " ++ message)%string]
  else [].

Definition log (message level : string) : list string :=
  log_with LOG_LEVEL message level.

Section WithLibrary.

Variable fromisoformat : string -> option DateTime.datetime.

(** Everything after the first test is inside
    [try: ... except (ValueError, TypeError): return None]; any other
    exception of the loop goes through. *)
Definition calculate_duration (start_date end_date : option string)
  : option (Py.result (option Z)) :=
  if not_str start_date || not_str end_date then Some (Py.Ok None) else
  match start_date, end_date with
  | Some s, Some e =>
      match fromisoformat (Py.replace_char "Z" "+00:00" s) with
      | None => Some (Py.Ok None)
      | Some start =>
          match fromisoformat (Py.replace_char "Z" "+00:00" e) with
          | None => Some (Py.Ok None)
          | Some end_ =>
              match while_loop (tests start end_) start end_ 0 with
              | Some (Py.Ok total_days) => Some (Py.Ok (Some (round total_days 2)))
              | Some (Py.Raise exc) =>
                  if caught exc then Some (Py.Ok None) else Some (Py.Raise exc)
              | None => None
              end
          end
      end
  | _, _ => Some (Py.Ok None)
  end.

End WithLibrary.

(** The inner loop of the collection, over the items of one history entry. *)
Fixpoint collect_items (history : Py.value) (items : list Py.value)
  (status_changes : list change) : Py.result (list change) :=
  match items with
  | [] => Py.Ok status_changes
  | item :: rest =>
      field <- Py.get item "field" Py.PNone ;;
      if Py.eq field (Py.PStr "status") then
        c <- Py.get history "created" Py.PNone ;;
        f <- Py.get item "fromString" Py.PNone ;;
        t <- Py.get item "toString" Py.PNone ;;
        collect_items history rest
          (status_changes ++ [{| created := c; from := f; to := t |}])
      else collect_items history rest status_changes
  end.

(** The outer loop, over the history entries. *)
Fixpoint collect_histories (histories : list Py.value)
  (status_changes : list change) : Py.result (list change) :=
  match histories with
  | [] => Py.Ok status_changes
  | history :: rest =>
      items <- Py.get history "items" (Py.PList []) ;;
      items <- Py.iter items ;;
      status_changes <- collect_items history items status_changes ;;
      collect_histories rest status_changes
  end.

(** [# Collect all status changes]. *)
Definition collect_status_changes (jira_data : Py.value) : Py.result (list change) :=
  changelog <- Py.get jira_data "changelog" (Py.PDict []) ;;
  histories <- Py.get changelog "histories" (Py.PList []) ;;
  histories <- Py.iter histories ;;
  collect_histories histories [].

(** [# Detect start date strategies]. *)
Definition start_strategies (statuses : development_statuses)
  (status_changes : list change) : list Py.value :=
  [ (* First development-related status *)
    next_created
      (fun change => Py.contains (start_statuses statuses) (to change))
      status_changes;
    (* First 'In Progress' after 'Ready for planning' *)
    match
      find (fun ic =>
              Py.eq (to (snd ic)) (Py.PStr "In Progress")
              && existsb (fun prev => Py.eq (to prev) (Py.PStr "Ready for planning"))
                   (firstn (fst ic) status_changes))
        (enumerate status_changes)
    with
    | Some ic => created (snd ic)
    | None => Py.PNone
    end;
    (* First non-initial status *)
    match status_changes with
    | [] => Py.PNone
    | change :: _ => created change
    end ].

(** [# Detect finish date strategies]. *)
Definition finish_strategies (statuses : development_statuses)
  (status_changes : list change) : list Py.value :=
  [ (* Last development-related finish status *)
    next_created
      (fun change => Py.contains (finish_statuses statuses) (to change))
      (rev status_changes);
    (* Last 'Deployed AC' status *)
    next_created
      (fun change => Py.eq (to change) (Py.PStr "Deployed AC"))
      (rev status_changes);
    (* Last status change *)
    match status_changes with
    | [] => Py.PNone
    | _ => created (last status_changes
                      {| created := Py.PNone; from := Py.PNone; to := Py.PNone |})
    end ].

(** The rest of [detect_actual_dates], from the collected status changes
    on: the selection and the method labels. *)
Definition select_dates (statuses : development_statuses)
  (status_changes : list change) : actual_dates :=
  let start_strategies := start_strategies statuses status_changes in
  let finish_strategies := finish_strategies statuses status_changes in
  (* Select the first non-None strategy *)
  let start_date := first_not_none start_strategies in
  let finish_date := first_not_none finish_strategies in
  (* Determine detection methods *)
  let start_method :=
    if Py.eq start_date (nth 0 start_strategies Py.PNone)
    then "First development status"
    else if Py.eq start_date (nth 1 start_strategies Py.PNone)
    then "First 'In Progress' after planning"
    else "First status change" in
  let finish_method :=
    if Py.eq finish_date (nth 0 finish_strategies Py.PNone)
    then "Last development finish status"
    else if Py.eq finish_date (nth 1 finish_strategies Py.PNone)
    then "Last 'Deployed AC' status"
    else "Last status change" in
  {| start := start_date; finish := finish_date;
     start_method := Py.PStr start_method;
     finish_method := Py.PStr finish_method |}.

(** [detect_actual_dates], reading [statuses] where the source reads the
    global [DEVELOPMENT_STATUSES]. The four [log(..., "DEBUG")] calls only
    print and are left out. *)
Definition detect_actual_dates_with (statuses : development_statuses)
  (jira_data : Py.value) : Py.result actual_dates :=
  if negb (Py.truthy jira_data) then
    Py.Ok {| start := Py.PNone; finish := Py.PNone;
             start_method := Py.PNone; finish_method := Py.PNone |}
  else
    status_changes <- collect_status_changes jira_data ;;
    Py.Ok (select_dates statuses status_changes).

(** The function as the module ships it. *)
Definition detect_actual_dates (jira_data : Py.value) : Py.result actual_dates :=
  detect_actual_dates_with DEVELOPMENT_STATUSES jira_data.

(** [calculate_duration] as [extract_jira_data] calls it, on decoded values
    of any type. Only a string has [.replace]: on any other truthy value the
    call raises [AttributeError], which the [except (ValueError, TypeError)]
    clause lets through, like the [OverflowError] of the loop. *)
Definition calculate_duration_value
  (fromisoformat : string -> option DateTime.datetime)
  (start_date end_date : Py.value) : option (Py.result (option Z)) :=
  if negb (Py.truthy start_date) || negb (Py.truthy end_date)
  then Some (Py.Ok None) else
  match start_date with
  | Py.PStr s =>
      match fromisoformat (Py.replace_char "Z" "+00:00" s) with
      | None => Some (Py.Ok None)
      | Some start =>
          match end_date with
          | Py.PStr e =>
              match fromisoformat (Py.replace_char "Z" "+00:00" e) with
              | None => Some (Py.Ok None)
              | Some end_ =>
                  match while_loop (tests start end_) start end_ 0 with
                  | Some (Py.Ok total_days) =>
                      Some (Py.Ok (Some (round total_days 2)))
                  | Some (Py.Raise exc) =>
                      if caught exc then Some (Py.Ok None) else Some (Py.Raise exc)
                  | None => None
                  end
              end
          | _ => Some (Py.Raise Py.AttributeError)
          end
      end
  | _ => Some (Py.Raise Py.AttributeError)
  end.

(** A duration as an entry of the result: a number or [None]. *)
Definition duration_entry (d : option Z) : Py.value :=
  match d with
  | Some n => Py.PInt n
  | None => Py.PNone
  end.

(** [jira_data.get("fields", {}).get(name)]. *)
Definition planned_field (name : string) (jira_data : Py.value) : Py.result Py.value :=
  fields <- Py.get jira_data "fields" (Py.PDict []) ;;
  Py.get fields name Py.PNone.

(** [extract_jira_data], reading [statuses] where [detect_actual_dates]
    reads the global. [Ok None] is the Python [None]; the outer [option] is
    [None] only if a duration loop ran out of fuel. *)
Definition extract_jira_data_with (statuses : development_statuses)
  (fromisoformat : string -> option DateTime.datetime)
  (jira_data : Py.value) : option (Py.result (option jira_details)) :=
  if negb (Py.truthy jira_data) then Some (Py.Ok None) else
  (* Extract planned dates *)
  match planned_field "customfield_15990" jira_data with
  | Py.Raise e => Some (Py.Raise e)
  | Py.Ok planned_dev_start =>
  match planned_field "customfield_15994" jira_data with
  | Py.Raise e => Some (Py.Raise e)
  | Py.Ok planned_dev_finish =>
  (* Detect actual dates using advanced method *)
  match detect_actual_dates_with statuses jira_data with
  | Py.Raise e => Some (Py.Raise e)
  | Py.Ok actual_dates =>
  (* Format results *)
  match calculate_duration_value fromisoformat planned_dev_start planned_dev_finish with
  | None => None
  | Some (Py.Raise e) => Some (Py.Raise e)
  | Some (Py.Ok planned_duration) =>
  match calculate_duration_value fromisoformat
          (start actual_dates) (finish actual_dates) with
  | None => None
  | Some (Py.Raise e) => Some (Py.Raise e)
  | Some (Py.Ok actual_duration) =>
      Some (Py.Ok (Some
        {| Planned_start := planned_dev_start;
           Planned_finish := planned_dev_finish;
           Planned_duration := duration_entry planned_duration;
           Actual_start := start actual_dates;
           Actual_finish := finish actual_dates;
           Actual_duration := duration_entry actual_duration;
           Start_method := start_method actual_dates;
           Finish_method := finish_method actual_dates |}))
  end end end end end.

Definition extract_jira_data
  (fromisoformat : string -> option DateTime.datetime)
  (jira_data : Py.value) : option (Py.result (option jira_details)) :=
  extract_jira_data_with DEVELOPMENT_STATUSES fromisoformat jira_data.

End Parser.

(* ===================================================================== *)
(** * [jira_logger/core/jira/client.py] *)
(* ===================================================================== *)

Module Client.

Definition DEVELOPMENT_STATUSES : development_statuses :=
  {| start_statuses := ["In Progress"; "Code review"];
     finish_statuses := ["Deployed AC"; "Ready for deployment"] |}.

Definition LOG_LEVEL : string := "DEBUG".

(** [log(message, level)], reading [LOG_LEVEL] where the source reads the
    global: the lines it prints. *)
Definition log_with (LOG_LEVEL message level : string) : list string :=
  let current_level :=
    match log_levels LOG_LEVEL with Some n => n | None => 2 end in
  let message_level :=
    match log_levels level with Some n => n | None => 2 end in
  if current_level <=? message_level
  then [("[" ++ level ++ "] " ++ message)%string]
  else [].

Definition log (message level : string) : list string :=
  log_with LOG_LEVEL message level.

(** The inner loop of the collection, over the items of one history entry. *)
Fixpoint collect_items (history : Py.value) (items : list Py.value)
  (status_changes : list change) : Py.result (list change) :=
  match items with
  | [] => Py.Ok status_changes
  | item :: rest =>
      field <- Py.get item "field" Py.PNone ;;
      if Py.eq field (Py.PStr "status") then
        c <- Py.get history "created" Py.PNone ;;
        f <- Py.get item "fromString" Py.PNone ;;
        t <- Py.get item "toString" Py.PNone ;;
        collect_items history rest
          (status_changes ++ [{| created := c; from := f; to := t |}])
      else collect_items history rest status_changes
  end.

(** The outer loop, over the history entries. *)
Fixpoint collect_histories (histories : list Py.value)
  (status_changes : list change) : Py.result (list change) :=
  match histories with
  | [] => Py.Ok status_changes
  | history :: rest =>
      items <- Py.get history "items" (Py.PList []) ;;
      items <- Py.iter items ;;
      status_changes <- collect_items history items status_changes ;;
      collect_histories rest status_changes
  end.

(** [# Collect all status changes]. *)
Definition collect_status_changes (data : Py.value) : Py.result (list change) :=
  changelog <- Py.get data "changelog" (Py.PDict []) ;;
  histories <- Py.get changelog "histories" (Py.PList []) ;;
  histories <- Py.iter histories ;;
  collect_histories histories [].

(** [# Detect start date strategies]. *)
Definition start_strategies (statuses : development_statuses)
  (status_changes : list change) : list Py.value :=
  [ (* First development-related status *)
    next_created
      (fun change => Py.contains (start_statuses statuses) (to change))
      status_changes;
    (* First 'In Progress' after 'Ready for planning' *)
    match
      find (fun ic =>
              Py.eq (to (snd ic)) (Py.PStr "In Progress")
              && existsb (fun prev => Py.eq (to prev) (Py.PStr "Ready for planning"))
                   (firstn (fst ic) status_changes))
        (enumerate status_changes)
    with
    | Some ic => created (snd ic)
    | None => Py.PNone
    end;
    (* First non-initial status *)
    match status_changes with
    | [] => Py.PNone
    | change :: _ => created change
    end ].

(** [# Detect finish date strategies]. *)
Definition finish_strategies (statuses : development_statuses)
  (status_changes : list change) : list Py.value :=
  [ (* Last development-related finish status *)
    next_created
      (fun change => Py.contains (finish_statuses statuses) (to change))
      (rev status_changes);
    (* Last 'Deployed AC' status *)
    next_created
      (fun change => Py.eq (to change) (Py.PStr "Deployed AC"))
      (rev status_changes);
    (* Last status change *)
    match status_changes with
    | [] => Py.PNone
    | _ => created (last status_changes
                      {| created := Py.PNone; from := Py.PNone; to := Py.PNone |})
    end ].

(** The rest of [detect_actual_dates], from the collected status changes
    on: the selection and the method labels. *)
Definition select_dates (statuses : development_statuses)
  (status_changes : list change) : actual_dates :=
  let start_strategies := start_strategies statuses status_changes in
  let finish_strategies := finish_strategies statuses status_changes in
  (* Select the first non-None strategy *)
  let start_date := first_not_none start_strategies in
  let finish_date := first_not_none finish_strategies in
  (* Determine detection methods *)
  let start_method :=
    if Py.eq start_date (nth 0 start_strategies Py.PNone)
    then "First development status"
    else if Py.eq start_date (nth 1 start_strategies Py.PNone)
    then "First 'In Progress' after planning"
    else "First status change" in
  let finish_method :=
    if Py.eq finish_date (nth 0 finish_strategies Py.PNone)
    then "Last development finish status"
    else if Py.eq finish_date (nth 1 finish_strategies Py.PNone)
    then "Last 'Deployed AC' status"
    else "Last status change" in
  {| start := start_date; finish := finish_date;
     start_method := Py.PStr start_method;
     finish_method := Py.PStr finish_method |}.

(** [detect_actual_dates], reading [statuses] where the source reads the
    global [DEVELOPMENT_STATUSES]. The four [log(..., "DEBUG")] calls only
    print (here [LOG_LEVEL] is ["DEBUG"], so they do) and are left out. *)
Definition detect_actual_dates_with (statuses : development_statuses)
  (data : Py.value) : Py.result actual_dates :=
  if negb (Py.truthy data) then
    Py.Ok {| start := Py.PNone; finish := Py.PNone;
             start_method := Py.PNone; finish_method := Py.PNone |}
  else
    status_changes <- collect_status_changes data ;;
    Py.Ok (select_dates statuses status_changes).

(** The function as the module ships it. *)
Definition detect_actual_dates (data : Py.value) : Py.result actual_dates :=
  detect_actual_dates_with DEVELOPMENT_STATUSES data.

End Client.

(* ===================================================================== *)
(** * What the specification says, in its own words *)
(* ===================================================================== *)

(** Weekdays among [days] consecutive calendar dates, the first of which has
    ordinal [ordinal]: a date counts when it falls on Monday to Friday. *)
Fixpoint weekdays_from (ordinal : Z) (days : nat) : Z :=
  match days with
  | O => 0
  | S days' =>
      (if (ordinal + 6) mod 7 <? 5 then 1 else 0) + weekdays_from (ordinal + 1) days'
  end.

(** The contract of the duration calculator: the weekdays from the calendar
    date of [start] through the calendar date of [end_], both included. *)
Definition business_days (start end_ : DateTime.datetime) : Z :=
  weekdays_from (DateTime.toordinal start)
    (Z.to_nat (DateTime.toordinal end_ - DateTime.toordinal start + 1)).

(** Both naive, or both aware: the pairs Python compares. *)
Definition same_kind (a b : DateTime.datetime) : bool :=
  match DateTime.utcoffset a, DateTime.utcoffset b with
  | None, None => true
  | Some _, Some _ => true
  | _, _ => false
  end.

(** [s] is a parsable timestamp: a non-empty string that the library reads,
    once its "Z" is replaced, as the datetime [d], one of the values a
    Python datetime can have. *)
Definition parses (fromisoformat : string -> option DateTime.datetime)
  (s : string) (d : DateTime.datetime) : Prop :=
  s <> ""
  /\ fromisoformat (Py.replace_char "Z" "+00:00" s) = Some d
  /\ DateTime.in_range d = true.

(** The loop can take its steps from [start]: it visits no day, or the day
    after the last one visited is still a date Python can build. *)
Definition steps_fit (start : DateTime.datetime) (days : nat) : Prop :=
  days = O
  \/ DateTime.wall start + Z.of_nat days * DateTime.DAY
     < DateTime.MAXORDINAL * DateTime.DAY.

(** The days the loop visits from [start]: one for each of the instants
    [start], [start] + 1 day, ... that is not after [end_]. *)
Definition days_visited (start end_ : DateTime.datetime) : nat :=
  Z.to_nat ((DateTime.instant end_ - DateTime.instant start) / DateTime.DAY + 1).

(** Tests the loop needs at most, from a day of weekday [w] with [rest]
    weekdays still to add: a weekend costs two more only after a Friday. *)
Definition range_tests (w rest : Z) : Z :=
  if rest <=? 0 then 0
  else 3 * rest - (if w =? 4 then 0 else if w =? 5 then 1 else 2).

(** A date entry as the tracker sends it: a string, or [None]. *)
Definition str_or_none (v : Py.value) : bool :=
  match v with
  | Py.PNone | Py.PStr _ => true
  | _ => false
  end.

(** An [Optional[str]] as a value. *)
Definition optional_str (s : option string) : Py.value :=
  match s with
  | Some s => Py.PStr s
  | None => Py.PNone
  end.

(** [d.get(k)] read off a value without raising: [PNone] when [d] is not a
    dictionary or has no such key. *)
Definition entry (k : string) (d : Py.value) : Py.value :=
  match d with
  | Py.PDict items =>
      match Py.lookup k items with
      | Some v => v
      | None => Py.PNone
      end
  | _ => Py.PNone
  end.

(** The elements of a list value, none for anything else. *)
Definition elements (v : Py.value) : list Py.value :=
  match v with
  | Py.PList l => l
  | _ => []
  end.

(** The event an item of a history entry stands for. *)
Definition change_of (history item : Py.value) : change :=
  {| created := entry "created" history;
     from := entry "fromString" item;
     to := entry "toString" item |}.

(** The item records a change of the field "status". *)
Definition is_status (item : Py.value) : bool :=
  Py.eq (entry "field" item) (Py.PStr "status").

(** The contract of the extractor: the (timestamp, fromString, toString)
    triples of the items whose field is "status", over every item of every
    history entry, in source order. *)
Definition status_events (jira_data : Py.value) : list change :=
  flat_map
    (fun history =>
       map (change_of history)
         (filter is_status (elements (entry "items" history))))
    (elements (entry "histories" (entry "changelog" jira_data))).

(** A key that is absent, or bound to a value accepted by [ok]. *)
Definition absent_or (ok : Py.value -> bool) (k : string) (d : Py.value) : bool :=
  match d with
  | Py.PDict items =>
      match Py.lookup k items with
      | Some v => ok v
      | None => true
      end
  | _ => false
  end.

Definition is_dict (v : Py.value) : bool :=
  match v with Py.PDict _ => true | _ => false end.

Definition is_list_of (ok : Py.value -> bool) (v : Py.value) : bool :=
  match v with Py.PList l => forallb ok l | _ => false end.

(** The shape of an issue record the extraction is written for: a
    dictionary whose "changelog", when present, is a dictionary, whose
    "histories", when present, is a list of dictionaries, and in each of
    them "items", when present, is a list of dictionaries. *)
Definition well_shaped (jira_data : Py.value) : bool :=
  absent_or
    (absent_or
       (is_list_of (absent_or (is_list_of is_dict) "items"))
       "histories")
    "changelog" jira_data.

(** [k in d]. *)
Definition has_key (k : string) (d : Py.value) : bool :=
  match d with
  | Py.PDict items =>
      match Py.lookup k items with Some _ => true | None => false end
  | _ => false
  end.

(** A result entry, or an event's timestamp, is present when it is not
    [None]. *)
Definition present (v : Py.value) : Prop := v <> Py.PNone.

(** A candidate date over [changes]: absent, or the timestamp of one of
    the events. *)
Definition candidate (changes : list change) (v : Py.value) : Prop :=
  v = Py.PNone \/ exists c, In c changes /\ v = created c.

(** The event [c] enters one of the statuses [labels]: its "to" entry is
    one of these strings, letter for letter. *)
Definition enters (labels : list string) (c : change) : Prop :=
  exists s, to c = Py.PStr s /\ In s labels.

(** The planning-transition pattern at an event [c] that the events [pre]
    precede: [c] enters "In Progress" and some strictly earlier event
    entered "Ready for planning". *)
Definition after_planning (pre : list change) (c : change) : Prop :=
  to c = Py.PStr "In Progress"
  /\ exists p, In p pre /\ to p = Py.PStr "Ready for planning".

(** The condition of the second start strategy, at the pair [(i, change)]
    of [enumerate(status_changes)]. *)
Definition in_progress_after_planning (status_changes : list change)
  (ic : nat * change) : bool :=
  Py.eq (to (snd ic)) (Py.PStr "In Progress")
  && existsb (fun prev => Py.eq (to prev) (Py.PStr "Ready for planning"))
       (firstn (fst ic) status_changes).

(* ===================================================================== *)
(** * Concrete issue records and timestamps *)
(* ===================================================================== *)

(** A history entry whose "items" is [null]. *)
Definition issue_with_null_items : Py.value :=
  Py.PDict
    [("key", Py.PStr "EI-1");
     ("changelog",
      Py.PDict
        [("histories",
          Py.PList
            [Py.PDict [("created", Py.PStr "2024-03-04T09:00:00");
                       ("items", Py.PNone)]])])].

(** A history entry that is a string, not a dictionary. *)
Definition issue_with_string_history : Py.value :=
  Py.PDict
    [("key", Py.PStr "EI-1");
     ("changelog", Py.PDict [("histories", Py.PList [Py.PStr "oops"])])].

(** An issue with one status change and one change of assignee. *)
Definition issue_in_progress : Py.value :=
  Py.PDict
    [("key", Py.PStr "EI-1");
     ("changelog",
      Py.PDict
        [("histories",
          Py.PList
            [Py.PDict
               [("created", Py.PStr "2024-03-04T09:00:00");
                ("items",
                 Py.PList
                   [Py.PDict [("field", Py.PStr "assignee");
                              ("fromString", Py.PNone);
                              ("toString", Py.PStr "max")];
                    Py.PDict [("field", Py.PStr "status");
                              ("fromString", Py.PStr "Open");
                              ("toString", Py.PStr "In Progress")]])]])])].


(** A history entry recording one change of status at [created]. *)
Definition status_history (created from to : string) : Py.value :=
  Py.PDict
    [("created", Py.PStr created);
     ("items",
      Py.PList
        [Py.PDict [("field", Py.PStr "status");
                   ("fromString", Py.PStr from);
                   ("toString", Py.PStr to)]])].

(** An issue record with the given history entries. *)
Definition issue_of (histories : list Py.value) : Py.value :=
  Py.PDict
    [("key", Py.PStr "EI-1");
     ("changelog", Py.PDict [("histories", Py.PList histories)])].

(** Started on Monday 4 March 2024, deployed on Wednesday 6 March. *)
Definition issue_mon_wed : Py.value :=
  issue_of
    [status_history "2024-03-04T09:00:00" "Open" "In Progress";
     status_history "2024-03-06T17:00:00" "In Progress" "Deployed AC"].

(** Planned, reviewed, then put in progress; the first label differs from
    "In Progress" in case only. *)
Definition issue_reviewed : Py.value :=
  issue_of
    [status_history "2024-02-29T10:00:00" "Open" "in progress";
     status_history "2024-03-01T10:00:00" "in progress" "Ready for planning";
     status_history "2024-03-04T09:00:00" "Ready for planning" "Code review";
     status_history "2024-03-05T09:00:00" "Code review" "In Progress";
     status_history "2024-03-06T17:00:00" "In Progress" "Deployed AC"].

(** Planned on a Friday, in progress the Monday after. *)
Definition issue_planned : Py.value :=
  issue_of
    [status_history "2024-03-01T10:00:00" "Open" "Ready for planning";
     status_history "2024-03-04T09:00:00" "Ready for planning" "In Progress"].

(** A start set without "In Progress". *)
Definition review_only : development_statuses :=
  {| start_statuses := ["Code review"];
     finish_statuses := ["Deployed AC"; "Ready for deployment"] |}.

(** Two status changes outside every configured label. *)
Definition issue_open_done : Py.value :=
  issue_of
    [status_history "2024-03-04T09:00:00" "Open" "Selected";
     status_history "2024-03-06T17:00:00" "Selected" "Done"].

(** An issue with a changelog and no item on the field "status". *)
Definition issue_without_status_items : Py.value :=
  Py.PDict
    [("key", Py.PStr "EI-1");
     ("changelog",
      Py.PDict
        [("histories",
          Py.PList
            [Py.PDict
               [("created", Py.PStr "2024-03-04T09:00:00");
                ("items",
                 Py.PList
                   [Py.PDict [("field", Py.PStr "assignee");
                              ("fromString", Py.PNone);
                              ("toString", Py.PStr "max")]])]])])].

(** A status change in a history entry that has no "created" key. *)
Definition issue_without_created : Py.value :=
  Py.PDict
    [("key", Py.PStr "EI-1");
     ("changelog",
      Py.PDict
        [("histories",
          Py.PList
            [Py.PDict
               [("items",
                 Py.PList
                   [Py.PDict [("field", Py.PStr "status");
                              ("fromString", Py.PStr "Open");
                              ("toString", Py.PStr "Done")]])]])])].

(** A finish set without "Deployed AC". *)
Definition ready_only : development_statuses :=
  {| start_statuses := ["In Progress"; "Code review"];
     finish_statuses := ["Ready for deployment"] |}.

(** Deployed, then reopened. *)
Definition issue_reopened : Py.value :=
  issue_of
    [status_history "2024-03-04T09:00:00" "Open" "In Progress";
     status_history "2024-03-06T17:00:00" "In Progress" "Deployed AC";
     status_history "2024-03-07T11:00:00" "Deployed AC" "Reopened"].

(** One status change, on Monday 4 March 2024; no planned dates. *)
Definition issue_one_change : Py.value :=
  issue_of [status_history "2024-03-04T09:00:00" "Open" "In Progress"].

(** Planned dates sent as numbers. *)
Definition issue_numeric_plan : Py.value :=
  Py.PDict
    [("key", Py.PStr "EI-1");
     ("fields",
      Py.PDict [("customfield_15990", Py.PInt 20240304);
                ("customfield_15994", Py.PInt 20240308)]);
     ("changelog", Py.PDict [("histories", Py.PList [])])].

(** Selected, then in progress in a history entry that has no "created"
    key, then done. *)
Definition issue_in_progress_without_created : Py.value :=
  issue_of
    [status_history "2024-03-04T09:00:00" "Open" "Selected";
     Py.PDict
       [("items",
         Py.PList
           [Py.PDict [("field", Py.PStr "status");
                      ("fromString", Py.PStr "Selected");
                      ("toString", Py.PStr "In Progress")]])];
     status_history "2024-03-06T17:00:00" "In Progress" "Done"].

(** Planned, then in progress in a history entry that has no "created"
    key. *)
Definition issue_planned_without_created : Py.value :=
  issue_of
    [status_history "2024-03-01T10:00:00" "Open" "Ready for planning";
     Py.PDict
       [("items",
         Py.PList
           [Py.PDict [("field", Py.PStr "status");
                      ("fromString", Py.PStr "Ready for planning");
                      ("toString", Py.PStr "In Progress")]])]].

(** Two numbers for the planned dates, and a history entry whose "items"
    is [null]. *)
Definition issue_numeric_plan_null_items : Py.value :=
  Py.PDict
    [("key", Py.PStr "EI-1");
     ("fields",
      Py.PDict [("customfield_15990", Py.PInt 20240304);
                ("customfield_15994", Py.PInt 20240308)]);
     ("changelog",
      Py.PDict
        [("histories",
          Py.PList
            [Py.PDict [("created", Py.PStr "2024-03-04T09:00:00");
                       ("items", Py.PNone)]])])].

(** One status change on the last day Python can represent, a Friday. *)
Definition issue_last_day : Py.value :=
  issue_of [status_history "9999-12-31T10:00:00" "Open" "In Progress"].
(* ===================================================================== *)
(** * Python equality on the values the engine compares *)
(* ===================================================================== *)

Lemma eq_str_r (v : Py.value) (s : string) :
  Py.eq v (Py.PStr s) = true <-> v = Py.PStr s.
Proof.
  destruct v; simpl; split; intros H; try discriminate; try congruence.
  - apply String.eqb_eq in H. now subst.
  - injection H as ->. apply String.eqb_refl.
Qed.

Lemma eq_str_l (v : Py.value) (s : string) :
  Py.eq (Py.PStr s) v = true <-> v = Py.PStr s.
Proof.
  destruct v; simpl; split; intros H; try discriminate; try congruence.
  - apply String.eqb_eq in H. now subst.
  - injection H as ->. apply String.eqb_refl.
Qed.

Lemma eq_none_r (v : Py.value) : Py.eq v Py.PNone = Py.is_none v.
Proof. now destruct v. Qed.

Lemma eq_str_refl (s : string) : Py.eq (Py.PStr s) (Py.PStr s) = true.
Proof. apply eq_str_r. reflexivity. Qed.

(** [v in labels] holds exactly for the strings listed in [labels]. *)
Lemma contains_spec (labels : list string) (v : Py.value) :
  Py.contains labels v = true <-> exists s, v = Py.PStr s /\ In s labels.
Proof.
  unfold Py.contains. rewrite existsb_exists. split.
  - intros (s & Hin & Heq). apply eq_str_l in Heq. eauto.
  - intros (s & -> & Hin). exists s. split; [assumption | apply eq_str_refl].
Qed.

Lemma contains_false (labels : list string) (v : Py.value) :
  (forall s, v = Py.PStr s -> ~ In s labels) -> Py.contains labels v = false.
Proof.
  intros H. destruct (Py.contains labels v) eqn:E; [|reflexivity].
  apply contains_spec in E. destruct E as (s & Hv & Hin). now apply H in Hv.
Qed.

(* ===================================================================== *)
(** * The collection of status changes *)
(* ===================================================================== *)

Lemma collect_items_well_shaped (history : Py.value) (items : list Py.value) :
  is_dict history = true ->
  forallb is_dict items = true ->
  forall acc,
    Parser.collect_items history items acc
    = Py.Ok (acc ++ map (change_of history) (filter is_status items)).
Proof.
  intros Hh. induction items as [|item rest IH]; intros Hi acc; simpl.
  - now rewrite app_nil_r.
  - simpl in Hi. apply andb_true_iff in Hi as [Hitem Hrest].
    destruct item; try discriminate. destruct history; try discriminate.
    unfold is_status. simpl.
    destruct (Py.eq _ (Py.PStr "status")); simpl.
    + rewrite (IH Hrest). now rewrite <- app_assoc.
    + apply (IH Hrest).
Qed.

Lemma collect_histories_well_shaped (histories : list Py.value) :
  forallb (absent_or (is_list_of is_dict) "items") histories = true ->
  forall acc,
    Parser.collect_histories histories acc
    = Py.Ok (acc ++ flat_map
                      (fun history =>
                         map (change_of history)
                           (filter is_status (elements (entry "items" history))))
                      histories).
Proof.
  induction histories as [|history rest IH]; intros Hs acc; simpl.
  - now rewrite app_nil_r.
  - simpl in Hs. apply andb_true_iff in Hs as [Hh Hrest].
    destruct history as [| | | | |h]; try discriminate.
    simpl in Hh. simpl.
    destruct (Py.lookup "items" h) as [items|] eqn:E; simpl.
    + destruct items; try discriminate. simpl in Hh. simpl.
      rewrite (collect_items_well_shaped (Py.PDict h) l eq_refl Hh). simpl.
      rewrite (IH Hrest). now rewrite <- app_assoc.
    + rewrite (IH Hrest). reflexivity.
Qed.

Lemma collect_status_changes_well_shaped (jira_data : Py.value) :
  well_shaped jira_data = true ->
  Parser.collect_status_changes jira_data = Py.Ok (status_events jira_data).
Proof.
  unfold well_shaped, Parser.collect_status_changes, status_events.
  destruct jira_data as [| | | | |d]; try discriminate. simpl.
  destruct (Py.lookup "changelog" d) as [changelog|]; [|reflexivity].
  destruct changelog as [| | | | |cl]; try discriminate. simpl.
  destruct (Py.lookup "histories" cl) as [histories|]; [|reflexivity].
  destruct histories as [| | | |hs|]; try discriminate. simpl.
  intros H. now rewrite (collect_histories_well_shaped hs H).
Qed.

(** C6, as stated, fails: a malformed history entry makes the extraction,
    and with it [detect_actual_dates], raise instead of yielding the empty
    event sequence. *)
Lemma extraction_raises_on_malformed_history :
  Parser.collect_status_changes issue_with_null_items = Py.Raise Py.TypeError
  /\ Parser.detect_actual_dates issue_with_null_items = Py.Raise Py.TypeError
  /\ Parser.collect_status_changes issue_with_string_history
     = Py.Raise Py.AttributeError
  /\ Parser.collect_status_changes issue_with_null_items <> Py.Ok [].
Proof. repeat split; try reflexivity. discriminate. Qed.

(** C6, amended: on an issue record of the expected shape (a dictionary
    whose "changelog", "histories" and "items", where present, are a
    dictionary, a list of dictionaries and lists of dictionaries) the
    extraction does not raise and yields exactly the (timestamp, fromString,
    toString) triples of the items whose field is "status", over every item
    of every history entry, in source order; a missing "changelog" key or a
    missing "histories" key gives the empty sequence. *)
Theorem extraction_on_well_shaped_issue (jira_data : Py.value) :
  well_shaped jira_data = true ->
  Parser.collect_status_changes jira_data = Py.Ok (status_events jira_data)
  /\ (has_key "changelog" jira_data = false ->
      Parser.collect_status_changes jira_data = Py.Ok [])
  /\ (has_key "histories" (entry "changelog" jira_data) = false ->
      Parser.collect_status_changes jira_data = Py.Ok []).
Proof.
  intros Hw. pose proof (collect_status_changes_well_shaped _ Hw) as Hc.
  split; [assumption|]. rewrite Hc. unfold status_events.
  destruct jira_data as [| | | | |d]; try discriminate. simpl.
  split.
  - destruct (Py.lookup "changelog" d); [discriminate | reflexivity].
  - destruct (Py.lookup "changelog" d) as [cl|]; [|reflexivity].
    destruct cl as [| | | | |c]; try reflexivity. simpl.
    destruct (Py.lookup "histories" c); [discriminate | reflexivity].
Qed.

Lemma extraction_on_well_shaped_issue_witness :
  well_shaped issue_in_progress = true
  /\ Parser.collect_status_changes issue_in_progress
     = Py.Ok [{| created := Py.PStr "2024-03-04T09:00:00";
                 from := Py.PStr "Open";
                 to := Py.PStr "In Progress" |}].
Proof.
  split; [reflexivity|].
  exact (proj1 (extraction_on_well_shaped_issue issue_in_progress eq_refl)).
Defined.

(* ===================================================================== *)
(** * Searching a sequence of status changes *)
(* ===================================================================== *)

Section Search.

Variable A : Type.
Variable P : A -> bool.

Lemma find_all_false (l : list A) :
  (forall x, In x l -> P x = false) -> find P l = None.
Proof.
  induction l as [|x l IH]; intros H; simpl; [reflexivity|].
  rewrite (H x (or_introl eq_refl)). apply IH. intros y Hy. apply H. now right.
Qed.

Lemma find_earliest (pre post : list A) (c : A) :
  (forall p, In p pre -> P p = false) -> P c = true ->
  find P (pre ++ c :: post) = Some c.
Proof.
  induction pre as [|x pre IH]; intros Hpre Hc; simpl.
  - now rewrite Hc.
  - rewrite (Hpre x (or_introl eq_refl)). apply IH; [|assumption].
    intros p Hp. apply Hpre. now right.
Qed.

Lemma find_latest (pre post : list A) (c : A) :
  (forall p, In p post -> P p = false) -> P c = true ->
  find P (rev (pre ++ c :: post)) = Some c.
Proof.
  intros Hpost Hc. rewrite rev_app_distr. simpl. rewrite <- app_assoc. simpl.
  apply find_earliest; [|assumption].
  intros p Hp. apply Hpost. now apply in_rev.
Qed.

End Search.

Lemma existsb_planning (pre : list change) :
  existsb (fun prev => Py.eq (to prev) (Py.PStr "Ready for planning")) pre = true
  <-> exists p, In p pre /\ to p = Py.PStr "Ready for planning".
Proof.
  rewrite existsb_exists. split; intros (p & Hin & H); exists p; split; trivial;
    now apply eq_str_r.
Qed.

(** The boolean test of the second strategy is the planning-transition
    pattern. *)
Lemma in_progress_after_planning_spec (changes pre : list change) (i : nat) (c : change) :
  firstn i changes = pre ->
  in_progress_after_planning changes (i, c) = true <-> after_planning pre c.
Proof.
  intros <-. unfold in_progress_after_planning, after_planning. simpl.
  rewrite andb_true_iff, eq_str_r, existsb_planning. reflexivity.
Qed.

Lemma firstn_prefix (A : Type) (l r : list A) : firstn (List.length l) (l ++ r) = l.
Proof.
  rewrite firstn_app, Nat.sub_diag, firstn_all. simpl. apply app_nil_r.
Qed.

(** The search of the second strategy, started after the events [seen]. *)
Lemma find_after_planning_earliest (pre post seen : list change) (c : change) :
  (forall pre1 x post1, pre = pre1 ++ x :: post1 -> ~ after_planning (seen ++ pre1) x) ->
  after_planning (seen ++ pre) c ->
  find (in_progress_after_planning (seen ++ pre ++ c :: post))
    (combine (seq (List.length seen) (List.length (pre ++ c :: post))) (pre ++ c :: post))
  = Some (List.length (seen ++ pre), c).
Proof.
  revert seen. induction pre as [|x pre IH]; intros seen Hpre Hc; simpl.
  - rewrite app_nil_r in *.
    assert (E : in_progress_after_planning (seen ++ c :: post) (List.length seen, c) = true).
    { apply (in_progress_after_planning_spec _ seen); [apply firstn_prefix | assumption]. }
    now rewrite E.
  - assert (E : in_progress_after_planning (seen ++ x :: pre ++ c :: post)
                  (List.length seen, x) = false).
    { destruct (in_progress_after_planning _ _) eqn:E; [|reflexivity].
      apply (in_progress_after_planning_spec _ seen) in E;
        [|apply firstn_prefix].
      exfalso. apply (Hpre [] x pre eq_refl). now rewrite app_nil_r. }
    rewrite E.
    replace (seen ++ x :: pre ++ c :: post) with ((seen ++ [x]) ++ pre ++ c :: post)
      by now rewrite <- app_assoc.
    replace (S (List.length seen)) with (List.length (seen ++ [x]))
      by (rewrite length_app; simpl; lia).
    rewrite IH.
    + now rewrite <- app_assoc.
    + intros pre1 y post1 -> H. apply (Hpre (x :: pre1) y post1 eq_refl).
      now rewrite <- app_assoc in H.
    + now rewrite <- app_assoc.
Qed.

Lemma find_after_planning_none (changes seen : list change) :
  (forall pre x post, changes = pre ++ x :: post -> ~ after_planning (seen ++ pre) x) ->
  find (in_progress_after_planning (seen ++ changes))
    (combine (seq (List.length seen) (List.length changes)) changes)
  = None.
Proof.
  revert seen. induction changes as [|x rest IH]; intros seen H; simpl; [reflexivity|].
  assert (E : in_progress_after_planning (seen ++ x :: rest) (List.length seen, x) = false).
  { destruct (in_progress_after_planning _ _) eqn:E; [|reflexivity].
    apply (in_progress_after_planning_spec _ seen) in E; [|apply firstn_prefix].
    exfalso. apply (H [] x rest eq_refl). now rewrite app_nil_r. }
  rewrite E.
  replace (seen ++ x :: rest) with ((seen ++ [x]) ++ rest) by now rewrite <- app_assoc.
  replace (S (List.length seen)) with (List.length (seen ++ [x]))
    by (rewrite length_app; simpl; lia).
  apply IH. intros pre y post -> Hy. apply (H (x :: pre) y post eq_refl).
  now rewrite <- app_assoc in Hy.
Qed.

(* ===================================================================== *)
(** * The inference engine *)
(* ===================================================================== *)

(** A record from which status changes were collected is not falsy. *)
Lemma collected_truthy (jira_data : Py.value) (changes : list change) :
  Parser.collect_status_changes jira_data = Py.Ok changes ->
  changes <> [] ->
  Py.truthy jira_data = true.
Proof.
  intros H Hne. destruct jira_data as [| | | | |d]; try discriminate.
  destruct d as [|kv d]; [|reflexivity].
  injection H as <-. now contradiction Hne.
Qed.

Lemma detect_on_collected (statuses : development_statuses)
  (jira_data : Py.value) (changes : list change) :
  Parser.collect_status_changes jira_data = Py.Ok changes ->
  changes <> [] ->
  Parser.detect_actual_dates_with statuses jira_data
  = Py.Ok (Parser.select_dates statuses changes).
Proof.
  intros H Hne. unfold Parser.detect_actual_dates_with.
  rewrite (collected_truthy _ _ H Hne), H. reflexivity.
Qed.

(** The three start candidates, with the second search named. *)
Lemma start_strategies_eq (statuses : development_statuses) (changes : list change) :
  Parser.start_strategies statuses changes
  = [ next_created (fun c => Py.contains (start_statuses statuses) (to c)) changes;
      match find (in_progress_after_planning changes) (enumerate changes) with
      | Some ic => created (snd ic)
      | None => Py.PNone
      end;
      match changes with [] => Py.PNone | c :: _ => created c end ].
Proof. reflexivity. Qed.

(** What the selection and the label do with three candidates. *)
Lemma first_not_none_first (t : string) (s1 s2 : Py.value) :
  first_not_none [Py.PStr t; s1; s2] = Py.PStr t.
Proof. reflexivity. Qed.

Lemma first_not_none_second (v s2 : Py.value) :
  present v -> first_not_none [Py.PNone; v; s2] = v.
Proof. intros H. destruct v; try reflexivity. now contradiction H. Qed.

Lemma first_not_none_third (v : Py.value) :
  first_not_none [Py.PNone; Py.PNone; v] = v.
Proof. now destruct v. Qed.

Lemma eq_none_false (v : Py.value) : present v -> Py.eq v Py.PNone = false.
Proof. intros H. destruct v; try reflexivity. now contradiction H. Qed.

Lemma start_of_select (statuses : development_statuses) (changes : list change)
  (s0 s1 s2 : Py.value) :
  Parser.start_strategies statuses changes = [s0; s1; s2] ->
  start (Parser.select_dates statuses changes) = first_not_none [s0; s1; s2]
  /\ start_method (Parser.select_dates statuses changes)
     = Py.PStr (if Py.eq (first_not_none [s0; s1; s2]) s0
                then "First development status"
                else if Py.eq (first_not_none [s0; s1; s2]) s1
                then "First 'In Progress' after planning"
                else "First status change").
Proof. unfold Parser.select_dates. intros ->. split; reflexivity. Qed.

Lemma finish_of_select (statuses : development_statuses) (changes : list change)
  (f0 f1 f2 : Py.value) :
  Parser.finish_strategies statuses changes = [f0; f1; f2] ->
  finish (Parser.select_dates statuses changes) = first_not_none [f0; f1; f2]
  /\ finish_method (Parser.select_dates statuses changes)
     = Py.PStr (if Py.eq (first_not_none [f0; f1; f2]) f0
                then "Last development finish status"
                else if Py.eq (first_not_none [f0; f1; f2]) f1
                then "Last 'Deployed AC' status"
                else "Last status change").
Proof. unfold Parser.select_dates. intros ->. split; reflexivity. Qed.

Lemma contains_enters (labels : list string) (c : change) :
  Py.contains labels (to c) = true <-> enters labels c.
Proof. apply contains_spec. Qed.

Lemma not_enters_contains (labels : list string) (c : change) :
  ~ enters labels c -> Py.contains labels (to c) = false.
Proof.
  intros H. destruct (Py.contains labels (to c)) eqn:E; [|reflexivity].
  now apply contains_enters in E.
Qed.

(** C3, amended: when some event enters a status of the configured start
    set (an exact, case-sensitive match of the label) and the earliest such
    event carries a timestamp, the string [t], [detect_actual_dates] returns
    [t] as start and the method "First development status", whatever the
    later strategies would find. *)
Theorem first_development_status (statuses : development_statuses)
  (jira_data : Py.value) (pre post : list change) (c : change) (t : string) :
  Parser.collect_status_changes jira_data = Py.Ok (pre ++ c :: post) ->
  enters (start_statuses statuses) c ->
  (forall p, In p pre -> ~ enters (start_statuses statuses) p) ->
  created c = Py.PStr t ->
  exists r,
    Parser.detect_actual_dates_with statuses jira_data = Py.Ok r
    /\ start r = Py.PStr t
    /\ start_method r = Py.PStr "First development status".
Proof.
  intros Hcol Hc Hpre Ht.
  exists (Parser.select_dates statuses (pre ++ c :: post)). split.
  { apply detect_on_collected; [assumption|]. now destruct pre. }
  pose proof (start_strategies_eq statuses (pre ++ c :: post)) as Hs.
  unfold next_created in Hs at 1.
  rewrite (find_earliest _ _ pre post c) in Hs.
  - rewrite Ht in Hs. apply start_of_select in Hs as [-> ->].
    rewrite first_not_none_first, eq_str_refl. split; reflexivity.
  - intros p Hp. apply not_enters_contains. now apply Hpre.
  - now apply contains_enters.
Qed.

Lemma first_development_status_witness :
  exists r,
    Parser.detect_actual_dates issue_reviewed = Py.Ok r
    /\ start r = Py.PStr "2024-03-04T09:00:00"
    /\ start_method r = Py.PStr "First development status".
Proof.
  apply (first_development_status Parser.DEVELOPMENT_STATUSES issue_reviewed
           [ {| created := Py.PStr "2024-02-29T10:00:00";
                from := Py.PStr "Open"; to := Py.PStr "in progress" |};
             {| created := Py.PStr "2024-03-01T10:00:00";
                from := Py.PStr "in progress";
                to := Py.PStr "Ready for planning" |} ]
           [ {| created := Py.PStr "2024-03-05T09:00:00";
                from := Py.PStr "Code review";
                to := Py.PStr "In Progress" |};
             {| created := Py.PStr "2024-03-06T17:00:00";
                from := Py.PStr "In Progress";
                to := Py.PStr "Deployed AC" |} ]
           {| created := Py.PStr "2024-03-04T09:00:00";
              from := Py.PStr "Ready for planning";
              to := Py.PStr "Code review" |}
           "2024-03-04T09:00:00").
  - reflexivity.
  - exists "Code review". split; [reflexivity | simpl; auto].
  - intros p [<-|[<-|[]]] (s & H & Hin); simpl in H; injection H as <-;
      simpl in Hin; destruct Hin as [E|[E|[]]]; discriminate E.
  - reflexivity.
Defined.

(** C3, as the specification words it, fails when the earliest event that
    enters the start set comes from a history entry without a "created"
    key: its timestamp is [None], the first candidate is skipped, and the
    start is the first event's timestamp, under the label of the last
    strategy. *)
Lemma first_development_status_without_timestamp :
  Parser.collect_status_changes issue_in_progress_without_created
  = Py.Ok [ {| created := Py.PStr "2024-03-04T09:00:00";
               from := Py.PStr "Open"; to := Py.PStr "Selected" |};
            {| created := Py.PNone;
               from := Py.PStr "Selected"; to := Py.PStr "In Progress" |};
            {| created := Py.PStr "2024-03-06T17:00:00";
               from := Py.PStr "In Progress"; to := Py.PStr "Done" |} ]
  /\ enters (start_statuses Parser.DEVELOPMENT_STATUSES)
       {| created := Py.PNone;
          from := Py.PStr "Selected"; to := Py.PStr "In Progress" |}
  /\ ~ enters (start_statuses Parser.DEVELOPMENT_STATUSES)
         {| created := Py.PStr "2024-03-04T09:00:00";
            from := Py.PStr "Open"; to := Py.PStr "Selected" |}
  /\ exists r,
       Parser.detect_actual_dates issue_in_progress_without_created = Py.Ok r
       /\ start r = Py.PStr "2024-03-04T09:00:00"
       /\ start_method r = Py.PStr "First status change".
Proof.
  split; [reflexivity|]. split; [|split].
  - exists "In Progress". split; [reflexivity | simpl; auto].
  - intros (s & H & Hin). simpl in H. injection H as <-.
    simpl in Hin. destruct Hin as [E|[E|[]]]; discriminate E.
  - eexists. repeat split.
Qed.

(** C4, amended: when no event enters a status of the configured start set,
    some event enters exactly "In Progress" with a strictly earlier event
    that entered exactly "Ready for planning", and the earliest such
    "In Progress" event carries a timestamp, the string [t],
    [detect_actual_dates] returns [t] as start and the method
    "First 'In Progress' after planning". *)
Theorem first_in_progress_after_planning (statuses : development_statuses)
  (jira_data : Py.value) (pre post : list change) (c : change) (t : string) :
  Parser.collect_status_changes jira_data = Py.Ok (pre ++ c :: post) ->
  (forall e, In e (pre ++ c :: post) -> ~ enters (start_statuses statuses) e) ->
  after_planning pre c ->
  (forall pre1 x post1, pre = pre1 ++ x :: post1 -> ~ after_planning pre1 x) ->
  created c = Py.PStr t ->
  exists r,
    Parser.detect_actual_dates_with statuses jira_data = Py.Ok r
    /\ start r = Py.PStr t
    /\ start_method r = Py.PStr "First 'In Progress' after planning".
Proof.
  intros Hcol Hnone Hc Hpre Ht.
  exists (Parser.select_dates statuses (pre ++ c :: post)). split.
  { apply detect_on_collected; [assumption|]. now destruct pre. }
  pose proof (start_strategies_eq statuses (pre ++ c :: post)) as Hs.
  unfold next_created in Hs at 1.
  rewrite find_all_false in Hs
    by (intros e He; apply not_enters_contains; now apply Hnone).
  unfold enumerate in Hs.
  pose proof (find_after_planning_earliest pre post [] c Hpre Hc) as Hf.
  simpl in Hf. rewrite Hf in Hs. simpl snd in Hs. rewrite Ht in Hs.
  apply start_of_select in Hs as [-> ->].
  rewrite first_not_none_second by discriminate.
  simpl Py.eq at 1. rewrite eq_str_refl. split; reflexivity.
Qed.

Lemma first_in_progress_after_planning_witness :
  exists r,
    Parser.detect_actual_dates_with review_only issue_planned = Py.Ok r
    /\ start r = Py.PStr "2024-03-04T09:00:00"
    /\ start_method r = Py.PStr "First 'In Progress' after planning".
Proof.
  apply (first_in_progress_after_planning review_only issue_planned
           [ {| created := Py.PStr "2024-03-01T10:00:00";
                from := Py.PStr "Open";
                to := Py.PStr "Ready for planning" |} ]
           []
           {| created := Py.PStr "2024-03-04T09:00:00";
              from := Py.PStr "Ready for planning";
              to := Py.PStr "In Progress" |}
           "2024-03-04T09:00:00").
  - reflexivity.
  - intros e [<-|[<-|[]]] (s & H & Hin); simpl in H; injection H as <-;
      simpl in Hin; destruct Hin as [E|[]]; discriminate E.
  - split; [reflexivity|]. eexists. split; [left; reflexivity | reflexivity].
  - intros [|y pre1] x post1 E.
    + injection E as <- <-. intros [H _]. discriminate H.
    + destruct pre1; discriminate E.
  - reflexivity.
Defined.

(** C4, as the specification words it, fails when the "In Progress" event
    after planning comes from a history entry without a "created" key: the
    second candidate is [None] too, and the start is the first event's
    timestamp, under the label of the last strategy. *)
Lemma first_in_progress_after_planning_without_timestamp :
  Parser.collect_status_changes issue_planned_without_created
  = Py.Ok [ {| created := Py.PStr "2024-03-01T10:00:00";
               from := Py.PStr "Open"; to := Py.PStr "Ready for planning" |};
            {| created := Py.PNone;
               from := Py.PStr "Ready for planning";
               to := Py.PStr "In Progress" |} ]
  /\ (forall e,
        In e [ {| created := Py.PStr "2024-03-01T10:00:00";
                  from := Py.PStr "Open"; to := Py.PStr "Ready for planning" |};
               {| created := Py.PNone;
                  from := Py.PStr "Ready for planning";
                  to := Py.PStr "In Progress" |} ] ->
        ~ enters (start_statuses review_only) e)
  /\ after_planning
       [ {| created := Py.PStr "2024-03-01T10:00:00";
            from := Py.PStr "Open"; to := Py.PStr "Ready for planning" |} ]
       {| created := Py.PNone;
          from := Py.PStr "Ready for planning"; to := Py.PStr "In Progress" |}
  /\ exists r,
       Parser.detect_actual_dates_with review_only issue_planned_without_created
       = Py.Ok r
       /\ start r = Py.PStr "2024-03-01T10:00:00"
       /\ start_method r = Py.PStr "First status change".
Proof.
  split; [reflexivity|]. split; [|split].
  - intros e [<-|[<-|[]]] (s & H & Hin); simpl in H; injection H as <-;
      simpl in Hin; destruct Hin as [E|[]]; discriminate E.
  - split; [reflexivity|]. eexists. split; [left; reflexivity | reflexivity].
  - eexists. repeat split.
Qed.

(** With the start set the modules ship, the premise of the second strategy
    cannot arise alone: an event that enters "In Progress" enters the start
    set. *)
Remark after_planning_enters_shipped_start (pre : list change) (c : change) :
  after_planning pre c -> enters (start_statuses Parser.DEVELOPMENT_STATUSES) c.
Proof. intros [H _]. exists "In Progress". split; [assumption | simpl; auto]. Qed.

Lemma last_of_cons (A : Type) (x : A) (l : list A) (d1 d2 : A) :
  last (x :: l) d1 = last (x :: l) d2.
Proof.
  revert x. induction l as [|y l IH]; intros x; [reflexivity|].
  change (last (y :: l) d1 = last (y :: l) d2). apply IH.
Qed.

(** The three finish candidates. *)
Lemma finish_strategies_eq (statuses : development_statuses) (changes : list change) :
  Parser.finish_strategies statuses changes
  = [ next_created (fun c => Py.contains (finish_statuses statuses) (to c)) (rev changes);
      next_created (fun c => Py.eq (to c) (Py.PStr "Deployed AC")) (rev changes);
      match changes with
      | [] => Py.PNone
      | first :: _ => created (last changes first)
      end ].
Proof.
  unfold Parser.finish_strategies. do 2 f_equal. f_equal.
  destruct changes as [|first rest]; [reflexivity|].
  f_equal. apply last_of_cons.
Qed.

(** C5, amended: on a non-empty event sequence in which no event enters a
    status of the configured start set or of the configured finish set, none
    enters "Deployed AC", the planning-transition pattern does not occur,
    and the first and the last event carry a timestamp, the strings [t1]
    and [t2], [detect_actual_dates] returns [t1] as start, with the method
    "First status change", and [t2] as finish, with the method
    "Last status change". *)
Theorem first_and_last_status_change (statuses : development_statuses)
  (jira_data : Py.value) (first : change) (rest : list change) (t1 t2 : string) :
  Parser.collect_status_changes jira_data = Py.Ok (first :: rest) ->
  (forall e, In e (first :: rest) ->
     ~ enters (start_statuses statuses) e
     /\ ~ enters (finish_statuses statuses) e
     /\ to e <> Py.PStr "Deployed AC") ->
  (forall pre x post, first :: rest = pre ++ x :: post -> ~ after_planning pre x) ->
  created first = Py.PStr t1 ->
  created (last (first :: rest) first) = Py.PStr t2 ->
  exists r,
    Parser.detect_actual_dates_with statuses jira_data = Py.Ok r
    /\ start r = Py.PStr t1
    /\ start_method r = Py.PStr "First status change"
    /\ finish r = Py.PStr t2
    /\ finish_method r = Py.PStr "Last status change".
Proof.
  intros Hcol Hnone Hplan Hfirst Hlast.
  exists (Parser.select_dates statuses (first :: rest)). split.
  { apply detect_on_collected; [assumption | discriminate]. }
  pose proof (start_strategies_eq statuses (first :: rest)) as Hs.
  pose proof (finish_strategies_eq statuses (first :: rest)) as Hf.
  unfold next_created in Hs, Hf.
  rewrite find_all_false in Hs
    by (intros e He; apply not_enters_contains; now apply Hnone).
  unfold enumerate in Hs.
  pose proof (find_after_planning_none (first :: rest) [] Hplan) as Hn.
  simpl List.length in Hn at 1. simpl app in Hn. rewrite Hn in Hs. clear Hn.
  rewrite find_all_false in Hf
    by (intros e He; apply not_enters_contains; apply Hnone; now apply in_rev).
  rewrite find_all_false in Hf.
  2:{ intros e He. apply in_rev in He. apply Hnone in He as (_ & _ & He).
      destruct (Py.eq (to e) (Py.PStr "Deployed AC")) eqn:E; [|reflexivity].
      now apply eq_str_r in E. }
  rewrite Hfirst in Hs. rewrite Hlast in Hf.
  apply start_of_select in Hs as [-> ->].
  apply finish_of_select in Hf as [-> ->].
  repeat split; reflexivity.
Qed.

Lemma first_and_last_status_change_witness :
  exists r,
    Parser.detect_actual_dates issue_open_done = Py.Ok r
    /\ start r = Py.PStr "2024-03-04T09:00:00"
    /\ start_method r = Py.PStr "First status change"
    /\ finish r = Py.PStr "2024-03-06T17:00:00"
    /\ finish_method r = Py.PStr "Last status change".
Proof.
  apply (first_and_last_status_change Parser.DEVELOPMENT_STATUSES issue_open_done
           {| created := Py.PStr "2024-03-04T09:00:00";
              from := Py.PStr "Open"; to := Py.PStr "Selected" |}
           [ {| created := Py.PStr "2024-03-06T17:00:00";
                from := Py.PStr "Selected"; to := Py.PStr "Done" |} ]
           "2024-03-04T09:00:00" "2024-03-06T17:00:00").
  - reflexivity.
  - intros e [<-|[<-|[]]]; (split; [|split]);
      try (intros (s & H & Hin); simpl in H; injection H as <-;
           simpl in Hin; destruct Hin as [E|[E|[]]]; discriminate E);
      discriminate.
  - intros pre x post E [Hx _].
    destruct pre as [|a [|b pre]]; injection E as; subst; try discriminate Hx.
    destruct pre; discriminate.
  - reflexivity.
  - reflexivity.
Defined.

(** C5, as the specification words it, fails when the events have no
    timestamp: on a single change to "Done", from a history entry without a
    "created" key, every candidate is [None], and the labels are those of
    the first strategies. *)
Lemma first_and_last_status_change_without_timestamp :
  Parser.collect_status_changes issue_without_created
  = Py.Ok [{| created := Py.PNone; from := Py.PStr "Open"; to := Py.PStr "Done" |}]
  /\ (forall e,
        In e [{| created := Py.PNone; from := Py.PStr "Open"; to := Py.PStr "Done" |}] ->
        ~ enters (start_statuses Parser.DEVELOPMENT_STATUSES) e
        /\ ~ enters (finish_statuses Parser.DEVELOPMENT_STATUSES) e
        /\ to e <> Py.PStr "Deployed AC"
        /\ to e <> Py.PStr "In Progress")
  /\ exists r,
       Parser.detect_actual_dates issue_without_created = Py.Ok r
       /\ start_method r = Py.PStr "First development status"
       /\ finish_method r = Py.PStr "Last development finish status"
       /\ start_method r <> Py.PStr "First status change"
       /\ finish_method r <> Py.PStr "Last status change".
Proof.
  split; [reflexivity|]. split.
  - intros e [<-|[]]. repeat split;
      try (intros (s & H & Hin); simpl in H; injection H as <-;
           simpl in Hin; destruct Hin as [E|[E|[]]]; discriminate E);
      discriminate.
  - eexists. split; [reflexivity|]. repeat split; discriminate.
Qed.

Lemma last_in (A : Type) (x : A) (l : list A) : In (last (x :: l) x) (x :: l).
Proof.
  revert x. induction l as [|y l IH]; intros x; [now left | right].
  change (In (last (y :: l) x) (y :: l)).
  rewrite (last_of_cons A y l x y). apply IH.
Qed.

Lemma next_created_candidate (cond : change -> bool) (changes : list change) :
  candidate changes (next_created cond changes).
Proof.
  unfold next_created, candidate.
  destruct (find cond changes) as [c|] eqn:E; [right | now left].
  apply find_some in E as [Hin _]. now exists c.
Qed.

Lemma candidate_rev (changes : list change) (v : Py.value) :
  candidate (rev changes) v -> candidate changes v.
Proof.
  intros [H|(c & Hin & H)]; [now left | right].
  exists c. split; [now apply in_rev | assumption].
Qed.

Lemma start_candidates (statuses : development_statuses) (changes : list change) :
  Forall (candidate changes) (Parser.start_strategies statuses changes).
Proof.
  rewrite start_strategies_eq.
  apply Forall_cons; [|apply Forall_cons; [|apply Forall_cons; [|apply Forall_nil]]].
  - apply next_created_candidate.
  - destruct (find _ (enumerate changes)) as [[i c]|] eqn:E; [right | now left].
    apply find_some in E as [Hin _]. apply in_combine_r in Hin. now exists c.
  - destruct changes as [|c rest]; [now left | right].
    exists c. split; [now left | reflexivity].
Qed.

Lemma finish_candidates (statuses : development_statuses) (changes : list change) :
  Forall (candidate changes) (Parser.finish_strategies statuses changes).
Proof.
  rewrite finish_strategies_eq.
  apply Forall_cons; [|apply Forall_cons; [|apply Forall_cons; [|apply Forall_nil]]].
  - apply candidate_rev, next_created_candidate.
  - apply candidate_rev, next_created_candidate.
  - destruct changes as [|c rest]; [now left | right].
    exists (last (c :: rest) c). split; [apply last_in | reflexivity].
Qed.

(** The first candidate that is not [None] is one of the candidates. *)
Lemma first_not_none_candidate (changes : list change) (strategies : list Py.value) :
  Forall (candidate changes) strategies ->
  candidate changes (first_not_none strategies).
Proof.
  unfold first_not_none. intros H.
  destruct (find _ strategies) as [v|] eqn:E; [|now left].
  apply find_some in E as [Hin _]. rewrite Forall_forall in H. now apply H.
Qed.

Lemma first_not_none_present (strategies : list Py.value) (v : Py.value) :
  In v strategies -> present v -> present (first_not_none strategies).
Proof.
  unfold first_not_none, present. intros Hin Hv.
  destruct (find _ strategies) as [w|] eqn:E.
  - apply find_some in E as [_ E]. now destruct w.
  - apply (find_none _ _ E) in Hin. now destruct v.
Qed.

(** C10, as stated, fails: a status change in a history entry without a
    "created" key is collected, the event sequence is not empty, and both
    start and finish are absent. *)
Lemma dates_absent_without_created :
  Parser.collect_status_changes issue_without_created
  = Py.Ok [{| created := Py.PNone; from := Py.PStr "Open"; to := Py.PStr "Done" |}]
  /\ exists r,
       Parser.detect_actual_dates issue_without_created = Py.Ok r
       /\ start r = Py.PNone /\ finish r = Py.PNone.
Proof. split; [reflexivity|]. eexists. repeat split. Qed.

(** C10, amended: when the collected event sequence is not empty and every
    event in it has a timestamp (the history entry it comes from carries a
    "created" value), [detect_actual_dates] returns start and finish both
    present, each the "created" timestamp of some collected event. *)
Theorem dates_present_when_timestamped (statuses : development_statuses)
  (jira_data : Py.value) (changes : list change) :
  Parser.collect_status_changes jira_data = Py.Ok changes ->
  changes <> [] ->
  (forall c, In c changes -> present (created c)) ->
  exists r,
    Parser.detect_actual_dates_with statuses jira_data = Py.Ok r
    /\ present (start r) /\ present (finish r)
    /\ (exists c, In c changes /\ start r = created c)
    /\ (exists c, In c changes /\ finish r = created c).
Proof.
  intros Hcol Hne Hts.
  exists (Parser.select_dates statuses changes).
  split; [now apply detect_on_collected|].
  destruct changes as [|first rest]; [now contradiction Hne|].
  assert (Hs : present (start (Parser.select_dates statuses (first :: rest)))).
  { unfold Parser.select_dates. simpl start.
    apply (first_not_none_present _ (created first)).
    - rewrite start_strategies_eq. right; right; now left.
    - apply Hts. now left. }
  assert (Hf : present (finish (Parser.select_dates statuses (first :: rest)))).
  { unfold Parser.select_dates. simpl finish.
    apply (first_not_none_present _ (created (last (first :: rest) first))).
    - rewrite finish_strategies_eq. right; right; now left.
    - apply Hts, last_in. }
  repeat split; try assumption.
  - destruct (first_not_none_candidate _ _ (start_candidates statuses (first :: rest)))
      as [E|E]; [|exact E].
    now contradiction Hs.
  - destruct (first_not_none_candidate _ _ (finish_candidates statuses (first :: rest)))
      as [E|E]; [|exact E].
    now contradiction Hf.
Qed.

Lemma dates_present_when_timestamped_witness :
  exists r,
    Parser.detect_actual_dates issue_mon_wed = Py.Ok r
    /\ present (start r) /\ present (finish r)
    /\ (exists c,
          In c [ {| created := Py.PStr "2024-03-04T09:00:00";
                    from := Py.PStr "Open"; to := Py.PStr "In Progress" |};
                 {| created := Py.PStr "2024-03-06T17:00:00";
                    from := Py.PStr "In Progress"; to := Py.PStr "Deployed AC" |} ]
          /\ start r = created c)
    /\ (exists c,
          In c [ {| created := Py.PStr "2024-03-04T09:00:00";
                    from := Py.PStr "Open"; to := Py.PStr "In Progress" |};
                 {| created := Py.PStr "2024-03-06T17:00:00";
                    from := Py.PStr "In Progress"; to := Py.PStr "Deployed AC" |} ]
          /\ finish r = created c).
Proof.
  apply (dates_present_when_timestamped Parser.DEVELOPMENT_STATUSES issue_mon_wed).
  - reflexivity.
  - discriminate.
  - intros c [<-|[<-|[]]]; discriminate.
Defined.

(** What [detect_actual_dates] returns when no status change is collected:
    nothing at all for a falsy record, the first label of each cascade for
    any other. *)
Lemma detect_falsy (statuses : development_statuses) (jira_data : Py.value) :
  Py.truthy jira_data = false ->
  Parser.detect_actual_dates_with statuses jira_data
  = Py.Ok {| start := Py.PNone; finish := Py.PNone;
             start_method := Py.PNone; finish_method := Py.PNone |}.
Proof. intros H. unfold Parser.detect_actual_dates_with. now rewrite H. Qed.

Lemma detect_no_status_change (statuses : development_statuses) (jira_data : Py.value) :
  Py.truthy jira_data = true ->
  Parser.collect_status_changes jira_data = Py.Ok [] ->
  Parser.detect_actual_dates_with statuses jira_data
  = Py.Ok {| start := Py.PNone; finish := Py.PNone;
             start_method := Py.PStr "First development status";
             finish_method := Py.PStr "Last development finish status" |}.
Proof.
  intros Ht Hc. unfold Parser.detect_actual_dates_with. now rewrite Ht, Hc.
Qed.

(** C1, at an issue with a changelog and no item on the field "status": the
    collected sequence is empty, start and finish are absent, and yet both
    method labels are present, because [None == None] selects the first
    label of each cascade. *)
Theorem labels_without_status_change :
  Py.truthy issue_without_status_items = true
  /\ Parser.collect_status_changes issue_without_status_items = Py.Ok []
  /\ Parser.detect_actual_dates issue_without_status_items
     = Py.Ok {| start := Py.PNone; finish := Py.PNone;
                start_method := Py.PStr "First development status";
                finish_method := Py.PStr "Last development finish status" |}.
Proof. repeat split. Qed.

(** C9: the two copies of [detect_actual_dates], in the parser module and in
    the client module, return the same result, or raise the same exception,
    on every issue record. *)
Theorem detect_actual_dates_copies_agree (jira_data : Py.value) :
  Parser.detect_actual_dates jira_data = Client.detect_actual_dates jira_data.
Proof. reflexivity. Qed.

(** So do the two copies of the collection loop. *)
Lemma collect_status_changes_copies_agree (jira_data : Py.value) :
  Parser.collect_status_changes jira_data = Client.collect_status_changes jira_data.
Proof. reflexivity. Qed.

(** The same holds whatever [DEVELOPMENT_STATUSES] holds, as long as it is
    the same in both modules. *)
Lemma detect_actual_dates_with_copies_agree (statuses : development_statuses)
  (jira_data : Py.value) :
  Parser.detect_actual_dates_with statuses jira_data
  = Client.detect_actual_dates_with statuses jira_data.
Proof. reflexivity. Qed.

(* ===================================================================== *)
(* ===================================================================== *)
(** * Comparing datetimes, adding days *)
(* ===================================================================== *)

Lemma DAY_pos : 0 < DateTime.DAY.
Proof. reflexivity. Qed.

Lemma le_same_kind (a b : DateTime.datetime) :
  same_kind a b = true ->
  DateTime.le a b = Py.Ok (DateTime.instant a <=? DateTime.instant b).
Proof.
  unfold same_kind, DateTime.le, DateTime.instant.
  destruct (DateTime.utcoffset a), (DateTime.utcoffset b);
    intros H; try discriminate; reflexivity.
Qed.

Lemma le_other_kind (a b : DateTime.datetime) :
  same_kind a b = false -> DateTime.le a b = Py.Raise Py.TypeError.
Proof.
  unfold same_kind, DateTime.le.
  destruct (DateTime.utcoffset a), (DateTime.utcoffset b);
    intros H; try discriminate; reflexivity.
Qed.

Lemma le_raises (a b : DateTime.datetime) (e : Py.exn) :
  DateTime.le a b = Py.Raise e -> e = Py.TypeError /\ same_kind a b = false.
Proof.
  unfold same_kind, DateTime.le.
  destruct (DateTime.utcoffset a), (DateTime.utcoffset b);
    intros H; try discriminate; injection H as <-; now split.
Qed.

Lemma lt_true_instant (a b : DateTime.datetime) :
  DateTime.lt a b = Py.Ok true ->
  same_kind a b = true /\ DateTime.instant a < DateTime.instant b.
Proof.
  unfold same_kind, DateTime.lt, DateTime.instant.
  destruct (DateTime.utcoffset a), (DateTime.utcoffset b);
    intros H; try discriminate; injection H as H; apply Z.ltb_lt in H; now split.
Qed.

Lemma le_true_instant (a b : DateTime.datetime) :
  DateTime.le a b = Py.Ok true ->
  same_kind a b = true /\ DateTime.instant a <= DateTime.instant b.
Proof.
  unfold same_kind, DateTime.le, DateTime.instant.
  destruct (DateTime.utcoffset a), (DateTime.utcoffset b);
    intros H; try discriminate; injection H as H; apply Z.leb_le in H; now split.
Qed.

Lemma same_kind_refl (x : DateTime.datetime) : same_kind x x = true.
Proof. unfold same_kind. now destruct (DateTime.utcoffset x). Qed.

Lemma in_range_bounds (d : DateTime.datetime) :
  DateTime.in_range d = true
  <-> 0 <= DateTime.wall d < DateTime.MAXORDINAL * DateTime.DAY.
Proof.
  unfold DateTime.in_range. rewrite andb_true_iff, Z.leb_le, Z.ltb_lt. reflexivity.
Qed.

Lemma add_days_ok (d : DateTime.datetime) (n : Z) :
  DateTime.in_range (DateTime.plus_days d n) = true ->
  DateTime.add_days d n = Py.Ok (DateTime.plus_days d n).
Proof. unfold DateTime.add_days. now intros ->. Qed.

Lemma add_days_overflow (d : DateTime.datetime) (n : Z) :
  DateTime.in_range (DateTime.plus_days d n) = false ->
  DateTime.add_days d n = Py.Raise Py.OverflowError.
Proof. unfold DateTime.add_days. now intros ->. Qed.

Lemma add_days_inv (d r : DateTime.datetime) (n : Z) :
  DateTime.add_days d n = Py.Ok r ->
  r = DateTime.plus_days d n /\ DateTime.in_range r = true.
Proof.
  unfold DateTime.add_days.
  destruct (DateTime.in_range (DateTime.plus_days d n)) eqn:E; intros H;
    [|discriminate].
  injection H as <-. now split.
Qed.

Lemma add_days_raises (d : DateTime.datetime) (n : Z) (e : Py.exn) :
  DateTime.add_days d n = Py.Raise e ->
  e = Py.OverflowError /\ DateTime.in_range (DateTime.plus_days d n) = false.
Proof.
  unfold DateTime.add_days.
  destruct (DateTime.in_range (DateTime.plus_days d n)) eqn:E; intros H;
    [discriminate|].
  injection H as <-. now split.
Qed.

Lemma instant_plus_days (d : DateTime.datetime) (n : Z) :
  DateTime.instant (DateTime.plus_days d n) = DateTime.instant d + n * DateTime.DAY.
Proof.
  unfold DateTime.instant, DateTime.plus_days.
  cbn [DateTime.wall DateTime.utcoffset].
  destruct (DateTime.utcoffset d); lia.
Qed.

Lemma toordinal_plus_days (d : DateTime.datetime) (n : Z) :
  DateTime.toordinal (DateTime.plus_days d n) = DateTime.toordinal d + n.
Proof.
  unfold DateTime.toordinal, DateTime.plus_days.
  cbn [DateTime.wall DateTime.utcoffset].
  rewrite Z.div_add by (pose proof DAY_pos; lia). lia.
Qed.

Lemma time_of_day_plus_days (d : DateTime.datetime) (n : Z) :
  DateTime.time_of_day (DateTime.plus_days d n) = DateTime.time_of_day d.
Proof.
  unfold DateTime.time_of_day, DateTime.plus_days.
  cbn [DateTime.wall DateTime.utcoffset].
  apply Z.mod_add. pose proof DAY_pos; lia.
Qed.

Lemma plus_days_plus_days (d : DateTime.datetime) (n m : Z) :
  DateTime.plus_days (DateTime.plus_days d n) m = DateTime.plus_days d (n + m).
Proof.
  unfold DateTime.plus_days. cbn [DateTime.wall DateTime.utcoffset]. f_equal. lia.
Qed.

Lemma plus_days_0 (d : DateTime.datetime) : DateTime.plus_days d 0 = d.
Proof.
  unfold DateTime.plus_days. destruct d as [w o].
  cbn [DateTime.wall DateTime.utcoffset]. f_equal. lia.
Qed.

Lemma weekday_range (d : DateTime.datetime) : 0 <= DateTime.weekday d < 7.
Proof. unfold DateTime.weekday. apply Z.mod_pos_bound. lia. Qed.

Lemma weekday_plus_day (d : DateTime.datetime) :
  DateTime.weekday (DateTime.plus_days d 1) = (DateTime.weekday d + 1) mod 7.
Proof.
  unfold DateTime.weekday. rewrite toordinal_plus_days, Zplus_mod_idemp_l.
  f_equal. lia.
Qed.

(** The reading of a datetime lies within its calendar date. *)
Lemma wall_of_ordinal (d : DateTime.datetime) :
  (DateTime.toordinal d - 1) * DateTime.DAY <= DateTime.wall d
  < DateTime.toordinal d * DateTime.DAY.
Proof.
  pose proof DAY_pos as HD. unfold DateTime.toordinal.
  pose proof (Z.div_mod (DateTime.wall d) DateTime.DAY ltac:(lia)) as E.
  pose proof (Z.mod_pos_bound (DateTime.wall d) DateTime.DAY HD) as B.
  lia.
Qed.

(** A date before 9999-12-31 has a next day. *)
Lemma before_last_day (d : DateTime.datetime) :
  DateTime.toordinal d < DateTime.MAXORDINAL ->
  DateTime.wall d + DateTime.DAY < DateTime.MAXORDINAL * DateTime.DAY.
Proof.
  intros H. pose proof DAY_pos as HD. pose proof (wall_of_ordinal d) as B.
  assert (DateTime.toordinal d * DateTime.DAY
          <= (DateTime.MAXORDINAL - 1) * DateTime.DAY)
    by (apply Z.mul_le_mono_nonneg_r; lia).
  lia.
Qed.

(** A datetime Python can build has a date up to 9999-12-31. *)
Lemma in_range_ordinal (d : DateTime.datetime) :
  DateTime.in_range d = true -> 1 <= DateTime.toordinal d <= DateTime.MAXORDINAL.
Proof.
  intros H. apply in_range_bounds in H. pose proof DAY_pos as HD.
  unfold DateTime.toordinal. split.
  - pose proof (Z.div_pos (DateTime.wall d) DateTime.DAY ltac:(lia) HD). lia.
  - assert (DateTime.wall d / DateTime.DAY < DateTime.MAXORDINAL)
      by (apply Z.div_lt_upper_bound; lia).
    lia.
Qed.

(** On the last date, the next day is out of range. *)
Lemma last_day_overflows (d : DateTime.datetime) :
  DateTime.MAXORDINAL <= DateTime.toordinal d ->
  DateTime.add_days d 1 = Py.Raise Py.OverflowError.
Proof.
  intros H. apply add_days_overflow.
  destruct (DateTime.in_range (DateTime.plus_days d 1)) eqn:E; [|reflexivity].
  apply in_range_bounds in E. cbn [DateTime.plus_days DateTime.wall] in E.
  pose proof (wall_of_ordinal d) as B. pose proof DAY_pos as HD.
  assert ((DateTime.MAXORDINAL - 1) * DateTime.DAY
          <= (DateTime.toordinal d - 1) * DateTime.DAY)
    by (apply Z.mul_le_mono_nonneg_r; lia).
  lia.
Qed.

(* ===================================================================== *)
(** * The duration loop *)
(* ===================================================================== *)

(** No day fits between the two instants when the end is the earlier. *)
Lemma visits_none (a b : Z) :
  Z.to_nat ((b - a) / DateTime.DAY + 1) = O -> b < a.
Proof.
  intros H. pose proof DAY_pos as HD.
  destruct (Z.lt_ge_cases (b - a) 0) as [|Hge]; [lia|].
  pose proof (Z.div_pos _ _ Hge HD). lia.
Qed.

Lemma visits_some (a b : Z) (n : nat) :
  Z.to_nat ((b - a) / DateTime.DAY + 1) = S n ->
  a <= b /\ (b - a) / DateTime.DAY = Z.of_nat n.
Proof.
  intros H. pose proof DAY_pos as HD. split; [|lia].
  destruct (Z.lt_ge_cases (b - a) 0) as [Hlt|]; [|lia].
  assert ((b - a) / DateTime.DAY < 0) by (apply Z.div_lt_upper_bound; lia).
  lia.
Qed.

Lemma visits_next (a b : Z) :
  (b - (a + 1 * DateTime.DAY)) / DateTime.DAY = (b - a) / DateTime.DAY - 1.
Proof.
  pose proof DAY_pos as HD.
  replace (b - (a + 1 * DateTime.DAY)) with (b - a + (-1) * DateTime.DAY) by lia.
  rewrite Z.div_add by lia. lia.
Qed.

(** The loop, given enough fuel and as long as every next day is a date
    Python can build, returns: it adds to [total_days] the weekdays among
    the calendar dates of [current], [current] + 1 day, ... for as long as
    these instants are not after [end_]. *)
Lemma while_loop_counts (n : nat) :
  forall (fuel : nat) (current end_ : DateTime.datetime) (total_days : Z),
    same_kind current end_ = true ->
    Z.to_nat ((DateTime.instant end_ - DateTime.instant current) / DateTime.DAY + 1) = n ->
    DateTime.in_range current = true ->
    steps_fit current n ->
    (n < fuel)%nat ->
    while_loop fuel current end_ total_days
    = Some (Py.Ok (total_days + weekdays_from (DateTime.toordinal current) n)).
Proof.
  pose proof DAY_pos as HD.
  induction n as [|n IH]; intros fuel current end_ total Hk Hn Hr Hfit Hfuel;
    (destruct fuel as [|fuel]; [lia|]); cbn [while_loop weekdays_from];
    rewrite (le_same_kind _ _ Hk).
  - apply visits_none in Hn.
    replace (DateTime.instant current <=? DateTime.instant end_) with false
      by (symmetry; apply Z.leb_gt; lia).
    now rewrite Z.add_0_r.
  - apply visits_some in Hn as [Hle Hq].
    replace (DateTime.instant current <=? DateTime.instant end_) with true
      by (symmetry; apply Z.leb_le; lia).
    destruct Hfit as [Hz|Hfit]; [discriminate|].
    rewrite Nat2Z.inj_succ in Hfit.
    assert (0 <= Z.of_nat n * DateTime.DAY) by (apply Z.mul_nonneg_nonneg; lia).
    assert (Hr' : DateTime.in_range (DateTime.plus_days current 1) = true).
    { apply in_range_bounds in Hr. apply in_range_bounds.
      cbn [DateTime.plus_days DateTime.wall]. lia. }
    rewrite (add_days_ok _ _ Hr').
    rewrite (IH fuel (DateTime.plus_days current 1) end_).
    + rewrite toordinal_plus_days. unfold DateTime.weekday.
      destruct ((DateTime.toordinal current + 6) mod 7 <? 5); do 2 f_equal; lia.
    + exact Hk.
    + rewrite instant_plus_days, visits_next. lia.
    + exact Hr'.
    + destruct (Nat.eq_dec n 0) as [E|E]; [now left | right].
      cbn [DateTime.plus_days DateTime.wall]. lia.
    + lia.
Qed.

(** When the day after one of the days visited is past 9999-12-31, the loop
    raises [OverflowError]. *)
Lemma while_loop_overflows (n : nat) :
  forall (fuel : nat) (current end_ : DateTime.datetime) (total_days : Z),
    same_kind current end_ = true ->
    Z.to_nat ((DateTime.instant end_ - DateTime.instant current) / DateTime.DAY + 1)
    = S n ->
    DateTime.MAXORDINAL * DateTime.DAY
    <= DateTime.wall current + Z.of_nat (S n) * DateTime.DAY ->
    (S n < fuel)%nat ->
    while_loop fuel current end_ total_days = Some (Py.Raise Py.OverflowError).
Proof.
  pose proof DAY_pos as HD.
  induction n as [|n IH]; intros fuel current end_ total Hk Hn Hover Hfuel;
    (destruct fuel as [|fuel]; [lia|]); cbn [while_loop];
    rewrite (le_same_kind _ _ Hk);
    apply visits_some in Hn as [Hle Hq];
    (replace (DateTime.instant current <=? DateTime.instant end_) with true
      by (symmetry; apply Z.leb_le; lia));
    (destruct (DateTime.in_range (DateTime.plus_days current 1)) eqn:Hr';
     [rewrite (add_days_ok _ _ Hr') | now rewrite (add_days_overflow _ _ Hr')]).
  - exfalso. apply in_range_bounds in Hr'.
    cbn [DateTime.plus_days DateTime.wall] in Hr'. lia.
  - apply IH.
    + exact Hk.
    + rewrite instant_plus_days, visits_next. lia.
    + cbn [DateTime.plus_days DateTime.wall].
      rewrite (Nat2Z.inj_succ (S n)) in Hover. lia.
    + lia.
Qed.

(** The loop never runs out of the fuel it is given. *)
Lemma while_loop_fuel (n : nat) :
  forall (fuel : nat) (current end_ : DateTime.datetime) (total_days : Z),
    Z.to_nat ((DateTime.instant end_ - DateTime.instant current) / DateTime.DAY + 1) = n ->
    (n < fuel)%nat ->
    while_loop fuel current end_ total_days <> None.
Proof.
  induction n as [|n IH]; intros fuel current end_ total Hn Hfuel;
    (destruct fuel as [|fuel]; [lia|]); cbn [while_loop];
    destruct (DateTime.le current end_) as [[|]|e] eqn:Hle; try discriminate.
  - exfalso. apply le_true_instant in Hle as [_ Hle]. apply visits_none in Hn. lia.
  - destruct (DateTime.add_days current 1) as [current'|e] eqn:Ha; [|discriminate].
    apply add_days_inv in Ha as [-> _]. apply IH; [|lia].
    apply visits_some in Hn as [_ Hq].
    rewrite instant_plus_days, visits_next. lia.
Qed.

Lemma while_loop_returns (start end_ : DateTime.datetime) :
  while_loop (tests start end_) start end_ 0 <> None.
Proof. apply (while_loop_fuel _ _ _ _ _ eq_refl). unfold tests. lia. Qed.

(** The loop raises nothing but the [TypeError] of a comparison and the
    [OverflowError] of an addition. *)
Lemma while_loop_raises (fuel : nat) :
  forall (current end_ : DateTime.datetime) (total_days : Z) (e : Py.exn),
    while_loop fuel current end_ total_days = Some (Py.Raise e) ->
    e = Py.TypeError \/ e = Py.OverflowError.
Proof.
  induction fuel as [|fuel IH]; intros current end_ total e H; [discriminate|].
  cbn [while_loop] in H.
  destruct (DateTime.le current end_) as [[|]|e'] eqn:Hle.
  - destruct (DateTime.add_days current 1) as [current'|e'] eqn:Ha.
    + eapply IH; eassumption.
    + injection H as <-. right. now apply add_days_raises in Ha.
  - discriminate.
  - injection H as <-. left. now apply le_raises in Hle.
Qed.

(** The loop only ever adds to the count. *)
Lemma while_loop_grows (fuel : nat) :
  forall (current end_ : DateTime.datetime) (total_days r : Z),
    while_loop fuel current end_ total_days = Some (Py.Ok r) -> total_days <= r.
Proof.
  induction fuel as [|fuel IH]; intros current end_ total r H; cbn [while_loop] in H;
    [discriminate|].
  destruct (DateTime.le current end_) as [[|]|]; try discriminate.
  - destruct (DateTime.add_days current 1); [|discriminate].
    apply IH in H. destruct (DateTime.weekday current <? 5); lia.
  - injection H as <-. lia.
Qed.

(** A comparison that raises is the first thing the loop does. *)
Lemma while_loop_other_kind (start end_ : DateTime.datetime) :
  same_kind start end_ = false ->
  while_loop (tests start end_) start end_ 0 = Some (Py.Raise Py.TypeError).
Proof.
  intros Hk. unfold tests. cbn [while_loop]. now rewrite (le_other_kind _ _ Hk).
Qed.

(** The loop on one timestamp: it returns only if that day has a next one,
    and then it counts the day when it is a weekday. *)
Lemma while_loop_one_day (x : DateTime.datetime) :
  while_loop (tests x x) x x 0
  = match DateTime.add_days x 1 with
    | Py.Ok _ => Some (Py.Ok (if DateTime.weekday x <? 5 then 1 else 0))
    | Py.Raise e => Some (Py.Raise e)
    end.
Proof.
  pose proof DAY_pos as HD.
  unfold tests. rewrite Z.sub_diag. change (Z.to_nat (0 / DateTime.DAY + 1)) with 1%nat.
  cbn [while_loop]. rewrite (le_same_kind _ _ (same_kind_refl x)), Z.leb_refl.
  destruct (DateTime.add_days x 1) as [x'|e] eqn:Ha; [|reflexivity].
  apply add_days_inv in Ha as [-> _].
  rewrite (le_same_kind (DateTime.plus_days x 1) x (same_kind_refl x)).
  rewrite instant_plus_days.
  replace (DateTime.instant x + 1 * DateTime.DAY <=? DateTime.instant x) with false
    by (symmetry; apply Z.leb_gt; lia).
  now destruct (DateTime.weekday x <? 5).
Qed.

(* ===================================================================== *)
(** * [calculate_duration] *)
(* ===================================================================== *)

Lemma round_2 (n : Z) : round n 2 = n.
Proof. reflexivity. Qed.

Section Duration.

Variable fromisoformat : string -> option DateTime.datetime.

Lemma not_str_some (s : string) : s <> "" -> not_str (Some s) = false.
Proof. intros H. simpl. now apply String.eqb_neq. Qed.

Lemma parse_iso_date_parses (s : string) (d : DateTime.datetime) :
  parses fromisoformat s d ->
  DateUtils.parse_iso_date fromisoformat (Some s) = Some d.
Proof.
  intros (Hs & Hd & _). unfold DateUtils.parse_iso_date.
  now rewrite (not_str_some _ Hs).
Qed.

(** Both copies of [calculate_duration] on two parsable timestamps, in
    terms of the loop. *)
Lemma calculate_duration_loop (s e : string) (start end_ : DateTime.datetime) :
  parses fromisoformat s start ->
  parses fromisoformat e end_ ->
  DateUtils.calculate_duration fromisoformat (Some s) (Some e)
  = match while_loop (tests start end_) start end_ 0 with
    | Some (Py.Ok total_days) => Some (Py.Ok (Some total_days))
    | Some (Py.Raise exc) => Some (Py.Raise exc)
    | None => None
    end
  /\ Parser.calculate_duration fromisoformat (Some s) (Some e)
     = match while_loop (tests start end_) start end_ 0 with
       | Some (Py.Ok total_days) => Some (Py.Ok (Some total_days))
       | Some (Py.Raise exc) =>
           if caught exc then Some (Py.Ok None) else Some (Py.Raise exc)
       | None => None
       end.
Proof.
  intros Hs He.
  unfold DateUtils.calculate_duration, Parser.calculate_duration.
  rewrite (parse_iso_date_parses _ _ Hs), (parse_iso_date_parses _ _ He).
  destruct Hs as (Hs & Hds & _), He as (He & Hde & _).
  rewrite (not_str_some _ Hs), (not_str_some _ He), Hds, Hde. cbn [orb].
  split; reflexivity.
Qed.

(** On two parsable timestamps that Python can compare, and as long as
    every next day is a date Python can build, both copies of
    [calculate_duration] return the number of weekdays among the calendar
    dates the loop visits. *)
Lemma calculate_duration_counts (s e : string) (start end_ : DateTime.datetime) :
  parses fromisoformat s start ->
  parses fromisoformat e end_ ->
  same_kind start end_ = true ->
  steps_fit start (days_visited start end_) ->
  DateUtils.calculate_duration fromisoformat (Some s) (Some e)
  = Some (Py.Ok (Some (weekdays_from (DateTime.toordinal start) (days_visited start end_))))
  /\ Parser.calculate_duration fromisoformat (Some s) (Some e)
     = Some (Py.Ok (Some (weekdays_from (DateTime.toordinal start)
                            (days_visited start end_)))).
Proof.
  intros Hs He Hk Hfit.
  assert (Hloop : while_loop (tests start end_) start end_ 0
                  = Some (Py.Ok (weekdays_from (DateTime.toordinal start)
                                   (days_visited start end_)))).
  { rewrite (while_loop_counts (days_visited start end_) _ _ _ 0 Hk eq_refl).
    - reflexivity.
    - apply Hs.
    - exact Hfit.
    - unfold tests, days_visited. lia. }
  destruct (calculate_duration_loop s e start end_ Hs He) as [-> ->].
  rewrite Hloop. split; reflexivity.
Qed.

(** On two parsable timestamps that Python can compare, when the day after
    one of the days visited is past 9999-12-31, both copies of
    [calculate_duration] raise [OverflowError]. *)
Lemma calculate_duration_overflow (s e : string) (start end_ : DateTime.datetime) :
  parses fromisoformat s start ->
  parses fromisoformat e end_ ->
  same_kind start end_ = true ->
  ~ steps_fit start (days_visited start end_) ->
  DateUtils.calculate_duration fromisoformat (Some s) (Some e)
  = Some (Py.Raise Py.OverflowError)
  /\ Parser.calculate_duration fromisoformat (Some s) (Some e)
     = Some (Py.Raise Py.OverflowError).
Proof.
  intros Hs He Hk Hfit.
  assert (Hloop : while_loop (tests start end_) start end_ 0
                  = Some (Py.Raise Py.OverflowError)).
  { unfold steps_fit in Hfit.
    destruct (days_visited start end_) as [|n] eqn:Hn; [now contradiction Hfit; left|].
    apply (while_loop_overflows n).
    - exact Hk.
    - exact Hn.
    - destruct (Z.lt_ge_cases
                  (DateTime.wall start + Z.of_nat (S n) * DateTime.DAY)
                  (DateTime.MAXORDINAL * DateTime.DAY)) as [Hlt|Hge];
        [contradiction Hfit; now right | exact Hge].
    - unfold tests. fold (days_visited start end_). rewrite Hn. lia. }
  destruct (calculate_duration_loop s e start end_ Hs He) as [-> ->].
  rewrite Hloop. split; reflexivity.
Qed.

(** X22: a naive and an aware timestamp: the comparison raises [TypeError],
    which [date_utils] lets through and the parser module turns into
    [None]. *)
Lemma calculate_duration_mixed (s e : string) (start end_ : DateTime.datetime) :
  parses fromisoformat s start ->
  parses fromisoformat e end_ ->
  same_kind start end_ = false ->
  DateUtils.calculate_duration fromisoformat (Some s) (Some e)
  = Some (Py.Raise Py.TypeError)
  /\ Parser.calculate_duration fromisoformat (Some s) (Some e) = Some (Py.Ok None).
Proof.
  intros Hs He Hk.
  destruct (calculate_duration_loop s e start end_ Hs He) as [-> ->].
  rewrite (while_loop_other_kind _ _ Hk). split; reflexivity.
Qed.

(** A number comes back only from a loop that compared its timestamps and
    found a next day after every day it visited. *)
Lemma calculate_duration_number (s e : string) (start end_ : DateTime.datetime) (n : Z) :
  parses fromisoformat s start ->
  parses fromisoformat e end_ ->
  DateUtils.calculate_duration fromisoformat (Some s) (Some e) = Some (Py.Ok (Some n))
  \/ Parser.calculate_duration fromisoformat (Some s) (Some e) = Some (Py.Ok (Some n)) ->
  same_kind start end_ = true /\ steps_fit start (days_visited start end_).
Proof.
  intros Hs He H.
  destruct (same_kind start end_) eqn:Hk.
  - split; [reflexivity|].
    assert (D : steps_fit start (days_visited start end_)
                \/ ~ steps_fit start (days_visited start end_)).
    { unfold steps_fit.
      destruct (Nat.eq_dec (days_visited start end_) 0) as [E|E]; [now left; left|].
      destruct (Z.lt_ge_cases
                  (DateTime.wall start
                   + Z.of_nat (days_visited start end_) * DateTime.DAY)
                  (DateTime.MAXORDINAL * DateTime.DAY)) as [Hlt|Hge];
        [left; now right | right; intros [?|?]; lia]. }
    destruct D as [D|D]; [exact D|].
    destruct (calculate_duration_overflow s e start end_ Hs He Hk D) as [E1 E2].
    rewrite E1, E2 in H. destruct H; discriminate.
  - destruct (calculate_duration_loop s e start end_ Hs He) as [E1 E2].
    rewrite E1, E2, (while_loop_other_kind _ _ Hk) in H.
    destruct H; discriminate.
Qed.

(** [calculate_duration] returns or raises on every input: the loop
    terminates. *)
Lemma calculate_duration_returns (start_date end_date : option string) :
  DateUtils.calculate_duration fromisoformat start_date end_date <> None
  /\ Parser.calculate_duration fromisoformat start_date end_date <> None.
Proof.
  unfold DateUtils.calculate_duration, Parser.calculate_duration.
  destruct (not_str start_date || not_str end_date) eqn:E; [split; discriminate|].
  apply orb_false_iff in E as [E1 E2].
  destruct start_date as [s|]; [|discriminate].
  destruct end_date as [e|]; [|discriminate].
  unfold DateUtils.parse_iso_date. rewrite E1, E2.
  destruct (fromisoformat (Py.replace_char "Z" "+00:00" s)) as [start|];
    destruct (fromisoformat (Py.replace_char "Z" "+00:00" e)) as [end_|];
    try (split; discriminate).
  pose proof (while_loop_returns start end_) as H.
  destruct (while_loop (tests start end_) start end_ 0) as [[n|x]|];
    [split; discriminate | | now contradiction H].
  split; [discriminate | destruct (caught x); discriminate].
Qed.

(** The copy in the parser module raises nothing but [OverflowError]. *)
Lemma calculate_duration_raises (start_date end_date : option string) (x : Py.exn) :
  Parser.calculate_duration fromisoformat start_date end_date = Some (Py.Raise x) ->
  x = Py.OverflowError.
Proof.
  unfold Parser.calculate_duration.
  destruct (not_str start_date || not_str end_date); [discriminate|].
  destruct start_date as [s|]; [|discriminate].
  destruct end_date as [e|]; [|discriminate].
  destruct (fromisoformat (Py.replace_char "Z" "+00:00" s)) as [start|];
    [|discriminate].
  destruct (fromisoformat (Py.replace_char "Z" "+00:00" e)) as [end_|];
    [|discriminate].
  destruct (while_loop (tests start end_) start end_ 0) as [[n|y]|] eqn:L;
    try discriminate.
  apply while_loop_raises in L as [-> | ->]; cbn [caught]; [discriminate|].
  now intros [= <-].
Qed.

End Duration.

(** C7: for two parsable timestamps with the end strictly earlier than the
    start, [calculate_duration] returns 0: no exception, no negative
    number. *)
Theorem reversed_timestamps_give_zero
  (fromisoformat : string -> option DateTime.datetime)
  (s e : string) (start end_ : DateTime.datetime) :
  parses fromisoformat s start ->
  parses fromisoformat e end_ ->
  DateTime.lt end_ start = Py.Ok true ->
  DateUtils.calculate_duration fromisoformat (Some s) (Some e) = Some (Py.Ok (Some 0))
  /\ Parser.calculate_duration fromisoformat (Some s) (Some e) = Some (Py.Ok (Some 0)).
Proof.
  intros Hs He Hlt. apply lt_true_instant in Hlt as [Hk Hlt].
  assert (Hk' : same_kind start end_ = true).
  { unfold same_kind in *.
    now destruct (DateTime.utcoffset start), (DateTime.utcoffset end_). }
  assert (Hv : days_visited start end_ = O).
  { unfold days_visited.
    assert ((DateTime.instant end_ - DateTime.instant start) / DateTime.DAY < 0)
      by (apply Z.div_lt_upper_bound; pose proof DAY_pos; lia).
    lia. }
  pose proof (calculate_duration_counts fromisoformat s e start end_ Hs He Hk') as H.
  rewrite Hv in H. apply H. now left.
Qed.

Lemma reversed_timestamps_give_zero_witness :
  DateUtils.calculate_duration DateTime.fromisoformat_fixed
    (Some "2024-03-06T09:00:00") (Some "2024-03-04T15:00:00")
  = Some (Py.Ok (Some 0))
  /\ Parser.calculate_duration DateTime.fromisoformat_fixed
       (Some "2024-03-06T09:00:00") (Some "2024-03-04T15:00:00")
     = Some (Py.Ok (Some 0)).
Proof.
  apply (reversed_timestamps_give_zero DateTime.fromisoformat_fixed
           "2024-03-06T09:00:00" "2024-03-04T15:00:00"
           (DateTime.make 2024 3 6 9 0 0 None) (DateTime.make 2024 3 4 15 0 0 None)).
  - split; [discriminate | split; vm_compute; reflexivity].
  - split; [discriminate | split; vm_compute; reflexivity].
  - vm_compute; reflexivity.
Defined.

(** C8, amended: for a parsable timestamp [x] on a date before
    9999-12-31, [calculate_duration(x, x)] is 1 when [x] falls on Monday to
    Friday and 0 when it falls on Saturday or Sunday. *)
Theorem duration_of_one_timestamp
  (fromisoformat : string -> option DateTime.datetime)
  (s : string) (x : DateTime.datetime) :
  parses fromisoformat s x ->
  DateTime.toordinal x < DateTime.MAXORDINAL ->
  (DateTime.weekday x < 5 ->
   DateUtils.calculate_duration fromisoformat (Some s) (Some s) = Some (Py.Ok (Some 1))
   /\ Parser.calculate_duration fromisoformat (Some s) (Some s)
      = Some (Py.Ok (Some 1)))
  /\ (DateTime.weekday x = 5 \/ DateTime.weekday x = 6 ->
      DateUtils.calculate_duration fromisoformat (Some s) (Some s) = Some (Py.Ok (Some 0))
      /\ Parser.calculate_duration fromisoformat (Some s) (Some s)
         = Some (Py.Ok (Some 0))).
Proof.
  intros Hs Hx.
  assert (Hv : days_visited x x = 1%nat).
  { unfold days_visited. now rewrite Z.sub_diag. }
  assert (Hfit : steps_fit x (days_visited x x)).
  { rewrite Hv. right. pose proof (before_last_day x Hx).
    change (Z.of_nat 1) with 1. lia. }
  pose proof (calculate_duration_counts fromisoformat s s x x Hs Hs
                (same_kind_refl x) Hfit) as H.
  rewrite Hv in H. cbn [weekdays_from] in H. fold (DateTime.weekday x) in H.
  split; intros Hw.
  - now replace (DateTime.weekday x <? 5) with true in H
      by (symmetry; apply Z.ltb_lt; lia).
  - now replace (DateTime.weekday x <? 5) with false in H
      by (symmetry; apply Z.ltb_ge; lia).
Qed.

Lemma duration_of_one_timestamp_witness :
  (DateUtils.calculate_duration DateTime.fromisoformat_fixed
     (Some "2024-03-04T15:00:00Z") (Some "2024-03-04T15:00:00Z")
   = Some (Py.Ok (Some 1))
   /\ Parser.calculate_duration DateTime.fromisoformat_fixed
        (Some "2024-03-04T15:00:00Z") (Some "2024-03-04T15:00:00Z")
      = Some (Py.Ok (Some 1)))
  /\ (DateUtils.calculate_duration DateTime.fromisoformat_fixed
        (Some "2024-03-09T10:00:00") (Some "2024-03-09T10:00:00")
      = Some (Py.Ok (Some 0))
      /\ Parser.calculate_duration DateTime.fromisoformat_fixed
           (Some "2024-03-09T10:00:00") (Some "2024-03-09T10:00:00")
         = Some (Py.Ok (Some 0))).
Proof.
  split.
  - apply (duration_of_one_timestamp DateTime.fromisoformat_fixed
             "2024-03-04T15:00:00Z" (DateTime.make 2024 3 4 15 0 0 (Some 0))).
    + split; [discriminate | split; vm_compute; reflexivity].
    + vm_compute; reflexivity.
    + vm_compute; reflexivity.
  - apply (duration_of_one_timestamp DateTime.fromisoformat_fixed
             "2024-03-09T10:00:00" (DateTime.make 2024 3 9 10 0 0 None)).
    + split; [discriminate | split; vm_compute; reflexivity].
    + vm_compute; reflexivity.
    + left. vm_compute; reflexivity.
Defined.

(** C8, as the specification words it, fails on the last date Python has:
    "9999-12-31T10:00:00" parses and falls on a Friday, and both copies of
    [calculate_duration] raise [OverflowError] on it, from
    [current += datetime.timedelta(days=1)]. *)
Lemma duration_of_last_day_raises :
  parses DateTime.fromisoformat_fixed "9999-12-31T10:00:00"
    (DateTime.make 9999 12 31 10 0 0 None)
  /\ DateTime.weekday (DateTime.make 9999 12 31 10 0 0 None) = 4
  /\ DateUtils.calculate_duration DateTime.fromisoformat_fixed
       (Some "9999-12-31T10:00:00") (Some "9999-12-31T10:00:00")
     = Some (Py.Raise Py.OverflowError)
  /\ Parser.calculate_duration DateTime.fromisoformat_fixed
       (Some "9999-12-31T10:00:00") (Some "9999-12-31T10:00:00")
     = Some (Py.Raise Py.OverflowError)
  /\ Parser.calculate_duration DateTime.fromisoformat_fixed
       (Some "9999-12-31T10:00:00") (Some "9999-12-31T10:00:00")
     <> Some (Py.Ok (Some 1)).
Proof.
  split; [split; [discriminate | split; vm_compute; reflexivity]|].
  split; [vm_compute; reflexivity|].
  split; [vm_compute; reflexivity|].
  split; [vm_compute; reflexivity | vm_compute; discriminate].
Qed.

(* ===================================================================== *)
(** * The loop against the calendar *)
(* ===================================================================== *)

(** How many days the loop visits, for two timestamps of one UTC offset (or
    both naive): every calendar date from that of [start] through that of
    [end_] when the time of day of [end_] is not earlier than that of
    [start]; otherwise the date of [end_] is left out. *)
Lemma days_visited_calendar (start end_ : DateTime.datetime) :
  DateTime.utcoffset start = DateTime.utcoffset end_ ->
  (DateTime.time_of_day start <= DateTime.time_of_day end_ ->
   days_visited start end_
   = Z.to_nat (DateTime.toordinal end_ - DateTime.toordinal start + 1))
  /\ (DateTime.time_of_day end_ < DateTime.time_of_day start ->
      days_visited start end_
      = Z.to_nat (DateTime.toordinal end_ - DateTime.toordinal start)).
Proof.
  intros Hoff. pose proof DAY_pos as HD.
  unfold days_visited, DateTime.toordinal, DateTime.time_of_day, DateTime.instant.
  rewrite <- Hoff.
  pose proof (Z.div_mod (DateTime.wall start) DateTime.DAY ltac:(lia)) as Es.
  pose proof (Z.div_mod (DateTime.wall end_) DateTime.DAY ltac:(lia)) as Ee.
  pose proof (Z.mod_pos_bound (DateTime.wall start) DateTime.DAY HD) as Bs.
  pose proof (Z.mod_pos_bound (DateTime.wall end_) DateTime.DAY HD) as Be.
  set (qs := DateTime.wall start / DateTime.DAY) in *.
  set (rs := DateTime.wall start mod DateTime.DAY) in *.
  set (qe := DateTime.wall end_ / DateTime.DAY) in *.
  set (re := DateTime.wall end_ mod DateTime.DAY) in *.
  assert (Hdiff : forall off,
             match off with
             | Some o => DateTime.wall end_ - o - (DateTime.wall start - o)
             | None => DateTime.wall end_ - DateTime.wall start
             end = DateTime.wall end_ - DateTime.wall start)
    by (intros [o|]; lia).
  split; intros Ht; f_equal.
  - replace (match DateTime.utcoffset start with
             | Some off => DateTime.wall end_ - off
             | None => DateTime.wall end_
             end
             - match DateTime.utcoffset start with
               | Some off => DateTime.wall start - off
               | None => DateTime.wall start
               end)
      with ((qe - qs) * DateTime.DAY + (re - rs))
      by (destruct (DateTime.utcoffset start); lia).
    rewrite Z.div_add_l by lia. rewrite Z.div_small by lia. lia.
  - replace (match DateTime.utcoffset start with
             | Some off => DateTime.wall end_ - off
             | None => DateTime.wall end_
             end
             - match DateTime.utcoffset start with
               | Some off => DateTime.wall start - off
               | None => DateTime.wall start
               end)
      with ((qe - qs - 1) * DateTime.DAY + (DateTime.DAY + re - rs))
      by (destruct (DateTime.utcoffset start); lia).
    rewrite Z.div_add_l by lia. rewrite Z.div_small by lia. lia.
Qed.

Lemma same_offset_same_kind (start end_ : DateTime.datetime) :
  DateTime.utcoffset start = DateTime.utcoffset end_ -> same_kind start end_ = true.
Proof.
  unfold same_kind. intros <-. now destruct (DateTime.utcoffset start).
Qed.

(** The days from the date of [start] to a date [last] fit when [last] has
    a next day. *)
Lemma steps_fit_until (start : DateTime.datetime) (last : Z) :
  last < DateTime.MAXORDINAL ->
  steps_fit start (Z.to_nat (last - DateTime.toordinal start + 1)).
Proof.
  intros H. pose proof DAY_pos as HD. pose proof (wall_of_ordinal start) as B.
  destruct (Z.le_gt_cases (last - DateTime.toordinal start + 1) 0) as [Hle|Hgt].
  - left. lia.
  - right. rewrite Z2Nat.id by lia.
    assert ((last + 1) * DateTime.DAY <= DateTime.MAXORDINAL * DateTime.DAY)
      by (apply Z.mul_le_mono_nonneg_r; lia).
    lia.
Qed.

(** X23: when the time of day of the end is not earlier than that of the
    start and the end lies before 9999-12-31, the result is the contract's
    count: the weekdays from the calendar date of the start through the
    calendar date of the end, both included. *)
Lemma duration_is_business_days
  (fromisoformat : string -> option DateTime.datetime)
  (s e : string) (start end_ : DateTime.datetime) :
  parses fromisoformat s start ->
  parses fromisoformat e end_ ->
  DateTime.utcoffset start = DateTime.utcoffset end_ ->
  DateTime.time_of_day start <= DateTime.time_of_day end_ ->
  DateTime.toordinal end_ < DateTime.MAXORDINAL ->
  DateUtils.calculate_duration fromisoformat (Some s) (Some e)
  = Some (Py.Ok (Some (business_days start end_)))
  /\ Parser.calculate_duration fromisoformat (Some s) (Some e)
     = Some (Py.Ok (Some (business_days start end_))).
Proof.
  intros Hs He Hoff Ht Hend.
  pose proof (calculate_duration_counts fromisoformat s e start end_ Hs He
                (same_offset_same_kind _ _ Hoff)) as H.
  rewrite (proj1 (days_visited_calendar start end_ Hoff) Ht) in H.
  apply H. now apply steps_fit_until.
Qed.

(** X24: when the time of day of the end is earlier than that of the start,
    the calendar date of the end is not counted. *)
Lemma duration_leaves_out_end_date
  (fromisoformat : string -> option DateTime.datetime)
  (s e : string) (start end_ : DateTime.datetime) :
  parses fromisoformat s start ->
  parses fromisoformat e end_ ->
  DateTime.utcoffset start = DateTime.utcoffset end_ ->
  DateTime.time_of_day end_ < DateTime.time_of_day start ->
  DateUtils.calculate_duration fromisoformat (Some s) (Some e)
  = Some (Py.Ok (Some (weekdays_from (DateTime.toordinal start)
                         (Z.to_nat (DateTime.toordinal end_ - DateTime.toordinal start)))))
  /\ Parser.calculate_duration fromisoformat (Some s) (Some e)
     = Some (Py.Ok (Some (weekdays_from (DateTime.toordinal start)
                            (Z.to_nat (DateTime.toordinal end_
                                       - DateTime.toordinal start))))).
Proof.
  intros Hs He Hoff Ht.
  pose proof (calculate_duration_counts fromisoformat s e start end_ Hs He
                (same_offset_same_kind _ _ Hoff)) as H.
  rewrite (proj2 (days_visited_calendar start end_ Hoff) Ht) in H.
  apply H.
  replace (DateTime.toordinal end_ - DateTime.toordinal start)
    with (DateTime.toordinal end_ - 1 - DateTime.toordinal start + 1) by lia.
  apply steps_fit_until.
  destruct He as (_ & _ & He). apply in_range_ordinal in He. lia.
Qed.

(** C2, at Monday 4 March 2024, 15:00 and Wednesday 6 March 2024, 09:00:
    the calendar dates from Monday through Wednesday hold three weekdays,
    and both copies of [calculate_duration] return 2; with the two times of
    day exchanged they return 3. *)
Theorem monday_afternoon_to_wednesday_morning :
  DateTime.fromisoformat_fixed "2024-03-04T15:00:00"
  = Some (DateTime.make 2024 3 4 15 0 0 None)
  /\ DateTime.fromisoformat_fixed "2024-03-06T09:00:00"
     = Some (DateTime.make 2024 3 6 9 0 0 None)
  /\ DateTime.weekday (DateTime.make 2024 3 4 15 0 0 None) = 0
  /\ DateTime.weekday (DateTime.make 2024 3 6 9 0 0 None) = 2
  /\ business_days (DateTime.make 2024 3 4 15 0 0 None)
       (DateTime.make 2024 3 6 9 0 0 None) = 3
  /\ DateUtils.calculate_duration DateTime.fromisoformat_fixed
       (Some "2024-03-04T15:00:00") (Some "2024-03-06T09:00:00")
     = Some (Py.Ok (Some 2))
  /\ Parser.calculate_duration DateTime.fromisoformat_fixed
       (Some "2024-03-04T15:00:00") (Some "2024-03-06T09:00:00")
     = Some (Py.Ok (Some 2))
  /\ DateUtils.calculate_duration DateTime.fromisoformat_fixed
       (Some "2024-03-04T09:00:00") (Some "2024-03-06T15:00:00")
     = Some (Py.Ok (Some 3)).
Proof. repeat split; vm_compute; reflexivity. Qed.

(* ===================================================================== *)
(** * The scenarios of the specification, run *)
(* ===================================================================== *)

Example make_2024_03_04 :
  DateTime.toordinal (DateTime.make 2024 3 4 0 0 0 None) = 738949
  /\ DateTime.weekday (DateTime.make 2024 3 4 15 30 0 None) = 0.
Proof. split; reflexivity. Qed.

(** "2024-03-01T10:00:00Z" reads as the instant of
    "2024-03-01T10:00:00+00:00". *)
Example fromisoformat_fixed_utc :
  DateTime.fromisoformat_fixed (Py.replace_char "Z" "+00:00" "2024-03-01T10:00:00Z")
  = DateTime.fromisoformat_fixed "2024-03-01T10:00:00+00:00"
  /\ DateTime.fromisoformat_fixed "2024-03-01T10:00:00+00:00"
     = Some (DateTime.make 2024 3 1 10 0 0 (Some 0))
  /\ DateTime.fromisoformat_fixed "2024-03-04" = Some (DateTime.make 2024 3 4 0 0 0 None)
  /\ DateTime.fromisoformat_fixed "2024-02-30" = None
  /\ DateTime.fromisoformat_fixed "yesterday" = None.
Proof. repeat split; vm_compute; reflexivity. Qed.

(** Monday "In Progress", Wednesday "Deployed AC". *)
Example scenario_mon_wed :
  Parser.detect_actual_dates issue_mon_wed
  = Py.Ok {| start := Py.PStr "2024-03-04T09:00:00";
             finish := Py.PStr "2024-03-06T17:00:00";
             start_method := Py.PStr "First development status";
             finish_method := Py.PStr "Last development finish status" |}
  /\ Parser.calculate_duration DateTime.fromisoformat_fixed
       (Some "2024-03-04T09:00:00") (Some "2024-03-06T17:00:00")
     = Some (Py.Ok (Some 3)).
Proof. split; vm_compute; reflexivity. Qed.

(** Friday "Ready for planning", Monday "In Progress": the second strategy
    is reached only with a start set that leaves "In Progress" out. *)
Example scenario_planned :
  Parser.detect_actual_dates_with review_only issue_planned
  = Py.Ok {| start := Py.PStr "2024-03-04T09:00:00";
             finish := Py.PStr "2024-03-04T09:00:00";
             start_method := Py.PStr "First 'In Progress' after planning";
             finish_method := Py.PStr "Last status change" |}
  /\ start_method
       (Parser.select_dates Parser.DEVELOPMENT_STATUSES
          (status_events issue_planned))
     = Py.PStr "First development status".
Proof. split; vm_compute; reflexivity. Qed.

(** A missing value and an empty string are no duration, and so is a string
    the library does not read. *)
Example calculate_duration_absent :
  DateUtils.calculate_duration DateTime.fromisoformat_fixed None (Some "2024-03-04")
  = Some (Py.Ok None)
  /\ DateUtils.calculate_duration DateTime.fromisoformat_fixed (Some "") (Some "2024-03-04")
     = Some (Py.Ok None)
  /\ DateUtils.calculate_duration DateTime.fromisoformat_fixed
       (Some "soon") (Some "2024-03-04")
     = Some (Py.Ok None).
Proof. repeat split; vm_compute; reflexivity. Qed.

(* ===================================================================== *)
(* ===================================================================== *)
(** * Further properties of the duration calculator *)
(* ===================================================================== *)

Lemma weekdays_from_bounds (n : nat) :
  forall ordinal, 0 <= weekdays_from ordinal n <= Z.of_nat n.
Proof.
  induction n as [|n IH]; intros ordinal; cbn [weekdays_from]; [lia|].
  specialize (IH (ordinal + 1)). rewrite Nat2Z.inj_succ.
  destruct ((ordinal + 6) mod 7 <? 5); lia.
Qed.

Lemma weekdays_from_app (n m : nat) :
  forall ordinal,
    weekdays_from ordinal (n + m)
    = weekdays_from ordinal n + weekdays_from (ordinal + Z.of_nat n) m.
Proof.
  induction n as [|n IH]; intros ordinal.
  - simpl. now rewrite Z.add_0_r.
  - change (S n + m)%nat with (S (n + m)). cbn [weekdays_from].
    rewrite IH, Nat2Z.inj_succ.
    replace (ordinal + 1 + Z.of_nat n) with (ordinal + Z.succ (Z.of_nat n)) by lia.
    lia.
Qed.

Lemma weekdays_from_mono (ordinal : Z) (n m : nat) :
  (n <= m)%nat -> weekdays_from ordinal n <= weekdays_from ordinal m.
Proof.
  intros H. replace m with (n + (m - n))%nat by lia. rewrite weekdays_from_app.
  pose proof (weekdays_from_bounds (m - n) (ordinal + Z.of_nat n)). lia.
Qed.

(** Seven consecutive calendar dates hold five weekdays. *)
Lemma weekdays_from_week (ordinal : Z) : weekdays_from ordinal 7 = 5.
Proof.
  unfold weekdays_from.
  assert (H : forall k, (ordinal + k + 6) mod 7 = ((ordinal + 6) mod 7 + k) mod 7).
  { intros k. rewrite Zplus_mod_idemp_l. f_equal. lia. }
  replace (ordinal + 6) with (ordinal + 0 + 6) at 1 by lia.
  replace (ordinal + 1 + 1 + 1 + 1 + 1 + 1 + 6) with (ordinal + 6 + 6) by lia.
  replace (ordinal + 1 + 1 + 1 + 1 + 1 + 6) with (ordinal + 5 + 6) by lia.
  replace (ordinal + 1 + 1 + 1 + 1 + 6) with (ordinal + 4 + 6) by lia.
  replace (ordinal + 1 + 1 + 1 + 6) with (ordinal + 3 + 6) by lia.
  replace (ordinal + 1 + 1 + 6) with (ordinal + 2 + 6) by lia.
  rewrite !H.
  pose proof (Z.mod_pos_bound (ordinal + 6) 7 ltac:(lia)) as B.
  set (r := (ordinal + 6) mod 7) in *.
  assert (E : r = 0 \/ r = 1 \/ r = 2 \/ r = 3 \/ r = 4 \/ r = 5 \/ r = 6) by lia.
  destruct E as [E|[E|[E|[E|[E|[E|E]]]]]]; rewrite E; reflexivity.
Qed.

(** X1: a duration is never negative, in either copy and on any input. *)
Theorem duration_never_negative
  (fromisoformat : string -> option DateTime.datetime)
  (start_date end_date : option string) (n : Z) :
  DateUtils.calculate_duration fromisoformat start_date end_date = Some (Py.Ok (Some n))
  \/ Parser.calculate_duration fromisoformat start_date end_date
     = Some (Py.Ok (Some n)) ->
  0 <= n.
Proof.
  unfold DateUtils.calculate_duration, Parser.calculate_duration,
    DateUtils.parse_iso_date.
  destruct (not_str start_date || not_str end_date) eqn:E;
    [intros [H|H]; discriminate|].
  apply orb_false_iff in E as [E1 E2]. rewrite E1, E2.
  destruct start_date as [s|]; [|discriminate].
  destruct end_date as [e|]; [|discriminate].
  destruct (fromisoformat (Py.replace_char "Z" "+00:00" s)) as [start|];
    [|intros [H|H]; discriminate].
  destruct (fromisoformat (Py.replace_char "Z" "+00:00" e)) as [end_|];
    [|intros [H|H]; discriminate].
  destruct (while_loop (tests start end_) start end_ 0) as [[total|x]|] eqn:L.
  - apply while_loop_grows in L.
    intros [H|H]; injection H as <-; now rewrite round_2.
  - intros [H|H]; [discriminate | destruct (caught x); discriminate].
  - intros [H|H]; discriminate.
Qed.

Lemma duration_never_negative_witness : 0 <= 3.
Proof.
  apply (duration_never_negative DateTime.fromisoformat_fixed
           (Some "2024-03-04T09:00:00") (Some "2024-03-06T17:00:00") 3).
  left. vm_compute. reflexivity.
Defined.

(** X2: the two copies of [calculate_duration] differ only where a
    comparison in the loop raises [TypeError]: the copy in [date_utils]
    lets it through, the copy in the parser module catches it and returns
    [None]. Everywhere else they do the same: they return the same value,
    or both raise the [OverflowError] of [current += timedelta(days=1)],
    the only other exception there is. *)
Theorem calculate_duration_copies
  (fromisoformat : string -> option DateTime.datetime)
  (start_date end_date : option string) :
  Parser.calculate_duration fromisoformat start_date end_date
  = match DateUtils.calculate_duration fromisoformat start_date end_date with
    | Some (Py.Ok duration) => Some (Py.Ok duration)
    | Some (Py.Raise Py.TypeError) => Some (Py.Ok None)
    | Some (Py.Raise exc) => Some (Py.Raise exc)
    | None => None
    end
  /\ forall exc,
       DateUtils.calculate_duration fromisoformat start_date end_date
       = Some (Py.Raise exc) ->
       exc = Py.TypeError \/ exc = Py.OverflowError.
Proof.
  unfold DateUtils.calculate_duration, Parser.calculate_duration,
    DateUtils.parse_iso_date.
  destruct (not_str start_date || not_str end_date) eqn:E;
    [split; [reflexivity | discriminate]|].
  apply orb_false_iff in E as [E1 E2]. rewrite E1, E2.
  destruct start_date as [s|]; [|discriminate].
  destruct end_date as [e|]; [|discriminate].
  destruct (fromisoformat (Py.replace_char "Z" "+00:00" s)) as [start|].
  2:{ destruct (fromisoformat (Py.replace_char "Z" "+00:00" e));
        split; (reflexivity || discriminate). }
  destruct (fromisoformat (Py.replace_char "Z" "+00:00" e)) as [end_|];
    [|split; [reflexivity | discriminate]].
  destruct (while_loop (tests start end_) start end_ 0) as [[total|x]|] eqn:L.
  - split; [reflexivity | discriminate].
  - apply while_loop_raises in L. split.
    + destruct L as [-> | ->]; reflexivity.
    + now intros exc [= <-].
  - split; [reflexivity | discriminate].
Qed.

Lemma calculate_duration_mixed_witness :
  DateUtils.calculate_duration DateTime.fromisoformat_fixed
    (Some "2024-03-04T09:00:00") (Some "2024-03-06T09:00:00Z")
  = Some (Py.Raise Py.TypeError)
  /\ Parser.calculate_duration DateTime.fromisoformat_fixed
       (Some "2024-03-04T09:00:00") (Some "2024-03-06T09:00:00Z")
     = Some (Py.Ok None).
Proof.
  apply (calculate_duration_mixed DateTime.fromisoformat_fixed
           "2024-03-04T09:00:00" "2024-03-06T09:00:00Z"
           (DateTime.make 2024 3 4 9 0 0 None) (DateTime.make 2024 3 6 9 0 0 (Some 0))).
  - split; [discriminate | split; vm_compute; reflexivity].
  - split; [discriminate | split; vm_compute; reflexivity].
  - reflexivity.
Defined.

(** X3: if [calculate_duration] returns a number [n'] for a start and an end
    moved one day later, it returns a number [n] for the start and the end
    itself, and [n <= n' <= n + 1]: a later end never lowers the duration,
    and a day more raises it by one at most. *)
Theorem duration_monotone_in_end
  (fromisoformat : string -> option DateTime.datetime)
  (s e e' : string) (start end_ end' : DateTime.datetime) (n' : Z) :
  parses fromisoformat s start ->
  parses fromisoformat e end_ ->
  parses fromisoformat e' end' ->
  DateTime.add_days end_ 1 = Py.Ok end' ->
  DateUtils.calculate_duration fromisoformat (Some s) (Some e') = Some (Py.Ok (Some n')) ->
  exists n,
    DateUtils.calculate_duration fromisoformat (Some s) (Some e) = Some (Py.Ok (Some n))
    /\ Parser.calculate_duration fromisoformat (Some s) (Some e)
       = Some (Py.Ok (Some n))
    /\ Parser.calculate_duration fromisoformat (Some s) (Some e')
       = Some (Py.Ok (Some n'))
    /\ n <= n' <= n + 1.
Proof.
  intros Hs He He' Hadd Hn'. pose proof DAY_pos as HD.
  apply add_days_inv in Hadd as [-> _].
  destruct (calculate_duration_number fromisoformat s e' start _ n' Hs He'
              (or_introl Hn')) as [Hk Hfit'].
  assert (Hv : days_visited start (DateTime.plus_days end_ 1) = days_visited start end_
               \/ days_visited start (DateTime.plus_days end_ 1)
                  = (days_visited start end_ + 1)%nat).
  { unfold days_visited. rewrite instant_plus_days.
    replace (DateTime.instant end_ + 1 * DateTime.DAY - DateTime.instant start)
      with (DateTime.instant end_ - DateTime.instant start + 1 * DateTime.DAY) by lia.
    rewrite Z.div_add by lia. lia. }
  assert (Hfit : steps_fit start (days_visited start end_)).
  { unfold steps_fit in *.
    assert (0 <= 1 * DateTime.DAY) by lia.
    destruct Hv as [E|E]; rewrite E in Hfit'; [exact Hfit'|].
    destruct Hfit' as [Hz|Hlt]; [lia|]. right.
    rewrite Nat2Z.inj_add in Hlt. change (Z.of_nat 1) with 1 in Hlt. lia. }
  destruct (calculate_duration_counts fromisoformat s e start end_ Hs He Hk Hfit)
    as [H1 H2].
  destruct (calculate_duration_counts fromisoformat s e' start _ Hs He' Hk Hfit')
    as [H3 H4].
  rewrite H3 in Hn'. injection Hn' as <-.
  eexists. split; [exact H1|]. split; [exact H2|]. split; [exact H4|].
  destruct Hv as [-> | ->]; [lia|].
  rewrite weekdays_from_app.
  pose proof (weekdays_from_bounds 1
                (DateTime.toordinal start + Z.of_nat (days_visited start end_))).
  lia.
Qed.

Lemma duration_monotone_in_end_witness :
  exists n,
    DateUtils.calculate_duration DateTime.fromisoformat_fixed
      (Some "2024-03-07T09:00:00") (Some "2024-03-08T17:00:00") = Some (Py.Ok (Some n))
    /\ Parser.calculate_duration DateTime.fromisoformat_fixed
         (Some "2024-03-07T09:00:00") (Some "2024-03-08T17:00:00")
       = Some (Py.Ok (Some n))
    /\ Parser.calculate_duration DateTime.fromisoformat_fixed
         (Some "2024-03-07T09:00:00") (Some "2024-03-09T17:00:00")
       = Some (Py.Ok (Some 2))
    /\ n <= 2 <= n + 1.
Proof.
  apply (duration_monotone_in_end DateTime.fromisoformat_fixed
           "2024-03-07T09:00:00" "2024-03-08T17:00:00" "2024-03-09T17:00:00"
           (DateTime.make 2024 3 7 9 0 0 None) (DateTime.make 2024 3 8 17 0 0 None)
           (DateTime.make 2024 3 9 17 0 0 None) 2).
  - split; [discriminate | split; vm_compute; reflexivity].
  - split; [discriminate | split; vm_compute; reflexivity].
  - split; [discriminate | split; vm_compute; reflexivity].
  - vm_compute; reflexivity.
  - vm_compute; reflexivity.
Defined.

(** X4: for a start not after the end: if [calculate_duration] returns a
    number for the start and the end moved a whole week later, that number
    is five more than the one it returns for the start and the end
    itself. *)
Theorem duration_week_adds_five
  (fromisoformat : string -> option DateTime.datetime)
  (s e e' : string) (start end_ end' : DateTime.datetime) (n' : Z) :
  parses fromisoformat s start ->
  parses fromisoformat e end_ ->
  parses fromisoformat e' end' ->
  DateTime.add_days end_ 7 = Py.Ok end' ->
  DateTime.le start end_ = Py.Ok true ->
  DateUtils.calculate_duration fromisoformat (Some s) (Some e') = Some (Py.Ok (Some n')) ->
  exists n,
    DateUtils.calculate_duration fromisoformat (Some s) (Some e) = Some (Py.Ok (Some n))
    /\ Parser.calculate_duration fromisoformat (Some s) (Some e)
       = Some (Py.Ok (Some n))
    /\ Parser.calculate_duration fromisoformat (Some s) (Some e')
       = Some (Py.Ok (Some n'))
    /\ n' = n + 5.
Proof.
  intros Hs He He' Hadd Hle Hn'. pose proof DAY_pos as HD.
  apply add_days_inv in Hadd as [-> _].
  apply le_true_instant in Hle as [Hk Hle].
  destruct (calculate_duration_number fromisoformat s e' start _ n' Hs He'
              (or_introl Hn')) as [_ Hfit'].
  assert (Hv : days_visited start (DateTime.plus_days end_ 7)
               = (days_visited start end_ + 7)%nat).
  { unfold days_visited. rewrite instant_plus_days.
    replace (DateTime.instant end_ + 7 * DateTime.DAY - DateTime.instant start)
      with (DateTime.instant end_ - DateTime.instant start + 7 * DateTime.DAY) by lia.
    rewrite Z.div_add by lia.
    pose proof (Z.div_pos (DateTime.instant end_ - DateTime.instant start)
                  DateTime.DAY ltac:(lia) HD).
    lia. }
  assert (Hfit : steps_fit start (days_visited start end_)).
  { unfold steps_fit in *. rewrite Hv in Hfit'.
    destruct Hfit' as [Hz|Hlt]; [lia|]. right.
    rewrite Nat2Z.inj_add in Hlt. change (Z.of_nat 7) with 7 in Hlt. lia. }
  destruct (calculate_duration_counts fromisoformat s e start end_ Hs He Hk Hfit)
    as [H1 H2].
  destruct (calculate_duration_counts fromisoformat s e' start _ Hs He' Hk Hfit')
    as [H3 H4].
  rewrite Hv, weekdays_from_app, weekdays_from_week in H3, H4.
  rewrite H3 in Hn'. injection Hn' as <-.
  eexists. split; [exact H1|]. split; [exact H2|]. split; [exact H4 | reflexivity].
Qed.

Lemma duration_week_adds_five_witness :
  exists n,
    DateUtils.calculate_duration DateTime.fromisoformat_fixed
      (Some "2024-03-04T09:00:00+01:00") (Some "2024-03-06T17:00:00+01:00")
    = Some (Py.Ok (Some n))
    /\ Parser.calculate_duration DateTime.fromisoformat_fixed
         (Some "2024-03-04T09:00:00+01:00") (Some "2024-03-06T17:00:00+01:00")
       = Some (Py.Ok (Some n))
    /\ Parser.calculate_duration DateTime.fromisoformat_fixed
         (Some "2024-03-04T09:00:00+01:00") (Some "2024-03-13T17:00:00+01:00")
       = Some (Py.Ok (Some 8))
    /\ 8 = n + 5.
Proof.
  apply (duration_week_adds_five DateTime.fromisoformat_fixed
           "2024-03-04T09:00:00+01:00" "2024-03-06T17:00:00+01:00"
           "2024-03-13T17:00:00+01:00"
           (DateTime.make 2024 3 4 9 0 0 (Some 3600000000))
           (DateTime.make 2024 3 6 17 0 0 (Some 3600000000))
           (DateTime.make 2024 3 13 17 0 0 (Some 3600000000)) 8).
  - split; [discriminate | split; vm_compute; reflexivity].
  - split; [discriminate | split; vm_compute; reflexivity].
  - split; [discriminate | split; vm_compute; reflexivity].
  - vm_compute; reflexivity.
  - vm_compute; reflexivity.
  - vm_compute; reflexivity.
Defined.

(** X25: two parsable timestamps of one UTC offset (or both naive), the end
    on 9999-12-31 at a time of day not earlier than the start's: both copies
    of [calculate_duration] raise [OverflowError], whatever the start. *)
Theorem duration_until_last_day_raises
  (fromisoformat : string -> option DateTime.datetime)
  (s e : string) (start end_ : DateTime.datetime) :
  parses fromisoformat s start ->
  parses fromisoformat e end_ ->
  DateTime.utcoffset start = DateTime.utcoffset end_ ->
  DateTime.time_of_day start <= DateTime.time_of_day end_ ->
  DateTime.toordinal end_ = DateTime.MAXORDINAL ->
  DateUtils.calculate_duration fromisoformat (Some s) (Some e)
  = Some (Py.Raise Py.OverflowError)
  /\ Parser.calculate_duration fromisoformat (Some s) (Some e)
     = Some (Py.Raise Py.OverflowError).
Proof.
  intros Hs He Hoff Ht Hend. pose proof DAY_pos as HD.
  apply (calculate_duration_overflow fromisoformat s e start end_ Hs He
           (same_offset_same_kind _ _ Hoff)).
  rewrite (proj1 (days_visited_calendar start end_ Hoff) Ht), Hend.
  destruct Hs as (_ & _ & Hs). apply in_range_ordinal in Hs.
  pose proof (wall_of_ordinal start) as B.
  unfold steps_fit. rewrite Z2Nat.id by lia. intros [Hz|Hlt]; [lia|].
  replace (DateTime.wall start
           + (DateTime.MAXORDINAL - DateTime.toordinal start + 1) * DateTime.DAY)
    with (DateTime.wall start - (DateTime.toordinal start - 1) * DateTime.DAY
          + DateTime.MAXORDINAL * DateTime.DAY) in Hlt by lia.
  lia.
Qed.

Lemma duration_until_last_day_raises_witness :
  DateUtils.calculate_duration DateTime.fromisoformat_fixed
    (Some "2024-03-04T09:00:00") (Some "9999-12-31T17:00:00")
  = Some (Py.Raise Py.OverflowError)
  /\ Parser.calculate_duration DateTime.fromisoformat_fixed
       (Some "2024-03-04T09:00:00") (Some "9999-12-31T17:00:00")
     = Some (Py.Raise Py.OverflowError).
Proof.
  apply (duration_until_last_day_raises DateTime.fromisoformat_fixed
           "2024-03-04T09:00:00" "9999-12-31T17:00:00"
           (DateTime.make 2024 3 4 9 0 0 None)
           (DateTime.make 9999 12 31 17 0 0 None)).
  - split; [discriminate | split; vm_compute; reflexivity].
  - split; [discriminate | split; vm_compute; reflexivity].
  - reflexivity.
  - vm_compute. discriminate.
  - vm_compute; reflexivity.
Defined.

(* ===================================================================== *)
(** * [parse_iso_date], [is_weekday], [get_date_range] *)
(* ===================================================================== *)

Lemma replace_Z_again (s : string) :
  Py.replace_char "Z" "+00:00" (Py.replace_char "Z" "+00:00" s)
  = Py.replace_char "Z" "+00:00" s.
Proof.
  induction s as [|c s IH]; [reflexivity|]. cbn [Py.replace_char].
  destruct (Ascii.eqb c "Z") eqn:E.
  - cbn. now rewrite IH.
  - cbn [Py.replace_char]. now rewrite E, IH.
Qed.

Lemma replace_Z_empty (s : string) :
  String.eqb (Py.replace_char "Z" "+00:00" s) "" = String.eqb s "".
Proof.
  destruct s as [|c s]; [reflexivity|]. cbn [Py.replace_char].
  now destruct (Ascii.eqb c "Z").
Qed.

Lemma replace_Z_app (s r : string) :
  Py.replace_char "Z" "+00:00" (s ++ r)
  = (Py.replace_char "Z" "+00:00" s ++ Py.replace_char "Z" "+00:00" r)%string.
Proof.
  induction s as [|c s IH]; [reflexivity|]. cbn [String.append Py.replace_char].
  destruct (Ascii.eqb c "Z"); cbn; now rewrite IH.
Qed.

(** X5: [parse_iso_date] reads "Z" as "+00:00": a timestamp and the same
    timestamp with every "Z" written "+00:00" parse alike, in particular
    [s ++ "Z"] and [s ++ "+00:00"]. *)
Theorem parse_iso_date_Z (fromisoformat : string -> option DateTime.datetime)
  (s : string) :
  DateUtils.parse_iso_date fromisoformat (Some s)
  = DateUtils.parse_iso_date fromisoformat (Some (Py.replace_char "Z" "+00:00" s))
  /\ DateUtils.parse_iso_date fromisoformat (Some (s ++ "Z")%string)
     = DateUtils.parse_iso_date fromisoformat (Some (s ++ "+00:00")%string).
Proof.
  unfold DateUtils.parse_iso_date, not_str. split.
  - now rewrite replace_Z_empty, replace_Z_again.
  - rewrite !replace_Z_app.
    change (Py.replace_char "Z" "+00:00" "Z") with "+00:00".
    change (Py.replace_char "Z" "+00:00" "+00:00") with "+00:00".
    replace (String.eqb (s ++ "Z") "") with false by (now destruct s).
    replace (String.eqb (s ++ "+00:00") "") with false by (now destruct s).
    reflexivity.
Qed.

(** X6: whenever [calculate_duration(x, x)] is 1, [is_weekday(x)] holds; for
    a parsable [x] on a date before 9999-12-31 the converse holds too, so
    that [is_weekday(x)] holds exactly when [calculate_duration(x, x)] is 1;
    on a string that does not parse [is_weekday] is [False]. *)
Theorem is_weekday_iff_duration_one
  (fromisoformat : string -> option DateTime.datetime) (date_str : string) :
  (DateUtils.calculate_duration fromisoformat (Some date_str) (Some date_str)
   = Some (Py.Ok (Some 1)) ->
   DateUtils.is_weekday fromisoformat date_str = true)
  /\ (forall x,
        parses fromisoformat date_str x ->
        DateTime.toordinal x < DateTime.MAXORDINAL ->
        (DateUtils.is_weekday fromisoformat date_str = true
         <-> DateUtils.calculate_duration fromisoformat (Some date_str) (Some date_str)
             = Some (Py.Ok (Some 1))))
  /\ (DateUtils.parse_iso_date fromisoformat (Some date_str) = None ->
      DateUtils.is_weekday fromisoformat date_str = false).
Proof.
  split; [|split].
  - unfold DateUtils.calculate_duration, DateUtils.is_weekday.
    destruct (not_str (Some date_str) || not_str (Some date_str)); [discriminate|].
    destruct (DateUtils.parse_iso_date fromisoformat (Some date_str)) as [x|];
      [|discriminate].
    rewrite while_loop_one_day.
    destruct (DateTime.add_days x 1); [|discriminate].
    now destruct (DateTime.weekday x <? 5).
  - intros x Hp Hx.
    destruct (calculate_duration_loop fromisoformat _ _ x x Hp Hp) as [-> _].
    unfold DateUtils.is_weekday. rewrite (parse_iso_date_parses _ _ _ Hp).
    rewrite while_loop_one_day, add_days_ok.
    + destruct (DateTime.weekday x <? 5); split; intros H;
        try reflexivity; discriminate.
    + destruct Hp as (_ & _ & Hr). apply in_range_bounds in Hr.
      apply in_range_bounds. cbn [DateTime.plus_days DateTime.wall].
      pose proof (before_last_day x Hx). pose proof DAY_pos. lia.
  - intros H. unfold DateUtils.is_weekday. now rewrite H.
Qed.

Lemma is_weekday_iff_duration_one_witness :
  DateUtils.is_weekday DateTime.fromisoformat_fixed "2024-03-08T10:00:00" = true
  <-> DateUtils.calculate_duration DateTime.fromisoformat_fixed
        (Some "2024-03-08T10:00:00") (Some "2024-03-08T10:00:00")
      = Some (Py.Ok (Some 1)).
Proof.
  apply (proj1 (proj2 (is_weekday_iff_duration_one DateTime.fromisoformat_fixed
                         "2024-03-08T10:00:00"))
           (DateTime.make 2024 3 8 10 0 0 None)).
  - split; [discriminate | split; vm_compute; reflexivity].
  - vm_compute; reflexivity.
Defined.

(** What the loop of [get_date_range] returns, when it returns: the start
    moved [m] days on, where the [m] calendar dates after the start's hold
    the weekdays still to add; and the last of them is a weekday. *)
Lemma range_loop_result (days : Z) (fuel : nat) :
  forall (end_ r : DateTime.datetime) (days_added : Z),
    range_loop fuel end_ days_added days = Some (Py.Ok r) ->
    exists m : nat,
      r = DateTime.plus_days end_ (Z.of_nat m)
      /\ (days <= days_added -> m = O)
      /\ (days_added < days ->
          (0 < m)%nat
          /\ DateTime.in_range r = true
          /\ DateTime.weekday r < 5
          /\ weekdays_from (DateTime.toordinal end_ + 1) m = days - days_added).
Proof.
  induction fuel as [|fuel IH]; intros end_ r added H; [discriminate|].
  cbn [range_loop] in H. destruct (added <? days) eqn:E.
  - apply Z.ltb_lt in E.
    destruct (DateTime.add_days end_ 1) as [end1|x] eqn:Ha; [|discriminate].
    apply add_days_inv in Ha as [-> Hr1].
    apply IH in H as (m & Hr & Hstop & Hgo).
    exists (S m). split; [|split; [lia|intros _]].
    { rewrite Hr, plus_days_plus_days. f_equal. lia. }
    split; [lia|].
    cbn [weekdays_from].
    replace (DateTime.toordinal end_ + 1 + 6)
      with (DateTime.toordinal (DateTime.plus_days end_ 1) + 6)
      by (rewrite toordinal_plus_days; lia).
    fold (DateTime.weekday (DateTime.plus_days end_ 1)).
    rewrite toordinal_plus_days in Hgo.
    destruct (DateTime.weekday (DateTime.plus_days end_ 1) <? 5) eqn:W.
    + destruct (Z.lt_ge_cases (added + 1) days) as [Hlt|Hge].
      * destruct (Hgo Hlt) as (_ & Hin & Hw & Hc).
        split; [assumption|]. split; [assumption | lia].
      * assert (m = O) by (apply Hstop; lia). subst m.
        rewrite plus_days_0 in Hr. subst r.
        split; [assumption|]. split; [|cbn [weekdays_from]; lia].
        apply Z.ltb_lt in W. exact W.
    + destruct (Hgo E) as (_ & Hin & Hw & Hc).
      split; [assumption|]. split; [assumption | lia].
  - injection H as <-. apply Z.ltb_ge in E. exists O.
    split; [|split; [reflexivity | lia]].
    symmetry. apply plus_days_0.
Qed.

Lemma range_loop_returns (days : Z) (fuel : nat) :
  forall (end_ : DateTime.datetime) (days_added : Z),
    range_tests (DateTime.weekday end_) (days - days_added) < Z.of_nat fuel ->
    range_loop fuel end_ days_added days <> None.
Proof.
  induction fuel as [|fuel IH]; intros end_ added H.
  - exfalso. unfold range_tests in H.
    destruct (days - added <=? 0) eqn:E; [lia|]. apply Z.leb_gt in E.
    destruct (DateTime.weekday end_ =? 4), (DateTime.weekday end_ =? 5); lia.
  - cbn [range_loop]. destruct (added <? days) eqn:E; [|discriminate].
    destruct (DateTime.add_days end_ 1) as [end1|x] eqn:Ha; [|discriminate].
    apply add_days_inv in Ha as [-> _].
    apply Z.ltb_lt in E. apply IH.
    rewrite weekday_plus_day. rewrite Nat2Z.inj_succ in H.
    pose proof (weekday_range end_) as B.
    set (w := DateTime.weekday end_) in *.
    set (rest := days - added) in *.
    assert (Hrest : forall a, days - a = rest + added - a) by (intros; unfold rest; lia).
    assert (0 < rest) by (unfold rest; lia).
    unfold range_tests in *.
    replace (rest <=? 0) with false in H by (symmetry; apply Z.leb_gt; lia).
    assert (C : w = 0 \/ w = 1 \/ w = 2 \/ w = 3 \/ w = 4 \/ w = 5 \/ w = 6) by lia.
    destruct C as [C|[C|[C|[C|[C|[C|C]]]]]]; rewrite C in *;
      change ((0 + 1) mod 7) with 1; change ((1 + 1) mod 7) with 2;
      change ((2 + 1) mod 7) with 3; change ((3 + 1) mod 7) with 4;
      change ((4 + 1) mod 7) with 5; change ((5 + 1) mod 7) with 6;
      change ((6 + 1) mod 7) with 0;
      cbn [Z.ltb Z.eqb Z.compare Pos.compare Pos.compare_cont Pos.eqb] in H |- *;
      rewrite ?Hrest;
      repeat match goal with
             | |- context [?a <=? 0] => destruct (Z.leb_spec a 0)
             end; lia.
Qed.

Lemma range_loop_steps (days : Z) (fuel : nat) :
  forall (end_ r : DateTime.datetime) (days_added : Z),
    range_loop fuel end_ days_added days = Some (Py.Ok r) ->
    DateTime.toordinal r - DateTime.toordinal end_ < Z.of_nat fuel.
Proof.
  induction fuel as [|fuel IH]; intros end_ r added H; [discriminate|].
  cbn [range_loop] in H. rewrite Nat2Z.inj_succ.
  destruct (added <? days).
  - destruct (DateTime.add_days end_ 1) as [end1|x] eqn:Ha; [|discriminate].
    apply add_days_inv in Ha as [-> _].
    apply IH in H. rewrite toordinal_plus_days in H. lia.
  - injection H as <-. lia.
Qed.

(** The loop of [get_date_range] raises nothing but [OverflowError]. *)
Lemma range_loop_raises (days : Z) (fuel : nat) :
  forall (end_ : DateTime.datetime) (days_added : Z) (e : Py.exn),
    range_loop fuel end_ days_added days = Some (Py.Raise e) -> e = Py.OverflowError.
Proof.
  induction fuel as [|fuel IH]; intros end_ added e H; [discriminate|].
  cbn [range_loop] in H. destruct (added <? days); [|discriminate].
  destruct (DateTime.add_days end_ 1) as [end1|x] eqn:Ha.
  - eapply IH; eassumption.
  - injection H as <-. now apply add_days_raises in Ha.
Qed.

(** The weekdays left from the day after [d] through 9999-12-31. *)
Lemma weekdays_left_next (d : DateTime.datetime) :
  DateTime.toordinal d < DateTime.MAXORDINAL ->
  weekdays_from (DateTime.toordinal d + 1)
    (Z.to_nat (DateTime.MAXORDINAL - DateTime.toordinal d))
  = (if DateTime.weekday (DateTime.plus_days d 1) <? 5 then 1 else 0)
    + weekdays_from (DateTime.toordinal (DateTime.plus_days d 1) + 1)
        (Z.to_nat (DateTime.MAXORDINAL
                   - DateTime.toordinal (DateTime.plus_days d 1))).
Proof.
  intros H. unfold DateTime.weekday. rewrite toordinal_plus_days.
  replace (Z.to_nat (DateTime.MAXORDINAL - DateTime.toordinal d))
    with (S (Z.to_nat (DateTime.MAXORDINAL - (DateTime.toordinal d + 1)))) by lia.
  reflexivity.
Qed.

(** As long as enough weekdays are left before the end of year 9999, the
    loop of [get_date_range] does not raise. *)
Lemma range_loop_fits (days : Z) (fuel : nat) :
  forall (end_ : DateTime.datetime) (days_added : Z) (e : Py.exn),
    DateTime.in_range end_ = true ->
    days - days_added
    <= weekdays_from (DateTime.toordinal end_ + 1)
         (Z.to_nat (DateTime.MAXORDINAL - DateTime.toordinal end_)) ->
    range_loop fuel end_ days_added days <> Some (Py.Raise e).
Proof.
  induction fuel as [|fuel IH]; intros end_ added e Hr Hleft; [discriminate|].
  cbn [range_loop]. destruct (added <? days) eqn:E; [|discriminate].
  apply Z.ltb_lt in E.
  assert (Hlast : DateTime.toordinal end_ < DateTime.MAXORDINAL).
  { destruct (Z.lt_ge_cases (DateTime.toordinal end_) DateTime.MAXORDINAL)
      as [|Hge]; [assumption|].
    replace (Z.to_nat (DateTime.MAXORDINAL - DateTime.toordinal end_)) with O
      in Hleft by lia.
    cbn [weekdays_from] in Hleft. lia. }
  assert (Hr1 : DateTime.in_range (DateTime.plus_days end_ 1) = true).
  { apply in_range_bounds in Hr. apply in_range_bounds.
    cbn [DateTime.plus_days DateTime.wall].
    pose proof (before_last_day end_ Hlast). pose proof DAY_pos. lia. }
  rewrite (add_days_ok _ _ Hr1). apply IH; [exact Hr1|].
  rewrite (weekdays_left_next end_ Hlast) in Hleft.
  destruct (DateTime.weekday (DateTime.plus_days end_ 1) <? 5); lia.
Qed.

(** When the loop of [get_date_range] returns, enough weekdays were left. *)
Lemma range_loop_fitted (days : Z) (fuel : nat)
  (end_ r : DateTime.datetime) (days_added : Z) :
  DateTime.in_range end_ = true ->
  range_loop fuel end_ days_added days = Some (Py.Ok r) ->
  days_added < days ->
  days - days_added
  <= weekdays_from (DateTime.toordinal end_ + 1)
       (Z.to_nat (DateTime.MAXORDINAL - DateTime.toordinal end_)).
Proof.
  intros Hr H Hlt.
  apply range_loop_result in H as (m & -> & _ & Hgo).
  destruct (Hgo Hlt) as (_ & Hin & _ & <-).
  apply in_range_ordinal in Hin. rewrite toordinal_plus_days in Hin.
  apply weekdays_from_mono. lia.
Qed.

(** Weekdays among the next [k] days are weekdays left before the end of
    year 9999, when these [k] days lie before it. *)
Lemma enough_weekdays_left (ordinal days : Z) (k : nat) :
  Z.of_nat k <= DateTime.MAXORDINAL - ordinal ->
  days <= weekdays_from (ordinal + 1) k ->
  days <= weekdays_from (ordinal + 1) (Z.to_nat (DateTime.MAXORDINAL - ordinal)).
Proof.
  intros Hk Hd.
  pose proof (weekdays_from_mono (ordinal + 1) k
                (Z.to_nat (DateTime.MAXORDINAL - ordinal)) ltac:(lia)).
  lia.
Qed.

(** [get_date_range] returns or raises on every input. *)
Lemma get_date_range_returns
  (fromisoformat : string -> option DateTime.datetime)
  (isoformat : DateTime.datetime -> string) (start_date : string) (days : Z) :
  DateUtils.get_date_range fromisoformat isoformat start_date days <> None.
Proof.
  unfold DateUtils.get_date_range.
  destruct (DateUtils.parse_iso_date fromisoformat (Some start_date)) as [start|];
    [|discriminate].
  pose proof (range_loop_returns days (S (3 * Z.to_nat days)) start 0) as H.
  destruct (range_loop (S (3 * Z.to_nat days)) start 0 days) as [[r|x]|];
    [discriminate | discriminate |].
  exfalso. apply H; [|reflexivity].
  unfold range_tests. rewrite Z.sub_0_r.
  destruct (days <=? 0) eqn:E; [lia|]. apply Z.leb_gt in E.
  destruct (DateTime.weekday start =? 4), (DateTime.weekday start =? 5); lia.
Qed.

(** X7: for a start that parses and [days >= 1] weekdays that are still left
    between the day after the start and 9999-12-31, [get_date_range]
    returns the start string unchanged and the ISO form of the start moved
    [m] days on (same time of day, same offset), where the [m] calendar
    dates after the start's hold exactly [days] weekdays and the last of
    them is a weekday; [m] is between [days] and [3 * days]. *)
Theorem get_date_range_end
  (fromisoformat : string -> option DateTime.datetime)
  (isoformat : DateTime.datetime -> string)
  (start_date : string) (start : DateTime.datetime) (days : Z) :
  parses fromisoformat start_date start ->
  1 <= days ->
  days <= weekdays_from (DateTime.toordinal start + 1)
            (Z.to_nat (DateTime.MAXORDINAL - DateTime.toordinal start)) ->
  exists m : nat,
    DateUtils.get_date_range fromisoformat isoformat start_date days
    = Some (Range start_date
              (Some (isoformat (DateTime.plus_days start (Z.of_nat m)))))
    /\ DateTime.weekday (DateTime.plus_days start (Z.of_nat m)) < 5
    /\ weekdays_from (DateTime.toordinal start + 1) m = days
    /\ days <= Z.of_nat m <= 3 * days.
Proof.
  intros Hs Hd Hleft.
  pose proof (get_date_range_returns fromisoformat isoformat start_date days) as Hret.
  unfold DateUtils.get_date_range in *.
  rewrite (parse_iso_date_parses _ _ _ Hs) in *.
  destruct (range_loop (S (3 * Z.to_nat days)) start 0 days) as [[r|x]|] eqn:L;
    [| |now contradiction Hret].
  - pose proof (range_loop_steps _ _ _ _ _ L) as Hsteps.
    apply range_loop_result in L as (m & -> & _ & Hgo).
    destruct (Hgo ltac:(lia)) as (_ & _ & Hw & Hc).
    exists m. repeat split; try assumption; try lia.
    + pose proof (weekdays_from_bounds m (DateTime.toordinal start + 1)). lia.
    + rewrite toordinal_plus_days in Hsteps. lia.
  - exfalso. apply (range_loop_fits _ _ _ _ x (proj2 (proj2 Hs))) in L;
      [assumption | lia].
Qed.

Lemma get_date_range_end_witness :
  exists m : nat,
    DateUtils.get_date_range DateTime.fromisoformat_fixed DateTime.isoformat_fixed
      "2024-03-07T09:00:00" 3
    = Some (Range "2024-03-07T09:00:00"
              (Some (DateTime.isoformat_fixed
                       (DateTime.plus_days (DateTime.make 2024 3 7 9 0 0 None)
                          (Z.of_nat m)))))
    /\ DateTime.weekday
         (DateTime.plus_days (DateTime.make 2024 3 7 9 0 0 None) (Z.of_nat m)) < 5
    /\ weekdays_from (DateTime.toordinal (DateTime.make 2024 3 7 9 0 0 None) + 1) m = 3
    /\ 3 <= Z.of_nat m <= 3 * 3.
Proof.
  apply (get_date_range_end DateTime.fromisoformat_fixed DateTime.isoformat_fixed
           "2024-03-07T09:00:00" (DateTime.make 2024 3 7 9 0 0 None) 3).
  - split; [discriminate | split; vm_compute; reflexivity].
  - lia.
  - apply (enough_weekdays_left _ 3 5%nat); vm_compute; discriminate.
Defined.

(** X8: [get_date_range] raises [ValueError], with the start string in the
    message, when the start does not parse; for [days <= 0] it returns the
    start itself, weekend or not. *)
Theorem get_date_range_edges
  (fromisoformat : string -> option DateTime.datetime)
  (isoformat : DateTime.datetime -> string) (start_date : string) (days : Z) :
  (DateUtils.parse_iso_date fromisoformat (Some start_date) = None ->
   DateUtils.get_date_range fromisoformat isoformat start_date days
   = Some (RaiseValueError ("Invalid start date: " ++ start_date)))
  /\ (forall start,
        DateUtils.parse_iso_date fromisoformat (Some start_date) = Some start ->
        days <= 0 ->
        DateUtils.get_date_range fromisoformat isoformat start_date days
        = Some (Range start_date (Some (isoformat start)))).
Proof.
  unfold DateUtils.get_date_range. split.
  - now intros ->.
  - intros start -> Hd. cbn [range_loop].
    now replace (0 <? days) with false by (symmetry; apply Z.ltb_ge; lia).
Qed.

(** X26: for a start that parses, [get_date_range] raises [OverflowError]
    when fewer than [days] weekdays are left between the day after the
    start and 9999-12-31: the complement of the case in which it returns. *)
Theorem get_date_range_overflows
  (fromisoformat : string -> option DateTime.datetime)
  (isoformat : DateTime.datetime -> string)
  (start_date : string) (start : DateTime.datetime) (days : Z) :
  parses fromisoformat start_date start ->
  weekdays_from (DateTime.toordinal start + 1)
    (Z.to_nat (DateTime.MAXORDINAL - DateTime.toordinal start)) < days ->
  DateUtils.get_date_range fromisoformat isoformat start_date days
  = Some (Raised Py.OverflowError).
Proof.
  intros Hs Hleft.
  pose proof (get_date_range_returns fromisoformat isoformat start_date days) as Hret.
  unfold DateUtils.get_date_range in *.
  rewrite (parse_iso_date_parses _ _ _ Hs) in *.
  destruct (range_loop (S (3 * Z.to_nat days)) start 0 days) as [[r|x]|] eqn:L;
    [| |now contradiction Hret].
  - exfalso.
    pose proof (weekdays_from_bounds
                  (Z.to_nat (DateTime.MAXORDINAL - DateTime.toordinal start))
                  (DateTime.toordinal start + 1)) as B.
    pose proof (range_loop_fitted _ _ _ _ _ (proj2 (proj2 Hs)) L ltac:(lia)). lia.
  - apply range_loop_raises in L. now subst x.
Qed.

Lemma get_date_range_overflows_witness :
  DateUtils.get_date_range DateTime.fromisoformat_fixed DateTime.isoformat_fixed
    "9999-12-29T09:00:00" 3
  = Some (Raised Py.OverflowError).
Proof.
  apply (get_date_range_overflows DateTime.fromisoformat_fixed
           DateTime.isoformat_fixed "9999-12-29T09:00:00"
           (DateTime.make 9999 12 29 9 0 0 None) 3).
  - split; [discriminate | split; vm_compute; reflexivity].
  - vm_compute. reflexivity.
Defined.

(** X9: the two functions fit: the duration from a start to the end that
    [get_date_range] computes for [days] more weekdays is [days], plus one
    when the start is itself a weekday, provided that end lies before
    9999-12-31 and the library reads back the end it wrote. *)
Theorem duration_of_date_range
  (fromisoformat : string -> option DateTime.datetime)
  (isoformat : DateTime.datetime -> string)
  (start_date : string) (start end_ : DateTime.datetime) (days : Z) :
  parses fromisoformat start_date start ->
  0 <= days ->
  range_loop (S (3 * Z.to_nat days)) start 0 days = Some (Py.Ok end_) ->
  parses fromisoformat (isoformat end_) end_ ->
  DateTime.toordinal end_ < DateTime.MAXORDINAL ->
  DateUtils.get_date_range fromisoformat isoformat start_date days
  = Some (Range start_date (Some (isoformat end_)))
  /\ DateUtils.calculate_duration fromisoformat (Some start_date) (Some (isoformat end_))
     = Some (Py.Ok (Some (days + (if DateTime.weekday start <? 5 then 1 else 0)))).
Proof.
  intros Hs Hd L He Hend. split.
  { unfold DateUtils.get_date_range.
    now rewrite (parse_iso_date_parses _ _ _ Hs), L. }
  apply range_loop_result in L as (m & Hr & Hstop & Hgo).
  assert (Hm : weekdays_from (DateTime.toordinal start + 1) m = days).
  { destruct (Z.eq_dec days 0) as [E|E].
    - rewrite (Hstop ltac:(lia)). cbn [weekdays_from]. lia.
    - destruct (Hgo ltac:(lia)) as (_ & _ & _ & Hc). lia. }
  assert (Hoff : DateTime.utcoffset start = DateTime.utcoffset end_)
    by now rewrite Hr.
  assert (Hv : days_visited start end_ = S m).
  { rewrite (proj1 (days_visited_calendar start end_ Hoff))
      by (rewrite Hr, time_of_day_plus_days; lia).
    rewrite Hr, toordinal_plus_days. lia. }
  assert (Hfit : steps_fit start (days_visited start end_)).
  { rewrite Hv.
    replace (S m) with (Z.to_nat (DateTime.toordinal end_
                                  - DateTime.toordinal start + 1))
      by (rewrite Hr, toordinal_plus_days; lia).
    now apply steps_fit_until. }
  destruct (calculate_duration_counts fromisoformat start_date (isoformat end_)
              start end_ Hs He (same_offset_same_kind _ _ Hoff) Hfit) as [-> _].
  rewrite Hv. cbn [weekdays_from]. fold (DateTime.weekday start). rewrite Hm.
  do 3 f_equal. lia.
Qed.

Lemma duration_of_date_range_witness :
  DateUtils.get_date_range DateTime.fromisoformat_fixed DateTime.isoformat_fixed
    "2024-03-07T09:00:00" 3
  = Some (Range "2024-03-07T09:00:00" (Some "2024-03-12T09:00:00"))
  /\ DateUtils.calculate_duration DateTime.fromisoformat_fixed
       (Some "2024-03-07T09:00:00") (Some "2024-03-12T09:00:00")
     = Some (Py.Ok (Some 4)).
Proof.
  apply (duration_of_date_range DateTime.fromisoformat_fixed DateTime.isoformat_fixed
           "2024-03-07T09:00:00" (DateTime.make 2024 3 7 9 0 0 None)
           (DateTime.make 2024 3 12 9 0 0 None) 3).
  - split; [discriminate | split; vm_compute; reflexivity].
  - lia.
  - vm_compute; reflexivity.
  - split; [discriminate | split; vm_compute; reflexivity].
  - vm_compute; reflexivity.
Defined.

Lemma get_date_range_edges_witness :
  DateUtils.get_date_range DateTime.fromisoformat_fixed DateTime.isoformat_fixed
    "next week" 3
  = Some (RaiseValueError "Invalid start date: next week")
  /\ DateUtils.get_date_range DateTime.fromisoformat_fixed DateTime.isoformat_fixed
       "2024-03-09T10:00:00" 0
     = Some (Range "2024-03-09T10:00:00" (Some "2024-03-09T10:00:00")).
Proof.
  split.
  - apply (proj1 (get_date_range_edges DateTime.fromisoformat_fixed
                    DateTime.isoformat_fixed "next week" 3)).
    vm_compute; reflexivity.
  - apply (proj2 (get_date_range_edges DateTime.fromisoformat_fixed
                    DateTime.isoformat_fixed "2024-03-09T10:00:00" 0)
             (DateTime.make 2024 3 9 10 0 0 None)).
    + vm_compute; reflexivity.
    + lia.
Defined.

(* ===================================================================== *)
(** * [log] *)
(* ===================================================================== *)

(** X10: whatever [LOG_LEVEL] holds, a "WARN" message is printed, as one line
    "[WARN] message"; a "DEBUG" message is printed only when [LOG_LEVEL] is
    "DEBUG"; a level that is not one of the three names counts as "INFO".
    So the parser module, at "INFO", never prints a "DEBUG" message, and the
    client module, at "DEBUG", prints every message. Both modules have the
    same function. *)
Theorem log_threshold (LOG_LEVEL message level : string) :
  Parser.log_with LOG_LEVEL message "WARN" = [("[WARN] " ++ message)%string]
  /\ (Parser.log_with LOG_LEVEL message "DEBUG" <> [] <-> LOG_LEVEL = "DEBUG")
  /\ (log_levels level = None ->
      (Parser.log_with LOG_LEVEL message level = []
       <-> Parser.log_with LOG_LEVEL message "INFO" = []))
  /\ Parser.log message "DEBUG" = []
  /\ Client.log message level = [("[" ++ level ++ "] " ++ message)%string]
  /\ Client.log_with LOG_LEVEL message level = Parser.log_with LOG_LEVEL message level.
Proof.
  unfold Parser.log, Client.log, Parser.log_with, Client.log_with.
  split; [|split; [|split; [|split; [|split]]]].
  - unfold log_levels at 1.
    destruct (String.eqb LOG_LEVEL "WARN"); [reflexivity|].
    destruct (String.eqb LOG_LEVEL "INFO"); [reflexivity|].
    destruct (String.eqb LOG_LEVEL "DEBUG"); reflexivity.
  - unfold log_levels at 1. split.
    + destruct (String.eqb LOG_LEVEL "WARN"); [intros H; now contradiction H|].
      destruct (String.eqb LOG_LEVEL "INFO"); [intros H; now contradiction H|].
      destruct (String.eqb LOG_LEVEL "DEBUG") eqn:E; [|intros H; now contradiction H].
      intros _. now apply String.eqb_eq.
    + intros ->. discriminate.
  - intros H. rewrite H. change (log_levels "INFO") with (Some 2).
    destruct (_ <=? 2); split; intros E; try reflexivity; discriminate.
  - reflexivity.
  - unfold log_levels.
    destruct (String.eqb level "WARN"); [reflexivity|].
    destruct (String.eqb level "INFO"); [reflexivity|].
    destruct (String.eqb level "DEBUG"); reflexivity.
  - reflexivity.
Qed.

(* ===================================================================== *)
(** * Further properties of the inference engine *)
(* ===================================================================== *)

(** X11: the finish cascade mirrors the start cascade. When some event enters
    a status of the configured finish set and the latest such event carries
    a timestamp, the string [t], finish is [t] and the method is
    "Last development finish status", whatever happened after it. *)
Theorem last_development_finish_status (statuses : development_statuses)
  (jira_data : Py.value) (pre post : list change) (c : change) (t : string) :
  Parser.collect_status_changes jira_data = Py.Ok (pre ++ c :: post) ->
  enters (finish_statuses statuses) c ->
  (forall p, In p post -> ~ enters (finish_statuses statuses) p) ->
  created c = Py.PStr t ->
  exists r,
    Parser.detect_actual_dates_with statuses jira_data = Py.Ok r
    /\ finish r = Py.PStr t
    /\ finish_method r = Py.PStr "Last development finish status".
Proof.
  intros Hcol Hc Hpost Ht.
  exists (Parser.select_dates statuses (pre ++ c :: post)). split.
  { apply detect_on_collected; [assumption|]. now destruct pre. }
  pose proof (finish_strategies_eq statuses (pre ++ c :: post)) as Hf.
  unfold next_created in Hf at 1.
  rewrite (find_latest _ _ pre post c) in Hf.
  - rewrite Ht in Hf. apply finish_of_select in Hf as [-> ->].
    rewrite first_not_none_first, eq_str_refl. split; reflexivity.
  - intros p Hp. apply not_enters_contains. now apply Hpost.
  - now apply contains_enters.
Qed.

Lemma last_development_finish_status_witness :
  exists r,
    Parser.detect_actual_dates issue_reopened = Py.Ok r
    /\ finish r = Py.PStr "2024-03-06T17:00:00"
    /\ finish_method r = Py.PStr "Last development finish status".
Proof.
  apply (last_development_finish_status Parser.DEVELOPMENT_STATUSES issue_reopened
           [ {| created := Py.PStr "2024-03-04T09:00:00";
                from := Py.PStr "Open"; to := Py.PStr "In Progress" |} ]
           [ {| created := Py.PStr "2024-03-07T11:00:00";
                from := Py.PStr "Deployed AC"; to := Py.PStr "Reopened" |} ]
           {| created := Py.PStr "2024-03-06T17:00:00";
              from := Py.PStr "In Progress"; to := Py.PStr "Deployed AC" |}
           "2024-03-06T17:00:00").
  - reflexivity.
  - exists "Deployed AC". split; [reflexivity | simpl; auto].
  - intros p [<-|[]] (s & H & Hin); simpl in H; injection H as <-;
      simpl in Hin; destruct Hin as [E|[E|[]]]; discriminate E.
  - reflexivity.
Defined.

(** X12: when no event enters a status of the configured finish set, some
    event enters exactly "Deployed AC" and the latest such event carries a
    timestamp, the string [t], finish is [t] and the method is
    "Last 'Deployed AC' status". *)
Theorem last_deployed_ac_status (statuses : development_statuses)
  (jira_data : Py.value) (pre post : list change) (c : change) (t : string) :
  Parser.collect_status_changes jira_data = Py.Ok (pre ++ c :: post) ->
  (forall e, In e (pre ++ c :: post) -> ~ enters (finish_statuses statuses) e) ->
  to c = Py.PStr "Deployed AC" ->
  (forall p, In p post -> to p <> Py.PStr "Deployed AC") ->
  created c = Py.PStr t ->
  exists r,
    Parser.detect_actual_dates_with statuses jira_data = Py.Ok r
    /\ finish r = Py.PStr t
    /\ finish_method r = Py.PStr "Last 'Deployed AC' status".
Proof.
  intros Hcol Hnone Hc Hpost Ht.
  exists (Parser.select_dates statuses (pre ++ c :: post)). split.
  { apply detect_on_collected; [assumption|]. now destruct pre. }
  pose proof (finish_strategies_eq statuses (pre ++ c :: post)) as Hf.
  unfold next_created in Hf at 1 2.
  rewrite find_all_false in Hf
    by (intros e He; apply not_enters_contains; apply Hnone; now apply in_rev).
  rewrite (find_latest _ _ pre post c) in Hf.
  - rewrite Ht in Hf. apply finish_of_select in Hf as [-> ->].
    rewrite first_not_none_second by discriminate.
    simpl Py.eq at 1. rewrite eq_str_refl. split; reflexivity.
  - intros p Hp.
    destruct (Py.eq (to p) (Py.PStr "Deployed AC")) eqn:E; [|reflexivity].
    apply eq_str_r in E. now apply Hpost in E.
  - now apply eq_str_r.
Qed.

Lemma last_deployed_ac_status_witness :
  exists r,
    Parser.detect_actual_dates_with ready_only issue_reopened = Py.Ok r
    /\ finish r = Py.PStr "2024-03-06T17:00:00"
    /\ finish_method r = Py.PStr "Last 'Deployed AC' status".
Proof.
  apply (last_deployed_ac_status ready_only issue_reopened
           [ {| created := Py.PStr "2024-03-04T09:00:00";
                from := Py.PStr "Open"; to := Py.PStr "In Progress" |} ]
           [ {| created := Py.PStr "2024-03-07T11:00:00";
                from := Py.PStr "Deployed AC"; to := Py.PStr "Reopened" |} ]
           {| created := Py.PStr "2024-03-06T17:00:00";
              from := Py.PStr "In Progress"; to := Py.PStr "Deployed AC" |}
           "2024-03-06T17:00:00").
  - reflexivity.
  - intros e [<-|[<-|[<-|[]]]] (s & H & Hin); simpl in H; injection H as <-;
      simpl in Hin; destruct Hin as [E|[]]; discriminate E.
  - reflexivity.
  - intros p [<-|[]]; discriminate.
  - reflexivity.
Defined.

(** X13: [detect_actual_dates] reads nothing but the changelog: two non-empty
    records with the same "changelog" entry give the same result, or raise
    the same exception. *)
Theorem detect_reads_changelog_only (statuses : development_statuses)
  (d1 d2 : list (string * Py.value)) :
  d1 <> [] -> d2 <> [] ->
  Py.lookup "changelog" d1 = Py.lookup "changelog" d2 ->
  Parser.detect_actual_dates_with statuses (Py.PDict d1)
  = Parser.detect_actual_dates_with statuses (Py.PDict d2).
Proof.
  intros H1 H2 H.
  unfold Parser.detect_actual_dates_with, Parser.collect_status_changes, Py.get.
  rewrite H. destruct d1; [now contradiction H1|]. destruct d2; [now contradiction H2|].
  reflexivity.
Qed.

Lemma detect_reads_changelog_only_witness :
  Parser.detect_actual_dates issue_mon_wed
  = Parser.detect_actual_dates
      (Py.PDict
         [("fields", Py.PDict [("summary", Py.PStr "Another issue")]);
          ("changelog", entry "changelog" issue_mon_wed)]).
Proof.
  apply (detect_reads_changelog_only Parser.DEVELOPMENT_STATUSES).
  - discriminate.
  - discriminate.
  - reflexivity.
Defined.

(** The search of the second strategy, read backwards. *)
Lemma find_after_planning_some (changes seen : list change) (i : nat) (c : change) :
  find (in_progress_after_planning (seen ++ changes))
    (combine (seq (List.length seen) (List.length changes)) changes)
  = Some (i, c) ->
  exists pre post, changes = pre ++ c :: post /\ after_planning (seen ++ pre) c.
Proof.
  revert seen. induction changes as [|x rest IH]; intros seen H; [discriminate|].
  simpl in H.
  destruct (in_progress_after_planning (seen ++ x :: rest) (List.length seen, x)) eqn:E.
  - injection H as <- <-. exists [], rest. split; [reflexivity|].
    rewrite app_nil_r.
    now apply (in_progress_after_planning_spec _ seen) in E; [|apply firstn_prefix].
  - replace (seen ++ x :: rest) with ((seen ++ [x]) ++ rest) in H
      by now rewrite <- app_assoc.
    replace (S (List.length seen)) with (List.length (seen ++ [x])) in H
      by (rewrite length_app; simpl; lia).
    apply IH in H as (pre & post & -> & Hc).
    exists (x :: pre), post. split; [reflexivity|].
    now rewrite <- app_assoc in Hc.
Qed.

Lemma find_after_planning_none_inv (changes seen : list change) :
  find (in_progress_after_planning (seen ++ changes))
    (combine (seq (List.length seen) (List.length changes)) changes)
  = None ->
  forall pre x post, changes = pre ++ x :: post -> ~ after_planning (seen ++ pre) x.
Proof.
  revert seen. induction changes as [|y rest IH]; intros seen H pre x post E.
  - now destruct pre.
  - simpl in H.
    destruct (in_progress_after_planning (seen ++ y :: rest) (List.length seen, y)) eqn:T;
      [discriminate|].
    destruct pre as [|p pre]; injection E as -> E.
    + rewrite app_nil_r. intros Hx. subst post.
      pose proof (proj2 (in_progress_after_planning_spec (seen ++ x :: rest) seen
                           (List.length seen) x (firstn_prefix _ seen (x :: rest)))
                    Hx) as T'.
      congruence.
    + replace (seen ++ p :: rest) with ((seen ++ [p]) ++ rest) in H
        by now rewrite <- app_assoc.
      replace (S (List.length seen)) with (List.length (seen ++ [p])) in H
        by (rewrite length_app; simpl; lia).
      replace (seen ++ p :: pre) with ((seen ++ [p]) ++ pre)
        by now rewrite <- app_assoc.
      now apply (IH _ H pre x post).
Qed.

(** X14: the start label names the strategy that fired. On a non-empty event
    sequence in which every event has a timestamp string, the method is
    "First development status" exactly when some event enters the start
    set; "First 'In Progress' after planning" exactly when none does and the
    planning-transition pattern occurs; "First status change" exactly when
    neither is the case. *)
Theorem start_method_names_strategy (statuses : development_statuses)
  (jira_data : Py.value) (changes : list change) :
  Parser.collect_status_changes jira_data = Py.Ok changes ->
  changes <> [] ->
  (forall c, In c changes -> exists t, created c = Py.PStr t) ->
  let direct := exists c, In c changes /\ enters (start_statuses statuses) c in
  let planned :=
    exists pre c post, changes = pre ++ c :: post /\ after_planning pre c in
  exists r,
    Parser.detect_actual_dates_with statuses jira_data = Py.Ok r
    /\ (start_method r = Py.PStr "First development status" <-> direct)
    /\ (start_method r = Py.PStr "First 'In Progress' after planning"
        <-> ~ direct /\ planned)
    /\ (start_method r = Py.PStr "First status change" <-> ~ direct /\ ~ planned).
Proof.
  intros Hcol Hne Hts direct planned.
  exists (Parser.select_dates statuses changes).
  split; [now apply detect_on_collected|].
  pose proof (start_strategies_eq statuses changes) as Hs.
  unfold next_created in Hs at 1.
  destruct (find (fun c => Py.contains (start_statuses statuses) (to c)) changes)
    as [c|] eqn:F0.
  - (* strategy 1 *)
    apply find_some in F0 as [Hin Hc]. apply contains_enters in Hc.
    destruct (Hts c Hin) as [t Ht]. rewrite Ht in Hs.
    apply start_of_select in Hs as [_ ->].
    rewrite first_not_none_first, eq_str_refl.
    assert (Hd : direct) by (exists c; now split).
    repeat split; try (intros; assumption); try discriminate;
      intros [Hnd _]; now contradiction Hnd.
  - assert (Hnd : ~ direct).
    { intros (c & Hin & Hc). apply contains_enters in Hc.
      now rewrite (find_none _ _ F0 c Hin) in Hc. }
    unfold enumerate in Hs.
    destruct (find (in_progress_after_planning changes)
                (combine (seq 0 (List.length changes)) changes)) as [[i c]|] eqn:F1.
    + (* strategy 2 *)
      pose proof (find_some _ _ F1) as [Hin _]. apply in_combine_r in Hin.
      apply (find_after_planning_some changes [] i c) in F1
        as (pre & post & E & Hc).
      destruct (Hts c Hin) as [t Ht]. simpl snd in Hs. rewrite Ht in Hs.
      apply start_of_select in Hs as [_ ->].
      rewrite first_not_none_second by discriminate.
      simpl Py.eq at 1. rewrite eq_str_refl.
      assert (Hp : planned) by (exists pre, c, post; now split).
      repeat split; try (intros; assumption); try discriminate.
      * intros Hd. now contradiction Hnd.
      * intros [_ Hnp]. now contradiction Hnp.
    + (* strategy 3 *)
      assert (Hnp : ~ planned).
      { intros (pre & c & post & E & Hc).
        exact (find_after_planning_none_inv changes [] F1 pre c post E Hc). }
      destruct changes as [|first rest]; [now contradiction Hne|].
      destruct (Hts first (or_introl eq_refl)) as [t Ht]. rewrite Ht in Hs.
      apply start_of_select in Hs as [_ ->].
      repeat split; try (intros; assumption); try discriminate.
      * intros Hd. now contradiction Hnd.
      * intros [_ Hp]. now contradiction Hnp.
Qed.

Lemma start_method_names_strategy_witness :
  exists r,
    Parser.detect_actual_dates issue_open_done = Py.Ok r
    /\ (start_method r = Py.PStr "First development status"
        <-> exists c, In c (status_events issue_open_done)
                      /\ enters (start_statuses Parser.DEVELOPMENT_STATUSES) c)
    /\ (start_method r = Py.PStr "First 'In Progress' after planning"
        <-> ~ (exists c, In c (status_events issue_open_done)
                         /\ enters (start_statuses Parser.DEVELOPMENT_STATUSES) c)
            /\ exists pre c post,
                 status_events issue_open_done = pre ++ c :: post
                 /\ after_planning pre c)
    /\ (start_method r = Py.PStr "First status change"
        <-> ~ (exists c, In c (status_events issue_open_done)
                         /\ enters (start_statuses Parser.DEVELOPMENT_STATUSES) c)
            /\ ~ exists pre c post,
                   status_events issue_open_done = pre ++ c :: post
                   /\ after_planning pre c).
Proof.
  apply (start_method_names_strategy Parser.DEVELOPMENT_STATUSES issue_open_done
           (status_events issue_open_done)).
  - reflexivity.
  - discriminate.
  - intros c [<-|[<-|[]]]; eexists; reflexivity.
Defined.

Lemma select_first_development_status (statuses : development_statuses)
  (pre post : list change) (c : change) (t : string) :
  enters (start_statuses statuses) c ->
  (forall p, In p pre -> ~ enters (start_statuses statuses) p) ->
  created c = Py.PStr t ->
  start (Parser.select_dates statuses (pre ++ c :: post)) = Py.PStr t
  /\ start_method (Parser.select_dates statuses (pre ++ c :: post))
     = Py.PStr "First development status".
Proof.
  intros Hc Hpre Ht.
  pose proof (start_strategies_eq statuses (pre ++ c :: post)) as Hs.
  unfold next_created in Hs at 1.
  rewrite (find_earliest _ _ pre post c) in Hs.
  - rewrite Ht in Hs. apply start_of_select in Hs as [-> ->].
    rewrite first_not_none_first, eq_str_refl. split; reflexivity.
  - intros p Hp. apply not_enters_contains. now apply Hpre.
  - now apply contains_enters.
Qed.

(** The collection loops add to what was collected before. *)
Lemma collect_items_acc (history : Py.value) (items : list Py.value) :
  forall acc,
    Parser.collect_items history items acc
    = (x <- Parser.collect_items history items [] ;; Py.Ok (acc ++ x)).
Proof.
  induction items as [|item rest IH]; intros acc; cbn [Parser.collect_items].
  - cbn. now rewrite app_nil_r.
  - destruct (Py.get item "field" Py.PNone) as [field|]; [|reflexivity].
    cbn [Py.bind]. destruct (Py.eq field (Py.PStr "status")); [|apply IH].
    destruct (Py.get history "created" Py.PNone) as [c|]; [|reflexivity].
    destruct (Py.get item "fromString" Py.PNone) as [f|]; [|reflexivity].
    destruct (Py.get item "toString" Py.PNone) as [t|]; [|reflexivity].
    cbn [Py.bind]. rewrite (IH (acc ++ _)), (IH ([] ++ _)).
    destruct (Parser.collect_items history rest []); [|reflexivity].
    cbn. now rewrite <- app_assoc.
Qed.

Lemma collect_histories_acc (histories : list Py.value) :
  forall acc,
    Parser.collect_histories histories acc
    = (x <- Parser.collect_histories histories [] ;; Py.Ok (acc ++ x)).
Proof.
  induction histories as [|history rest IH]; intros acc; cbn [Parser.collect_histories].
  - cbn. now rewrite app_nil_r.
  - destruct (Py.get history "items" (Py.PList [])) as [items|]; [|reflexivity].
    cbn [Py.bind]. destruct (Py.iter items) as [its|]; [|reflexivity].
    cbn [Py.bind]. rewrite (collect_items_acc history its acc).
    destruct (Parser.collect_items history its []) as [x|]; [|reflexivity].
    cbn [Py.bind]. rewrite (IH (acc ++ x)), (IH x).
    destruct (Parser.collect_histories rest []); [|reflexivity].
    cbn. now rewrite <- app_assoc.
Qed.

Lemma collect_histories_app (h1 h2 : list Py.value) :
  forall acc,
    Parser.collect_histories (h1 ++ h2) acc
    = (x <- Parser.collect_histories h1 acc ;; Parser.collect_histories h2 x).
Proof.
  induction h1 as [|history rest IH]; intros acc; [reflexivity|].
  cbn [app Parser.collect_histories].
  destruct (Py.get history "items" (Py.PList [])) as [items|]; [|reflexivity].
  cbn [Py.bind]. destruct (Py.iter items) as [its|]; [|reflexivity].
  cbn [Py.bind].
  destruct (Parser.collect_items history its acc) as [x|]; [|reflexivity].
  cbn [Py.bind]. apply IH.
Qed.

Lemma collect_issue_of_app (h1 h2 : list Py.value) (e1 e2 : list change) :
  Parser.collect_status_changes (issue_of h1) = Py.Ok e1 ->
  Parser.collect_status_changes (issue_of h2) = Py.Ok e2 ->
  Parser.collect_status_changes (issue_of (h1 ++ h2)) = Py.Ok (e1 ++ e2).
Proof.
  change (Parser.collect_histories h1 [] = Py.Ok e1 ->
          Parser.collect_histories h2 [] = Py.Ok e2 ->
          Parser.collect_histories (h1 ++ h2) [] = Py.Ok (e1 ++ e2)).
  intros H1 H2. rewrite collect_histories_app, H1. cbn [Py.bind].
  now rewrite collect_histories_acc, H2.
Qed.

(** X15: history entries added after the ones already there only append
    events: the events collected from [h1 ++ h2] are those of [h1] followed
    by those of [h2]. *)
Theorem new_history_appends (h1 h2 : list Py.value) (e1 e2 : list change) :
  Parser.collect_status_changes (issue_of h1) = Py.Ok e1 ->
  Parser.collect_status_changes (issue_of h2) = Py.Ok e2 ->
  Parser.collect_status_changes (issue_of (h1 ++ h2)) = Py.Ok (e1 ++ e2).
Proof. apply collect_issue_of_app. Qed.

Lemma new_history_appends_witness :
  Parser.collect_status_changes
    (issue_of ([status_history "2024-03-04T09:00:00" "Open" "In Progress"]
               ++ [status_history "2024-03-06T17:00:00" "In Progress" "Deployed AC"]))
  = Py.Ok ([ {| created := Py.PStr "2024-03-04T09:00:00";
                from := Py.PStr "Open"; to := Py.PStr "In Progress" |} ]
           ++ [ {| created := Py.PStr "2024-03-06T17:00:00";
                   from := Py.PStr "In Progress"; to := Py.PStr "Deployed AC" |} ]).
Proof.
  apply new_history_appends; reflexivity.
Defined.

(** X16: a start found by the first strategy is final: whatever history
    entries are added later, the start and its method stay the same. *)
Theorem start_survives_new_history (statuses : development_statuses)
  (h1 h2 : list Py.value) (pre post e2 : list change) (c : change) (t : string) :
  Parser.collect_status_changes (issue_of h1) = Py.Ok (pre ++ c :: post) ->
  Parser.collect_status_changes (issue_of h2) = Py.Ok e2 ->
  enters (start_statuses statuses) c ->
  (forall p, In p pre -> ~ enters (start_statuses statuses) p) ->
  created c = Py.PStr t ->
  exists r1 r2,
    Parser.detect_actual_dates_with statuses (issue_of h1) = Py.Ok r1
    /\ Parser.detect_actual_dates_with statuses (issue_of (h1 ++ h2)) = Py.Ok r2
    /\ start r1 = Py.PStr t /\ start r2 = Py.PStr t
    /\ start_method r1 = Py.PStr "First development status"
    /\ start_method r2 = Py.PStr "First development status".
Proof.
  intros H1 H2 Hc Hpre Ht.
  pose proof (collect_issue_of_app h1 h2 _ _ H1 H2) as H12.
  rewrite <- app_assoc in H12. cbn [app] in H12.
  exists (Parser.select_dates statuses (pre ++ c :: post)),
         (Parser.select_dates statuses (pre ++ c :: post ++ e2)).
  split; [apply detect_on_collected; [assumption | now destruct pre]|].
  split; [apply detect_on_collected; [assumption | now destruct pre]|].
  destruct (select_first_development_status statuses pre post c t Hc Hpre Ht).
  destruct (select_first_development_status statuses pre (post ++ e2) c t Hc Hpre Ht).
  repeat split; assumption.
Qed.

Lemma start_survives_new_history_witness :
  exists r1 r2,
    Parser.detect_actual_dates
      (issue_of [status_history "2024-03-04T09:00:00" "Open" "In Progress"]) = Py.Ok r1
    /\ Parser.detect_actual_dates
         (issue_of ([status_history "2024-03-04T09:00:00" "Open" "In Progress"]
                    ++ [status_history "2024-03-05T09:00:00" "In Progress" "Code review"]))
       = Py.Ok r2
    /\ start r1 = Py.PStr "2024-03-04T09:00:00"
    /\ start r2 = Py.PStr "2024-03-04T09:00:00"
    /\ start_method r1 = Py.PStr "First development status"
    /\ start_method r2 = Py.PStr "First development status".
Proof.
  apply (start_survives_new_history Parser.DEVELOPMENT_STATUSES
           [status_history "2024-03-04T09:00:00" "Open" "In Progress"]
           [status_history "2024-03-05T09:00:00" "In Progress" "Code review"]
           [] []
           [ {| created := Py.PStr "2024-03-05T09:00:00";
                from := Py.PStr "In Progress"; to := Py.PStr "Code review" |} ]
           {| created := Py.PStr "2024-03-04T09:00:00";
              from := Py.PStr "Open"; to := Py.PStr "In Progress" |}
           "2024-03-04T09:00:00").
  - reflexivity.
  - reflexivity.
  - exists "In Progress". split; [reflexivity | simpl; auto].
  - intros p [].
  - reflexivity.
Defined.

(* ===================================================================== *)
(* ===================================================================== *)
(** * [extract_jira_data] *)
(* ===================================================================== *)

(** On [None] and on strings, the untyped [calculate_duration] is the one
    modelled on [Optional[str]]. *)
Lemma calculate_duration_value_optional
  (fromisoformat : string -> option DateTime.datetime)
  (start_date end_date : option string) :
  Parser.calculate_duration_value fromisoformat
    (optional_str start_date) (optional_str end_date)
  = Parser.calculate_duration fromisoformat start_date end_date.
Proof.
  unfold Parser.calculate_duration_value, Parser.calculate_duration.
  destruct start_date as [s|], end_date as [e|]; cbn [optional_str Py.truthy not_str];
    try reflexivity.
  - destruct (String.eqb s ""), (String.eqb e ""); try reflexivity.
  - now destruct (String.eqb s "").
Qed.

(** On strings and [None], [calculate_duration] returns, or raises the
    [OverflowError] of its loop. *)
Lemma calculate_duration_value_returns
  (fromisoformat : string -> option DateTime.datetime) (v w : Py.value) :
  str_or_none v = true -> str_or_none w = true ->
  (exists d, Parser.calculate_duration_value fromisoformat v w = Some (Py.Ok d))
  \/ Parser.calculate_duration_value fromisoformat v w
     = Some (Py.Raise Py.OverflowError).
Proof.
  intros Hv Hw.
  assert (Ev : exists s, v = optional_str s).
  { destruct v; try discriminate; [now exists None | now exists (Some s)]. }
  assert (Ew : exists s, w = optional_str s).
  { destruct w; try discriminate; [now exists None | now exists (Some s)]. }
  destruct Ev as [s ->], Ew as [e ->].
  rewrite calculate_duration_value_optional.
  pose proof (proj2 (calculate_duration_returns fromisoformat s e)) as H.
  destruct (Parser.calculate_duration fromisoformat s e) as [[d|x]|] eqn:E.
  - left. now exists d.
  - right. apply calculate_duration_raises in E. now subst x.
  - now contradiction H.
Qed.

Lemma candidate_str_or_none (changes : list change) (v : Py.value) :
  (forall c, In c changes -> str_or_none (created c) = true) ->
  candidate changes v -> str_or_none v = true.
Proof. intros H [-> | (c & Hin & ->)]; [reflexivity | now apply H]. Qed.

(** X17: on a record of the expected shape whose "fields", when present, is
    a dictionary, whose two planned dates and whose event timestamps are
    strings or absent, [extract_jira_data] raises neither [AttributeError]
    nor [TypeError]: it returns, [None] for a falsy record and the details
    otherwise, or it raises the [OverflowError] of a duration loop. *)
Theorem extract_jira_data_expected_shape (statuses : development_statuses)
  (fromisoformat : string -> option DateTime.datetime) (jira_data : Py.value) :
  well_shaped jira_data = true ->
  absent_or is_dict "fields" jira_data = true ->
  str_or_none (entry "customfield_15990" (entry "fields" jira_data)) = true ->
  str_or_none (entry "customfield_15994" (entry "fields" jira_data)) = true ->
  (forall c, In c (status_events jira_data) -> str_or_none (created c) = true) ->
  (exists d,
     Parser.extract_jira_data_with statuses fromisoformat jira_data = Some (Py.Ok d)
     /\ (d = None <-> Py.truthy jira_data = false))
  \/ Parser.extract_jira_data_with statuses fromisoformat jira_data
     = Some (Py.Raise Py.OverflowError).
Proof.
  intros Hw Hf H1 H2 Hts. unfold Parser.extract_jira_data_with.
  destruct (Py.truthy jira_data) eqn:T; cbn [negb].
  2:{ left. exists None. split; [reflexivity | now split]. }
  assert (P : forall name,
             Parser.planned_field name jira_data
             = Py.Ok (entry name (entry "fields" jira_data))).
  { intros name. unfold Parser.planned_field.
    destruct jira_data as [| | | | |d]; try discriminate. cbn in Hf |- *.
    destruct (Py.lookup "fields" d) as [fields|]; [|reflexivity].
    destruct fields; try discriminate. reflexivity. }
  rewrite !P.
  unfold Parser.detect_actual_dates_with. rewrite T. cbn [negb].
  rewrite (collect_status_changes_well_shaped _ Hw). cbn [Py.bind].
  destruct (calculate_duration_value_returns fromisoformat _ _ H1 H2)
    as [[pd ->] | ->]; [|now right].
  set (r := Parser.select_dates statuses (status_events jira_data)).
  assert (Hs : str_or_none (start r) = true).
  { apply (candidate_str_or_none (status_events jira_data)); [assumption|].
    apply first_not_none_candidate, start_candidates. }
  assert (Hfin : str_or_none (finish r) = true).
  { apply (candidate_str_or_none (status_events jira_data)); [assumption|].
    apply first_not_none_candidate, finish_candidates. }
  destruct (calculate_duration_value_returns fromisoformat _ _ Hs Hfin)
    as [[ad ->] | ->]; [|now right].
  left. eexists. split; [reflexivity|]. split; discriminate.
Qed.

Lemma extract_jira_data_expected_shape_witness :
  (exists d,
     Parser.extract_jira_data DateTime.fromisoformat_fixed issue_mon_wed
     = Some (Py.Ok d)
     /\ (d = None <-> Py.truthy issue_mon_wed = false))
  \/ Parser.extract_jira_data DateTime.fromisoformat_fixed issue_mon_wed
     = Some (Py.Raise Py.OverflowError).
Proof.
  apply (extract_jira_data_expected_shape Parser.DEVELOPMENT_STATUSES
           DateTime.fromisoformat_fixed issue_mon_wed).
  - reflexivity.
  - reflexivity.
  - reflexivity.
  - reflexivity.
  - intros c [<-|[<-|[]]]; reflexivity.
Defined.

(** X18: on a truthy record whose two planned fields can be read, with a
    planned start that is truthy but not a string and a truthy planned
    finish, [extract_jira_data] raises, always: the exception of
    [detect_actual_dates] when that call, which comes first, raises, and
    otherwise [AttributeError], because [calculate_duration] calls
    [.replace] on the planned start and its [except] clause names
    [ValueError] and [TypeError] only. *)
Theorem extract_jira_data_non_string_date (statuses : development_statuses)
  (fromisoformat : string -> option DateTime.datetime)
  (jira_data planned_start planned_finish : Py.value) :
  Py.truthy jira_data = true ->
  Parser.planned_field "customfield_15990" jira_data = Py.Ok planned_start ->
  Parser.planned_field "customfield_15994" jira_data = Py.Ok planned_finish ->
  Py.truthy planned_start = true ->
  Py.truthy planned_finish = true ->
  (forall s, planned_start <> Py.PStr s) ->
  Parser.extract_jira_data_with statuses fromisoformat jira_data
  = match Parser.detect_actual_dates_with statuses jira_data with
    | Py.Ok _ => Some (Py.Raise Py.AttributeError)
    | Py.Raise e => Some (Py.Raise e)
    end.
Proof.
  intros T P1 P2 T1 T2 Hns. unfold Parser.extract_jira_data_with.
  rewrite T, P1, P2. cbn [negb].
  destruct (Parser.detect_actual_dates_with statuses jira_data) as [r|e];
    [|reflexivity].
  unfold Parser.calculate_duration_value. rewrite T1, T2. cbn [negb orb].
  destruct planned_start; try reflexivity. now contradiction (Hns s).
Qed.

Lemma extract_jira_data_non_string_date_witness :
  Parser.extract_jira_data DateTime.fromisoformat_fixed issue_numeric_plan
  = Some (Py.Raise Py.AttributeError)
  /\ Parser.extract_jira_data DateTime.fromisoformat_fixed
       issue_numeric_plan_null_items
     = Some (Py.Raise Py.TypeError).
Proof.
  split.
  - apply (extract_jira_data_non_string_date Parser.DEVELOPMENT_STATUSES
             DateTime.fromisoformat_fixed issue_numeric_plan
             (Py.PInt 20240304) (Py.PInt 20240308)).
    + reflexivity.
    + reflexivity.
    + reflexivity.
    + reflexivity.
    + reflexivity.
    + discriminate.
  - apply (extract_jira_data_non_string_date Parser.DEVELOPMENT_STATUSES
             DateTime.fromisoformat_fixed issue_numeric_plan_null_items
             (Py.PInt 20240304) (Py.PInt 20240308)).
    + reflexivity.
    + reflexivity.
    + reflexivity.
    + reflexivity.
    + reflexivity.
    + discriminate.
Defined.

(** [extract_jira_data] on an issue with a single status change, at the
    timestamp [t], and no "fields" entry: everything but the actual
    duration is settled. *)
Lemma extract_single_status_change_with (statuses : development_statuses)
  (fromisoformat : string -> option DateTime.datetime)
  (jira_data : Py.value) (c : change) (t : string) :
  Parser.collect_status_changes jira_data = Py.Ok [c] ->
  has_key "fields" jira_data = false ->
  created c = Py.PStr t ->
  Parser.extract_jira_data_with statuses fromisoformat jira_data
  = match Parser.calculate_duration fromisoformat (Some t) (Some t) with
    | None => None
    | Some (Py.Raise e) => Some (Py.Raise e)
    | Some (Py.Ok actual_duration) =>
        Some (Py.Ok (Some
          {| Planned_start := Py.PNone;
             Planned_finish := Py.PNone;
             Planned_duration := Py.PNone;
             Actual_start := Py.PStr t;
             Actual_finish := Py.PStr t;
             Actual_duration := Parser.duration_entry actual_duration;
             Start_method := start_method (Parser.select_dates statuses [c]);
             Finish_method := finish_method (Parser.select_dates statuses [c]) |}))
    end.
Proof.
  intros Hcol Hfields Ht. unfold Parser.extract_jira_data_with.
  rewrite (collected_truthy _ _ Hcol ltac:(discriminate)). cbn [negb].
  assert (P : forall name, Parser.planned_field name jira_data = Py.Ok Py.PNone).
  { intros name. unfold Parser.planned_field.
    destruct jira_data as [| | | | |d]; try discriminate. cbn in Hfields |- *.
    destruct (Py.lookup "fields" d); [discriminate | reflexivity]. }
  rewrite !P.
  rewrite (detect_on_collected statuses _ _ Hcol ltac:(discriminate)).
  change (Parser.calculate_duration_value fromisoformat Py.PNone Py.PNone)
    with (Some (Py.Ok (@None Z))).
  pose proof (start_strategies_eq statuses [c]) as Hs.
  pose proof (finish_strategies_eq statuses [c]) as Hf.
  cbn [last] in Hf.
  assert (Es : start (Parser.select_dates statuses [c]) = Py.PStr t).
  { destruct (first_not_none_candidate _ _ (start_candidates statuses [c]))
      as [E|(c' & [<-|[]] & E)].
    - exfalso. unfold Parser.select_dates in E. cbn [start] in E.
      apply (first_not_none_present (Parser.start_strategies statuses [c]) (created c));
        [rewrite Hs; right; right; now left | rewrite Ht; discriminate | exact E].
    - unfold Parser.select_dates in *. cbn [start] in *. now rewrite E. }
  assert (Ef : finish (Parser.select_dates statuses [c]) = Py.PStr t).
  { destruct (first_not_none_candidate _ _ (finish_candidates statuses [c]))
      as [E|(c' & [<-|[]] & E)].
    - exfalso. unfold Parser.select_dates in E. cbn [finish] in E.
      apply (first_not_none_present (Parser.finish_strategies statuses [c]) (created c));
        [rewrite Hf; right; right; now left | rewrite Ht; discriminate | exact E].
    - unfold Parser.select_dates in *. cbn [finish] in *. now rewrite E. }
  rewrite Es, Ef.
  change (Py.PStr t) with (optional_str (Some t)).
  rewrite calculate_duration_value_optional.
  destruct (Parser.calculate_duration fromisoformat (Some t) (Some t)) as [[d|e]|];
    reflexivity.
Qed.

(** X19: for an issue with a single status change, at a timestamp that parses
    and lies before 9999-12-31, and no "fields" entry, [extract_jira_data]
    returns that timestamp as actual start and as actual finish, an actual
    duration of 1 when it falls on Monday to Friday and of 0 on a weekend,
    and no planned values. *)
Theorem extract_single_status_change (statuses : development_statuses)
  (fromisoformat : string -> option DateTime.datetime)
  (jira_data : Py.value) (c : change) (t : string) (x : DateTime.datetime) :
  Parser.collect_status_changes jira_data = Py.Ok [c] ->
  has_key "fields" jira_data = false ->
  created c = Py.PStr t ->
  parses fromisoformat t x ->
  DateTime.toordinal x < DateTime.MAXORDINAL ->
  exists d,
    Parser.extract_jira_data_with statuses fromisoformat jira_data
    = Some (Py.Ok (Some d))
    /\ Actual_start d = Py.PStr t /\ Actual_finish d = Py.PStr t
    /\ Actual_duration d = Py.PInt (if DateTime.weekday x <? 5 then 1 else 0)
    /\ Planned_start d = Py.PNone /\ Planned_finish d = Py.PNone
    /\ Planned_duration d = Py.PNone.
Proof.
  intros Hcol Hfields Ht Hp Hx.
  rewrite (extract_single_status_change_with statuses fromisoformat _ c t
             Hcol Hfields Ht).
  destruct (calculate_duration_loop fromisoformat t t x x Hp Hp) as [_ ->].
  rewrite while_loop_one_day, add_days_ok.
  - eexists. split; [reflexivity|]. cbn. repeat split.
  - destruct Hp as (_ & _ & Hr). apply in_range_bounds in Hr.
    apply in_range_bounds. cbn [DateTime.plus_days DateTime.wall].
    pose proof (before_last_day x Hx). pose proof DAY_pos. lia.
Qed.

Lemma extract_single_status_change_witness :
  exists d,
    Parser.extract_jira_data DateTime.fromisoformat_fixed issue_one_change
    = Some (Py.Ok (Some d))
    /\ Actual_start d = Py.PStr "2024-03-04T09:00:00"
    /\ Actual_finish d = Py.PStr "2024-03-04T09:00:00"
    /\ Actual_duration d = Py.PInt 1
    /\ Planned_start d = Py.PNone /\ Planned_finish d = Py.PNone
    /\ Planned_duration d = Py.PNone.
Proof.
  apply (extract_single_status_change Parser.DEVELOPMENT_STATUSES
           DateTime.fromisoformat_fixed issue_one_change
           {| created := Py.PStr "2024-03-04T09:00:00";
              from := Py.PStr "Open"; to := Py.PStr "In Progress" |}
           "2024-03-04T09:00:00" (DateTime.make 2024 3 4 9 0 0 None)).
  - reflexivity.
  - reflexivity.
  - reflexivity.
  - split; [discriminate | split; vm_compute; reflexivity].
  - vm_compute; reflexivity.
Defined.

(** X27: for an issue with a single status change, at a timestamp that parses
    and lies on 9999-12-31, and no "fields" entry, [extract_jira_data]
    raises the [OverflowError] of the loop of [calculate_duration]. *)
Theorem extract_single_status_change_last_day (statuses : development_statuses)
  (fromisoformat : string -> option DateTime.datetime)
  (jira_data : Py.value) (c : change) (t : string) (x : DateTime.datetime) :
  Parser.collect_status_changes jira_data = Py.Ok [c] ->
  has_key "fields" jira_data = false ->
  created c = Py.PStr t ->
  parses fromisoformat t x ->
  DateTime.toordinal x = DateTime.MAXORDINAL ->
  Parser.extract_jira_data_with statuses fromisoformat jira_data
  = Some (Py.Raise Py.OverflowError).
Proof.
  intros Hcol Hfields Ht Hp Hx.
  rewrite (extract_single_status_change_with statuses fromisoformat _ c t
             Hcol Hfields Ht).
  destruct (calculate_duration_loop fromisoformat t t x x Hp Hp) as [_ ->].
  rewrite while_loop_one_day, last_day_overflows by lia. reflexivity.
Qed.

Lemma extract_single_status_change_last_day_witness :
  Parser.extract_jira_data DateTime.fromisoformat_fixed issue_last_day
  = Some (Py.Raise Py.OverflowError).
Proof.
  apply (extract_single_status_change_last_day Parser.DEVELOPMENT_STATUSES
           DateTime.fromisoformat_fixed issue_last_day
           {| created := Py.PStr "9999-12-31T10:00:00";
              from := Py.PStr "Open"; to := Py.PStr "In Progress" |}
           "9999-12-31T10:00:00" (DateTime.make 9999 12 31 10 0 0 None)).
  - reflexivity.
  - reflexivity.
  - reflexivity.
  - split; [discriminate | split; vm_compute; reflexivity].
  - vm_compute; reflexivity.
Defined.

(** X20: [extract_jira_data] returns [None] for a falsy record and for no
    other: on a record that passed the caller's [if jira_data:] test it
    returns the details or raises, so the caller's branch for missing
    details is never taken. *)
Theorem extract_jira_data_none_iff_falsy (statuses : development_statuses)
  (fromisoformat : string -> option DateTime.datetime) (jira_data : Py.value) :
  Parser.extract_jira_data_with statuses fromisoformat jira_data = Some (Py.Ok None)
  <-> Py.truthy jira_data = false.
Proof.
  unfold Parser.extract_jira_data_with.
  destruct (Py.truthy jira_data); cbn [negb]; [|now split].
  split; [|discriminate].
  destruct (Parser.planned_field "customfield_15990" jira_data); [|discriminate].
  destruct (Parser.planned_field "customfield_15994" jira_data); [|discriminate].
  destruct (Parser.detect_actual_dates_with statuses jira_data); [|discriminate].
  destruct (Parser.calculate_duration_value fromisoformat a a0) as [[?|?]|];
    try discriminate.
  destruct (Parser.calculate_duration_value fromisoformat (start a1) (finish a1))
    as [[?|?]|]; discriminate.
Qed.

(* ===================================================================== *)
(** * Termination, and the calendar lemmas at work *)
(* ===================================================================== *)

(** X21: the two [while] loops terminate: both copies of [calculate_duration]
    and [get_date_range] return or raise on every input, whatever the
    library functions do. *)
Theorem loops_terminate
  (fromisoformat : string -> option DateTime.datetime)
  (isoformat : DateTime.datetime -> string)
  (start_date end_date : option string) (s : string) (days : Z) :
  DateUtils.calculate_duration fromisoformat start_date end_date <> None
  /\ Parser.calculate_duration fromisoformat start_date end_date <> None
  /\ DateUtils.get_date_range fromisoformat isoformat s days <> None.
Proof.
  destruct (calculate_duration_returns fromisoformat start_date end_date).
  repeat split; try assumption. apply get_date_range_returns.
Qed.

Lemma duration_is_business_days_witness :
  DateUtils.calculate_duration DateTime.fromisoformat_fixed
    (Some "2024-03-01T09:00:00Z") (Some "2024-03-11T17:30:00Z")
  = Some (Py.Ok (Some 7))
  /\ Parser.calculate_duration DateTime.fromisoformat_fixed
       (Some "2024-03-01T09:00:00Z") (Some "2024-03-11T17:30:00Z")
     = Some (Py.Ok (Some 7)).
Proof.
  apply (duration_is_business_days DateTime.fromisoformat_fixed
           "2024-03-01T09:00:00Z" "2024-03-11T17:30:00Z"
           (DateTime.make 2024 3 1 9 0 0 (Some 0))
           (DateTime.make 2024 3 11 17 30 0 (Some 0))).
  - split; [discriminate | split; vm_compute; reflexivity].
  - split; [discriminate | split; vm_compute; reflexivity].
  - reflexivity.
  - vm_compute. discriminate.
  - vm_compute; reflexivity.
Defined.

Lemma duration_leaves_out_end_date_witness :
  DateUtils.calculate_duration DateTime.fromisoformat_fixed
    (Some "2024-03-01T15:00:00") (Some "2024-03-04T09:00:00")
  = Some (Py.Ok (Some 1))
  /\ Parser.calculate_duration DateTime.fromisoformat_fixed
       (Some "2024-03-01T15:00:00") (Some "2024-03-04T09:00:00")
     = Some (Py.Ok (Some 1)).
Proof.
  apply (duration_leaves_out_end_date DateTime.fromisoformat_fixed
           "2024-03-01T15:00:00" "2024-03-04T09:00:00"
           (DateTime.make 2024 3 1 15 0 0 None) (DateTime.make 2024 3 4 9 0 0 None)).
  - split; [discriminate | split; vm_compute; reflexivity].
  - split; [discriminate | split; vm_compute; reflexivity].
  - reflexivity.
  - vm_compute. reflexivity.
Defined.
